(** * Catalog reconciliation engine: eligibility filter, taxonomy resolver,
      reconciliation index, diff calculator and batch scheduler.

    Shallow embedding of the JavaScript classes of the repository:
    - [ProductProcessor], the main application: [filterProducts],
      [processBatchedProducts], [processSingleBatch],
      [processFilteredProductsBatch], [testRun];
    - [ProductAnalyzer], the product count script: [filterProducts];
    - [ShopifyClient]: [categoryMap], [getCategoryId],
      [findBestCategoryMatch], [categorizeProducts],
      [doesProductNeedUpdate], [parsePrice], [processBatchDirect],
      [processBatchParallelWithUpdates],
      [processBatchSequentialWithUpdates], [processProductsFromCSV];
      the payload of a row ([mapCSVToShopifyProduct], [generateHandle],
      [createVariant], [createImages], [createMetafields],
      [generateProductDescription], [generateSEODescription],
      [extractProductType], [generateTags], [parseWeight]),
      [buildUpdateData], [extractNextPageUrl], [getAllProducts],
      [productExists], [createProduct], [processSingleProductFromCSV],
      [createProductsFromCSV], [processBatchParallel],
      [processBatchSequential];
    - [CSVProcessor], the reader of the feed: [processRow];
    - [ProductDeleter], the deletion script: [filterProductsByDate],
      [deleteProductsByDate], [processProductDeletions],
      [processBatchDeletion], [main].

    Conventions of the embedding.
    - A JavaScript string is a Rocq [string]; the case mapping and the
      white-space class are those of the ASCII range (other characters are
      left alone by [toLowerCase] and are not white space).
    - A property that may be missing ([undefined]) is an [option].
    - A JavaScript number is an exact decimal ([Q]), [NaN] or an infinity;
      the binary rounding of doubles is not part of the model, and integers
      are unbounded.
    - A thrown exception is the [Throw] of an error monad; a promise is the
      computation it settles from, and [Promise.allSettled] gives one settled
      state per promise.
    - A remote call is an oracle that gives the settled outcome of the call;
      the client is taken as initialized.
    - A loop [for (i = 0; i < n; i += step)] runs on fuel, so that a stride
      of 0 is a loop that does not end.
    - Logging is left out; the pauses of the schedulers are kept in a log of
      events. *)

From Stdlib Require Import ZArith QArith Strings.String Strings.Ascii List Bool Lia.
From Stdlib Require Import Qabs Qround Numbers.DecimalString.
From stdpp Require Import gmap strings.
Import ListNotations.

Local Open Scope string_scope.
Local Open Scope bool_scope.

(* ===================================================================== *)
(** ** The JavaScript primitives the sources use *)
(* ===================================================================== *)

Module JS.

(** *** Characters and strings *)

Definition code (c : ascii) : nat := nat_of_ascii c.

Definition isUpper (c : ascii) : bool :=
  (65 <=? code c)%nat && (code c <=? 90)%nat.

Definition toLowerChar (c : ascii) : ascii :=
  if isUpper c then ascii_of_nat (code c + 32) else c.

(** [String.prototype.toLowerCase] *)
Fixpoint toLowerCase (s : string) : string :=
  match s with
  | EmptyString => EmptyString
  | String c r => String (toLowerChar c) (toLowerCase r)
  end.

(** TAB, LF, VT, FF, CR and SPACE. *)
Definition isWhiteSpace (c : ascii) : bool :=
  ((9 <=? code c)%nat && (code c <=? 13)%nat) || (code c =? 32)%nat.

Definition isEmpty (s : string) : bool :=
  match s with EmptyString => true | String _ _ => false end.

Fixpoint trimStart (s : string) : string :=
  match s with
  | EmptyString => EmptyString
  | String c r => if isWhiteSpace c then trimStart r else s
  end.

Fixpoint trimEnd (s : string) : string :=
  match s with
  | EmptyString => EmptyString
  | String c r =>
      let r' := trimEnd r in
      if isWhiteSpace c && isEmpty r' then EmptyString else String c r'
  end.

(** [String.prototype.trim] *)
Definition trim (s : string) : string := trimEnd (trimStart s).

(** [s.includes(t)]: [t] occurs in [s] as a contiguous substring. *)
Fixpoint includes (s t : string) : bool :=
  String.prefix t s ||
  match s with
  | EmptyString => false
  | String _ r => includes r t
  end.

(** [s.replace(/c/g, '')] for a class of characters [p]. *)
Fixpoint removeAll (p : ascii -> bool) (s : string) : string :=
  match s with
  | EmptyString => EmptyString
  | String c r => if p c then removeAll p r else String c (removeAll p r)
  end.

(** [s.split(/[...]/)] for a class of separator characters [p]: the pieces
    between the separators, empty pieces included. *)
Fixpoint splitOn (p : ascii -> bool) (s : string) : list string :=
  match s with
  | EmptyString => [EmptyString]
  | String c r =>
      if p c then EmptyString :: splitOn p r
      else match splitOn p r with
           | [] => [String c EmptyString]
           | w :: ws => String c w :: ws
           end
  end.

(** *** Truthiness of an optional string and the [||] default *)

Definition truthy (o : option string) : bool :=
  match o with
  | Some s => negb (isEmpty s)
  | None => false
  end.

(** [o || d] where [d] is a string. *)
Definition orElse (o : option string) (d : string) : string :=
  match o with
  | Some s => if isEmpty s then d else s
  | None => d
  end.

(** [o1 || o2] where both may be missing. *)
Definition orOpt (o1 o2 : option string) : option string :=
  if truthy o1 then o1 else o2.

(** *** Numbers *)

Inductive number : Type :=
  | NaN
  | Fin (q : Q)
  | Inf (negative : bool).

Definition isNaN (x : number) : bool :=
  match x with NaN => true | _ => false end.

(** [x < y] *)
Definition lt (x y : number) : bool :=
  match x, y with
  | NaN, _ | _, NaN => false
  | Fin a, Fin b => negb (Qle_bool b a)
  | Fin _, Inf n => negb n
  | Inf n, Fin _ => n
  | Inf n, Inf m => n && negb m
  end.

(** [x > y] *)
Definition gt (x y : number) : bool := lt y x.

(** [x !== y] on numbers: [NaN] differs from everything. *)
Definition strictNe (x y : number) : bool :=
  match x, y with
  | Fin a, Fin b => negb (Qeq_bool a b)
  | Inf n, Inf m => negb (Bool.eqb n m)
  | _, _ => true
  end.

Definition isDigit (c : ascii) : bool :=
  (48 <=? code c)%nat && (code c <=? 57)%nat.

Definition digitVal (c : ascii) : Z := Z.of_nat (code c - 48).

(** The longest prefix of decimal digits, and what follows it. *)
Fixpoint spanDigits (s : string) : string * string :=
  match s with
  | EmptyString => (EmptyString, EmptyString)
  | String c r =>
      if isDigit c then let '(d, rest) := spanDigits r in (String c d, rest)
      else (EmptyString, s)
  end.

Fixpoint digitsValFrom (acc : Z) (s : string) : Z :=
  match s with
  | EmptyString => acc
  | String c r => digitsValFrom (10 * acc + digitVal c) r
  end.

Definition digitsVal (s : string) : Z := digitsValFrom 0 s.

(** An optional sign: whether it is a minus, and what follows it. *)
Definition takeSign (s : string) : bool * string :=
  match s with
  | String "-" r => (true, r)
  | String "+" r => (false, r)
  | _ => (false, s)
  end.

(** [m * 10^e] as an exact rational. *)
Definition decimal (m e : Z) : Q :=
  if (0 <=? e)%Z then inject_Z (m * 10 ^ e)
  else Qmake m (Z.to_pos (10 ^ (- e))).

(** The exponent part [e[+-]digits] when a digit follows, else nothing. *)
Definition exponentPart (s : string) : Z :=
  match s with
  | String c r =>
      if (code c =? 101)%nat || (code c =? 69)%nat then
        let '(eneg, r1) := takeSign r in
        let '(ed, _) := spanDigits r1 in
        if isEmpty ed then 0%Z
        else if eneg then (- digitsVal ed)%Z else digitsVal ed
      else 0%Z
  | EmptyString => 0%Z
  end.

(** [parseFloat(s)]: leading white space is skipped and the longest prefix
    that is a decimal literal is read; [NaN] when there is none. *)
Definition parseFloat (s : string) : number :=
  let '(neg, s2) := takeSign (trimStart s) in
  if String.prefix "Infinity" s2 then Inf neg
  else
    let '(ip, s3) := spanDigits s2 in
    let '(fp, s4) :=
      match s3 with
      | String "." r => spanDigits r
      | _ => (EmptyString, s3)
      end in
    if isEmpty ip && isEmpty fp then NaN
    else
      let m := digitsVal (ip ++ fp) in
      let e := (exponentPart s4 - Z.of_nat (String.length fp))%Z in
      Fin (decimal (if neg then (- m)%Z else m) e).

(** [parseFloat(o)] of a possibly missing property: [undefined] reads as the
    text "undefined", which is not a number. *)
Definition parseFloatOpt (o : option string) : number :=
  match o with
  | Some s => parseFloat s
  | None => NaN
  end.

Definition Z_to_string (z : Z) : string :=
  NilZero.string_of_uint (N.to_uint (Z.to_N z)).

(** [x.toFixed(2)] for a magnitude below 10^21: rounded to the nearest
    hundredth, the larger one on a tie of the magnitude. *)
Definition toFixed2 (x : number) : string :=
  match x with
  | NaN => "NaN"
  | Inf n => if n then "-Infinity" else "Infinity"
  | Fin q =>
      let neg := negb (Qle_bool 0 q) in
      let a := Qabs q in
      let n := Qfloor (a * 100 + (1 # 2)) in
      let cents := (n mod 100)%Z in
      (if neg then "-" else "") ++
      Z_to_string (n / 100) ++ "." ++
      (if (cents <? 10)%Z then "0" else "") ++ Z_to_string cents
  end.

Definition isHexDigit (c : ascii) : bool :=
  isDigit c
  || ((97 <=? code c)%nat && (code c <=? 102)%nat)
  || ((65 <=? code c)%nat && (code c <=? 70)%nat).

Definition hexVal (c : ascii) : Z :=
  if isDigit c then digitVal c
  else if (97 <=? code c)%nat then Z.of_nat (code c - 87)
  else Z.of_nat (code c - 55).

Fixpoint hexValFrom (acc : option Z) (s : string) : option Z :=
  match s with
  | EmptyString => acc
  | String c r =>
      if isHexDigit c
      then hexValFrom (Some (16 * default 0%Z acc + hexVal c)%Z) r
      else acc
  end.

(** [parseInt(s)] without a radix: [None] stands for [NaN]. *)
Definition parseInt (s : string) : option Z :=
  let '(neg, s2) := takeSign (trimStart s) in
  let mag :=
    if String.prefix "0x" s2 || String.prefix "0X" s2
    then hexValFrom None (String.substring 2 (String.length s2 - 2) s2)
    else let '(d, _) := spanDigits s2 in
         if isEmpty d then None else Some (digitsVal d) in
  match mag with
  | Some v => Some (if neg then (- v)%Z else v)
  | None => None
  end.

(** [parseInt(o) || 0] *)
Definition parseIntOr0 (o : option string) : Z :=
  match o with
  | Some s => default 0%Z (parseInt s)
  | None => 0%Z
  end.

(** *** More string primitives *)

(** [s.substring(0, n)] *)
Definition substring0 (n : nat) (s : string) : string := String.substring 0 n s.

(** [s.replace(/p+/g, '-')]: every maximal run of characters of the class
    [p] becomes one hyphen. [inRun] tells that the previous character was
    of the class. *)
Fixpoint collapseRunsFrom (p : ascii -> bool) (inRun : bool) (s : string) : string :=
  match s with
  | EmptyString => EmptyString
  | String c r =>
      if p c then
        if inRun then collapseRunsFrom p true r
        else String "-" (collapseRunsFrom p true r)
      else String c (collapseRunsFrom p false r)
  end.

Definition collapseRuns (p : ascii -> bool) (s : string) : string :=
  collapseRunsFrom p false s.

(** [s.replace(c, '')] for a character [c]: the first occurrence only. *)
Fixpoint removeFirst (p : ascii -> bool) (s : string) : string :=
  match s with
  | EmptyString => EmptyString
  | String c r => if p c then r else String c (removeFirst p r)
  end.

(** The text of a possibly missing value inside a template literal. *)
Definition templateOf (o : option string) : string :=
  match o with
  | Some s => s
  | None => "undefined"
  end.

(** [Math.round(x)]: the nearest integer, the larger one on a tie. *)
Definition round (q : Q) : Z := Qfloor (q + (1 # 2)).

(** The double quote character, as a string. *)
Definition dquote : string := String (ascii_of_nat 34) EmptyString.

(** [a.join(sep)] *)
Fixpoint join (sep : string) (l : list string) : string :=
  match l with
  | [] => EmptyString
  | [x] => x
  | x :: rest => x ++ sep ++ join sep rest
  end.

End JS.


(* ===================================================================== *)
(** ** Data model *)
(* ===================================================================== *)

(** One row of the feed, as the CSV reader yields it: every column is a
    string, or missing. *)
Record csvItem : Type := mkCsvItem {
  Item : option string;
  Description : option string;
  MSRP : option string;
  ContractPrice : option string;
  Qty_Avail : option string;
  Status : option string;
  Categories : option string;
  ProductLine : option string;
  Item_Type : option string
}.

(** [this.filterCriteria] *)
Record filterCriteria : Type := mkCriteria {
  msrpMin : Q;
  msrpMax : Q;
  productLines : list string
}.

(** The check of the filter callback that returned [false]. *)
Inductive rejection : Type :=
  | Discontinued
  | MsrpOutOfRange
  | NoMatchingProductLine
  | ExcludedCategories
  | ExcludedItemType
  | ExcludedTitle
  | PersonalizedProductLine
  | PersonalizedCategories
  | MissingItemOrDescription.

(* ===================================================================== *)
(** ** Exceptions, promises and loops *)
(* ===================================================================== *)

(** A small error monad: a computation returns a value or throws. *)
Inductive Exc (A : Type) : Type :=
  | Ok (a : A)
  | Throw (message : string).
Arguments Ok {A} a.
Arguments Throw {A} message.

Definition bindExc {A B : Type} (e : Exc A) (k : A -> Exc B) : Exc B :=
  match e with
  | Ok a => k a
  | Throw m => Throw m
  end.

(** [try { e } catch (error) { h error.message }] *)
Definition tryCatch {A : Type} (e : Exc A) (h : string -> Exc A) : Exc A :=
  match e with
  | Ok a => Ok a
  | Throw m => h m
  end.

(** The state in which a promise settles. *)
Inductive settled (A : Type) : Type :=
  | fulfilled (value : A)
  | rejected (reason : string).
Arguments fulfilled {A} value.
Arguments rejected {A} reason.

(** [Promise.allSettled]: one settled state per promise, in the order of
    the promises; no promise is dropped and none stops the others. *)
Definition allSettled {A : Type} (promises : list (Exc A)) : list (settled A) :=
  List.map (fun p => match p with Ok v => fulfilled v | Throw m => rejected m end)
    promises.

(** [for (let i = start; i < n; i += step) body]: [None] when the loop has
    not ended within [fuel] iterations. *)
Fixpoint forStride {S : Type} (fuel : nat) (i n step : nat)
    (body : nat -> S -> S) (s : S) : option S :=
  match fuel with
  | O => None
  | Datatypes.S fuel' =>
      if (i <? n)%nat then forStride fuel' (i + step) n step body (body i s)
      else Some s
  end.

(** [l.slice(i, j)] for [0 <= i <= j]. *)
Definition slice {A : Type} (i j : nat) (l : list A) : list A :=
  firstn (j - i) (skipn i l).

(** What the scheduler does besides computing: the remote work of a group
    of batches, and the pauses. *)
Inductive event : Type :=
  | EvBatches (sizes : list nat)
  | EvDelay (ms : nat).

(* ===================================================================== *)
(** ** ShopifyClient (src/shopifyClient.js) *)
(* ===================================================================== *)

(** A variant of a remote product. *)
Record variant : Type := mkVariant {
  variant_id : Z;
  sku : option string;
  price : option string;
  inventory_quantity : option Z
}.

(** A product as the remote catalog returns it. *)
Record product : Type := mkProduct {
  product_id : Z;
  title : option string;
  status : option string;
  variants : option (list variant)
}.

(** The tags of [changes]. *)
Inductive change : Type := title_tag | price_tag | inventory_tag | status_tag.

Module ShopifyClient.

(** *** Taxonomy *)

Definition aa_6 (n : string) : string :=
  "gid://shopify/TaxonomyCategory/aa-6-" ++ n.

(** [this.categoryMap], in insertion order. *)
Definition categoryMap : list (string * string) :=
  [ ("anklets", aa_6 "1"); ("anklet", aa_6 "1");
    ("body jewelry", aa_6 "2"); ("body", aa_6 "2");
    ("bracelets", aa_6 "3"); ("bracelet", aa_6 "3");
    ("brooches", aa_6 "4"); ("brooch", aa_6 "4");
    ("lapel pins", aa_6 "4"); ("lapel pin", aa_6 "4");
    ("charms", aa_6 "5"); ("charm", aa_6 "5");
    ("pendants", aa_6 "5"); ("pendant", aa_6 "5");
    ("earrings", aa_6 "6"); ("earring", aa_6 "6");
    ("jewelry sets", aa_6 "7"); ("jewelry set", aa_6 "7");
    ("sets", aa_6 "7"); ("set", aa_6 "7");
    ("necklaces", aa_6 "8"); ("necklace", aa_6 "8");
    ("chain necklaces", aa_6 "8"); ("chain necklace", aa_6 "8");
    ("rings", aa_6 "9"); ("ring", aa_6 "9");
    ("smart watches", aa_6 "12"); ("smart watch", aa_6 "12");
    ("watch accessories", aa_6 "10"); ("watch accessory", aa_6 "10");
    ("watch bands", aa_6 "10-1"); ("watch band", aa_6 "10-1");
    ("watch stickers", aa_6 "10-2"); ("watch decals", aa_6 "10-2");
    ("watch stickers & decals", aa_6 "10-2");
    ("watch winders", aa_6 "10-3"); ("watch winder", aa_6 "10-3");
    ("watches", aa_6 "11"); ("watch", aa_6 "11");
    ("chains", aa_6 "8"); ("chain", aa_6 "8");
    ("rope chains", aa_6 "8"); ("rope chain", aa_6 "8");
    ("curb chains", aa_6 "8"); ("curb chain", aa_6 "8");
    ("cable chains", aa_6 "8"); ("cable chain", aa_6 "8") ].

(** [this.defaultJewelryCategory] *)
Definition defaultJewelryCategory : string := aa_6 "8".

(** [map.get(key)], [undefined] when [map.has(key)] is false. *)
Fixpoint mapGet (m : list (string * string)) (key : string) : option string :=
  match m with
  | [] => None
  | (k, v) :: rest => if String.eqb k key then Some v else mapGet rest key
  end.

(** [for (const [keyword, categoryId] of map.entries()) if (test keyword)
    return categoryId]: the first entry, in insertion order, that passes. *)
Fixpoint firstEntry (test : string -> bool) (m : list (string * string)) : option string :=
  match m with
  | [] => None
  | (keyword, categoryId) :: rest =>
      if test keyword then Some categoryId else firstEntry test rest
  end.

Definition isBackslash (c : ascii) : bool := (JS.code c =? 92)%nat.

(** The class [[\\\/\>\|]]: backslash, slash, greater-than, pipe. *)
Definition isSeparator (c : ascii) : bool :=
  (JS.code c =? 92)%nat || (JS.code c =? 47)%nat
  || (JS.code c =? 62)%nat || (JS.code c =? 124)%nat.

(** [categoryPath.trim().toLowerCase().replace(/\\/g, '')] *)
Definition cleanPathOf (categoryPath : string) : string :=
  JS.removeAll isBackslash (JS.toLowerCase (JS.trim categoryPath)).

(** [cleanPath.split(/[\\\/\>\|]/).map(term => term.trim()).filter(term => term)] *)
Definition categoryTermsOf (cleanPath : string) : list string :=
  List.filter (fun term => negb (JS.isEmpty term))
    (List.map JS.trim (JS.splitOn isSeparator cleanPath)).

(** The body of the loop over the terms: a direct match, else the first
    keyword that the term contains or that contains the term. *)
Definition matchTerm (cm : list (string * string)) (term : string) : option string :=
  match mapGet cm term with
  | Some categoryId => Some categoryId
  | None => firstEntry (fun keyword => JS.includes term keyword || JS.includes keyword term) cm
  end.

Fixpoint firstMatch (cm : list (string * string)) (terms : list string) : option string :=
  match terms with
  | [] => None
  | term :: rest =>
      match matchTerm cm term with
      | Some categoryId => Some categoryId
      | None => firstMatch cm rest
      end
  end.

(** [findBestCategoryMatch(categoryPath)]; [None] is [null]. *)
Definition findBestCategoryMatchIn (cm : list (string * string)) (categoryPath : string)
  : option string :=
  if JS.isEmpty categoryPath then None
  else
    let cleanPath := cleanPathOf categoryPath in
    let categoryTerms := categoryTermsOf cleanPath in
    match firstMatch cm (List.rev categoryTerms) with
    | Some categoryId => Some categoryId
    | None => firstEntry (fun keyword => JS.includes cleanPath keyword) cm
    end.

Definition findBestCategoryMatch : string -> option string :=
  findBestCategoryMatchIn categoryMap.

Definition isSemicolon (c : ascii) : bool := (JS.code c =? 59)%nat.

(** The loop of [getCategoryId] over the alternatives: the first truthy
    identifier. *)
Fixpoint firstCategory (categories : list string) : option string :=
  match categories with
  | [] => None
  | categoryPath :: rest =>
      match findBestCategoryMatch categoryPath with
      | Some categoryId =>
          if JS.isEmpty categoryId then firstCategory rest else Some categoryId
      | None => firstCategory rest
      end
  end.

(** [getCategoryId(csvItem)] *)
Definition getCategoryId (csvItem0 : csvItem) : string :=
  if negb (JS.truthy (Categories csvItem0)) then defaultJewelryCategory
  else
    let categories := JS.splitOn isSemicolon (JS.orElse (Categories csvItem0) "") in
    match firstCategory categories with
    | Some categoryId => categoryId
    | None => defaultJewelryCategory
    end.

(** *** Reconciliation index *)

(** [existingProductsBySku] and [existingProductsByTitle] *)
Record index : Type := mkIndex {
  bySku : gmap string product;
  byTitle : gmap string product
}.

Definition emptyIndex : index := mkIndex ∅ ∅.

(** The callback of [product.variants.forEach]. *)
Definition indexVariant (p : product) (m : gmap string product) (v : variant)
  : gmap string product :=
  match sku v with
  | Some s => if JS.isEmpty s then m else <[JS.toLowerCase s := p]> m
  | None => m
  end.

(** The callback of [existingProducts.forEach]; a product without a title
    makes [product.title.toLowerCase()] throw. *)
Definition indexProduct (idx : index) (p : product) : Exc index :=
  match title p with
  | None => Throw "Cannot read properties of undefined (reading 'toLowerCase')"
  | Some t =>
      let byTitle' := <[JS.toLowerCase t := p]> (byTitle idx) in
      let bySku' :=
        match variants p with
        | Some vs => fold_left (indexVariant p) vs (bySku idx)
        | None => bySku idx
        end in
      Ok (mkIndex bySku' byTitle')
  end.

Fixpoint buildIndexFrom (idx : index) (existingProducts : list product) : Exc index :=
  match existingProducts with
  | [] => Ok idx
  | p :: rest => bindExc (indexProduct idx p) (fun idx' => buildIndexFrom idx' rest)
  end.

Definition buildIndex (existingProducts : list product) : Exc index :=
  buildIndexFrom emptyIndex existingProducts.

(** [csvItem.Item?.toLowerCase()] *)
Definition skuOf (csvItem0 : csvItem) : option string :=
  option_map JS.toLowerCase (Item csvItem0).

(** [(csvItem.Description || csvItem.Item || '').toLowerCase()] *)
Definition titleOf (csvItem0 : csvItem) : string :=
  JS.toLowerCase (JS.orElse (JS.orOpt (Description csvItem0) (Item csvItem0)) "").

(** The lookup of [categorizeProducts]: by SKU first, then by title. *)
Definition findExisting (idx : index) (csvItem0 : csvItem) : option product :=
  let sku0 := skuOf csvItem0 in
  let title0 := titleOf csvItem0 in
  match sku0 with
  | Some s =>
      if negb (JS.isEmpty s) && bool_decide (is_Some (bySku idx !! s))
      then bySku idx !! s
      else if negb (JS.isEmpty title0) && bool_decide (is_Some (byTitle idx !! title0))
      then byTitle idx !! title0
      else None
  | None =>
      if negb (JS.isEmpty title0) && bool_decide (is_Some (byTitle idx !! title0))
      then byTitle idx !! title0
      else None
  end.

(** *** Diff *)

Definition isPriceChar (c : ascii) : bool :=
  JS.isDigit c || (JS.code c =? 46)%nat || (JS.code c =? 45)%nat.

(** [parsePrice(priceStr)] *)
Definition parsePrice (priceStr : option string) : string :=
  match priceStr with
  | None => "0.00"
  | Some s =>
      if JS.isEmpty s then "0.00"
      else
        let price0 := JS.parseFloat (JS.removeAll (fun c => negb (isPriceChar c)) s) in
        if JS.isNaN price0 then "0.00" else JS.toFixed2 price0
  end.

(** [{ hasChanges, changes }] *)
Record diff : Type := mkDiff {
  hasChanges : bool;
  changes : list change
}.

(** [existingProduct.variants?.[0]] *)
Definition firstVariant (existingProduct : product) : option variant :=
  match variants existingProduct with
  | Some (v :: _) => Some v
  | _ => None
  end.

(** [csvItem.Description || csvItem.Item || 'Untitled Product'] *)
Definition csvTitleOf (csvItem0 : csvItem) : string :=
  JS.orElse (JS.orOpt (Description csvItem0) (Item csvItem0)) "Untitled Product".

(** [csvItem.Status === 'Active' ? 'active' : 'draft'] *)
Definition csvStatusOf (csvItem0 : csvItem) : string :=
  match Status csvItem0 with
  | Some s => if String.eqb s "Active" then "active" else "draft"
  | None => "draft"
  end.

(** [o !== s] for a possibly missing string [o]. *)
Definition differsFrom (o : option string) (s : string) : bool :=
  match o with
  | Some t => negb (String.eqb t s)
  | None => true
  end.

Definition titleChanged (csvItem0 : csvItem) (existingProduct : product) : bool :=
  differsFrom (title existingProduct) (csvTitleOf csvItem0).

Definition priceChanged (csvItem0 : csvItem) (existingProduct : product) : bool :=
  let csvPrice := parsePrice (JS.orOpt (MSRP csvItem0) (ContractPrice csvItem0)) in
  let existingPrice := mbind price (firstVariant existingProduct) in
  match existingPrice with
  | Some e =>
      negb (JS.isEmpty e) && JS.strictNe (JS.parseFloat e) (JS.parseFloat csvPrice)
  | None => false
  end.

Definition inventoryChanged (csvItem0 : csvItem) (existingProduct : product) : bool :=
  let csvInventory := JS.parseIntOr0 (Qty_Avail csvItem0) in
  let existingInventory := mbind inventory_quantity (firstVariant existingProduct) in
  match existingInventory with
  | Some n => negb (n =? csvInventory)%Z
  | None => false
  end.

Definition statusChanged (csvItem0 : csvItem) (existingProduct : product) : bool :=
  differsFrom (status existingProduct) (csvStatusOf csvItem0).

(** [if (differs) { changes.push(tag); hasChanges = true; }] on the pair of
    [changes] and [hasChanges]. *)
Definition pushIf (differs : bool) (tag : change) (st : list change * bool)
  : list change * bool :=
  if differs then ((fst st ++ [tag])%list, true) else st.

(** The [try] block of [doesProductNeedUpdate]: the four checks in order,
    each pushing its tag. *)
Definition doesProductNeedUpdate_try (csvItem0 : csvItem) (existingProduct : product)
  : Exc diff :=
  let st0 : list change * bool := ([], false) in
  let st1 := pushIf (titleChanged csvItem0 existingProduct) title_tag st0 in
  let st2 := pushIf (priceChanged csvItem0 existingProduct) price_tag st1 in
  let st3 := pushIf (inventoryChanged csvItem0 existingProduct) inventory_tag st2 in
  let st4 := pushIf (statusChanged csvItem0 existingProduct) status_tag st3 in
  Ok (mkDiff (snd st4) (fst st4)).

(** [doesProductNeedUpdate(csvItem, existingProduct)]: the [catch] block
    answers that nothing changed. *)
Definition doesProductNeedUpdate (csvItem0 : csvItem) (existingProduct : product) : diff :=
  match doesProductNeedUpdate_try csvItem0 existingProduct with
  | Ok d => d
  | Throw _ => mkDiff false []
  end.

(** *** Categorisation *)

(** An entry of [productsToUpdate]. *)
Record updateEntry : Type := mkUpdate {
  u_csvItem : csvItem;
  u_existingProduct : product;
  u_changes : list change
}.

(** [{ productsToCreate, productsToUpdate }] *)
Record categorized : Type := mkCategorized {
  productsToCreate : list csvItem;
  productsToUpdate : list updateEntry
}.

(** The callback of [csvData.forEach] in [categorizeProducts]. *)
Definition categorizeItem (idx : index) (enableUpdates : bool)
    (acc : categorized) (csvItem0 : csvItem) : categorized :=
  match findExisting idx csvItem0 with
  | Some existingProduct =>
      if enableUpdates then
        let needsUpdate := doesProductNeedUpdate csvItem0 existingProduct in
        if hasChanges needsUpdate
        then mkCategorized (productsToCreate acc)
               (productsToUpdate acc
                ++ [mkUpdate csvItem0 existingProduct (changes needsUpdate)])%list
        else acc
      else acc
  | None => mkCategorized (productsToCreate acc ++ [csvItem0])%list (productsToUpdate acc)
  end.

(** [categorizeProducts(csvData, existingProductsBySku,
    existingProductsByTitle, enableUpdates)] *)
Definition categorizeProducts (csvData : list csvItem) (idx : index)
    (enableUpdates : bool) : categorized :=
  fold_left (categorizeItem idx enableUpdates) csvData (mkCategorized [] []).

(** *** Batches *)

(** What the promise of one item resolves to:
    [{ success: true, type, product }] or [{ success: false, error, csvItem }]. *)
Inductive itemValue : Type :=
  | ItemCreated (p : product)
  | ItemUpdated (p : product)
  | ItemDryRun
  | ItemDryRunCreate
  | ItemDryRunUpdate (existingProduct : product)
  | ItemFailure (error : string) (item : string).

(** An entry of [errorDetails]: of one item, or of a whole batch. *)
Inductive errorDetail : Type :=
  | ItemError (item : string) (error : string)
  | BatchError (batch : nat) (error : string) (items : option string).

(** The result of [processBatchDirect]. *)
Record directResults : Type := mkDirect {
  d_total : nat;
  d_created : nat;
  d_errors : nat;
  d_errorDetails : list errorDetail
}.

(** The [results] object of [processProductsFromCSV]. *)
Record results : Type := mkResults {
  total : nat;
  created : nat;
  updated : nat;
  skipped : nat;
  errors : nat;
  createdProducts : list product;
  updatedProducts : list product;
  errorDetails : list errorDetail
}.

(** An element of [allProductsToProcess]: [{ csvItem, action: 'create' }] or
    [{ csvItem, existingProduct, changes, action: 'update' }]. *)
Inductive operation : Type :=
  | create_op (csvItem0 : csvItem)
  | update_op (entry : updateEntry).

Definition op_csvItem (item : operation) : csvItem :=
  match item with
  | create_op c => c
  | update_op u => u_csvItem u
  end.

(** [options] of [processProductsFromCSV]. *)
Record options : Type := mkOptions {
  batchSize : nat;
  delayBetweenBatches : nat;
  dryRun : bool;
  parallelBatch : bool;
  enableUpdates : bool
}.

Definition defaultOptions : options := mkOptions 10 1000 false true true.

(** [l.forEach((x, index) => ...)] on a state [S]. *)
Fixpoint forEachFrom {A S : Type} (f : A -> nat -> S -> S) (index : nat)
    (l : list A) (s : S) : S :=
  match l with
  | [] => s
  | x :: rest => forEachFrom f (Datatypes.S index) rest (f x index s)
  end.

Definition forEach {A S : Type} (f : A -> nat -> S -> S) (l : list A) (s : S) : S :=
  forEachFrom f 0 l s.

(** [reason?.message || fallback] *)
Definition messageOr (reason fallback : string) : string :=
  if JS.isEmpty reason then fallback else reason.

Section Remote.

(** The remote catalog. [createProduct c] is the settled outcome of
    posting the payload built from [c]; [updateProduct c e ch] that of
    putting the update built from [c], [e] and [ch]; [getAllProducts] that
    of fetching the catalog. The client is taken as initialized. *)
Variable createProduct : csvItem -> Exc product.
Variable updateProduct : csvItem -> product -> list change -> Exc product.
Variable getAllProducts : Exc (list product).

(** The async callback of [csvItems.map] in [processBatchDirect]. *)
Definition directItem (dryRun0 : bool) (csvItem0 : csvItem) : Exc itemValue :=
  tryCatch
    (if dryRun0 then Ok ItemDryRun
     else bindExc (createProduct csvItem0) (fun p => Ok (ItemCreated p)))
    (fun message => Ok (ItemFailure message (JS.orElse (Item csvItem0) "Unknown"))).

(** The callback of [batchResults.forEach] in [processBatchDirect]. *)
Definition recordDirect (csvItems : list csvItem) (result : settled itemValue)
    (index : nat) (r : directResults) : directResults :=
  match result with
  | fulfilled (ItemFailure error item) =>
      mkDirect (d_total r) (d_created r) (d_errors r + 1)
        (d_errorDetails r ++ [ItemError item error])%list
  | fulfilled _ =>
      mkDirect (d_total r) (d_created r + 1) (d_errors r) (d_errorDetails r)
  | rejected reason =>
      let item := JS.orElse (mbind Item (nth_error csvItems index)) "Unknown" in
      mkDirect (d_total r) (d_created r) (d_errors r + 1)
        (d_errorDetails r ++ [ItemError item (messageOr reason "Promise rejected")])%list
  end.

(** [processBatchDirect(csvItems, { dryRun })] *)
Definition processBatchDirect (csvItems : list csvItem) (dryRun0 : bool) : directResults :=
  let results0 := mkDirect (length csvItems) 0 0 [] in
  let promises := List.map (directItem dryRun0) csvItems in
  let batchResults := allSettled promises in
  forEach (recordDirect csvItems) batchResults results0.

(** [processCreateItem(csvItem, dryRun)] *)
Definition processCreateItem (csvItem0 : csvItem) (dryRun0 : bool) : Exc itemValue :=
  if dryRun0 then Ok ItemDryRunCreate
  else bindExc (createProduct csvItem0) (fun p => Ok (ItemCreated p)).

(** [processUpdateItem(csvItem, existingProduct, changes, dryRun)]; its
    [catch] logs and throws again. *)
Definition processUpdateItem (csvItem0 : csvItem) (existingProduct : product)
    (changes0 : list change) (dryRun0 : bool) : Exc itemValue :=
  if dryRun0 then Ok (ItemDryRunUpdate existingProduct)
  else
    tryCatch
      (bindExc (updateProduct csvItem0 existingProduct changes0)
         (fun p => Ok (ItemUpdated p)))
      (fun message => Throw message).

(** The [if (item.action === ...)] dispatch shared by both batch loops. *)
Definition processItem (item : operation) (dryRun0 : bool) : Exc itemValue :=
  match item with
  | create_op c => processCreateItem c dryRun0
  | update_op u =>
      processUpdateItem (u_csvItem u) (u_existingProduct u) (u_changes u) dryRun0
  end.

(** The async callback of [batch.map] in [processBatchParallelWithUpdates]. *)
Definition parallelItem (dryRun0 : bool) (item : operation) : Exc itemValue :=
  tryCatch (processItem item dryRun0)
    (fun message =>
       Ok (ItemFailure message (JS.orElse (Item (op_csvItem item)) "Unknown"))).

Definition addError (r : results) (d : errorDetail) : results :=
  mkResults (total r) (created r) (updated r) (skipped r) (errors r + 1)
    (createdProducts r) (updatedProducts r) (errorDetails r ++ [d])%list.

Definition addCreated (r : results) (p : product) : results :=
  mkResults (total r) (created r + 1) (updated r) (skipped r) (errors r)
    (createdProducts r ++ [p])%list (updatedProducts r) (errorDetails r).

Definition addUpdated (r : results) (p : product) : results :=
  mkResults (total r) (created r) (updated r + 1) (skipped r) (errors r)
    (createdProducts r) (updatedProducts r ++ [p])%list (errorDetails r).

(** The callback of [batchResults.forEach] in
    [processBatchParallelWithUpdates]. *)
Definition recordParallel (batch : list operation) (result : settled itemValue)
    (index : nat) (r : results) : results :=
  match result with
  | fulfilled (ItemCreated p) => addCreated r p
  | fulfilled (ItemUpdated p) => addUpdated r p
  | fulfilled (ItemFailure error item) => addError r (ItemError item error)
  | fulfilled _ => r
  | rejected reason =>
      let item :=
        JS.orElse (mbind (fun o => Item (op_csvItem o)) (nth_error batch index))
          "Unknown" in
      addError r (ItemError item (messageOr reason "Promise rejected"))
  end.

(** [processBatchParallelWithUpdates(batch, results, dryRun)] *)
Definition processBatchParallelWithUpdates (batch : list operation) (r : results)
    (dryRun0 : bool) : results :=
  let promises := List.map (parallelItem dryRun0) batch in
  let batchResults := allSettled promises in
  forEach (recordParallel batch) batchResults r.

(** The body of the loop of [processBatchSequentialWithUpdates]: the
    state is the [results] object and the log of pauses. *)
Definition sequentialItem (dryRun0 : bool) (st : results * list event)
    (item : operation) : results * list event :=
  let '(r, log) := st in
  match processItem item dryRun0 with
  | Ok (ItemCreated p) => (addCreated r p, log ++ [EvDelay 100])%list
  | Ok (ItemUpdated p) => (addUpdated r p, log ++ [EvDelay 100])%list
  | Ok _ => (r, log ++ [EvDelay 100])%list
  | Throw message =>
      (addError r (ItemError (JS.orElse (Item (op_csvItem item)) "Unknown") message),
       log)
  end.

(** [processBatchSequentialWithUpdates(batch, results, dryRun)] *)
Definition processBatchSequentialWithUpdates (batch : list operation)
    (st : results * list event) (dryRun0 : bool) : results * list event :=
  fold_left (sequentialItem dryRun0) batch st.

(** [allProductsToProcess] *)
Definition allProductsToProcessOf (c : categorized) : list operation :=
  (List.map create_op (productsToCreate c)
   ++ List.map update_op (productsToUpdate c))%list.

(** The body of the batch loop of [processProductsFromCSV]. *)
Definition processBatchAt (opts : options) (allProductsToProcess : list operation)
    (i : nat) (st : results * list event) : results * list event :=
  let batch := slice i (i + batchSize opts) allProductsToProcess in
  let st0 := (fst st, snd st ++ [EvBatches [length batch]])%list in
  let st1 :=
    if parallelBatch opts && negb (dryRun opts)
    then (processBatchParallelWithUpdates batch (fst st0) (dryRun opts), snd st0)
    else processBatchSequentialWithUpdates batch st0 (dryRun opts) in
  if (i + batchSize opts <? length allProductsToProcess)%nat
  then (fst st1, snd st1 ++ [EvDelay (delayBetweenBatches opts)])%list
  else st1.

(** [processProductsFromCSV(csvData, shopifyProducts, options)]: the
    [results] object and the log of batches and pauses; [None] when the
    batch loop has not ended within [fuel] iterations. *)
Definition processProductsFromCSV (fuel : nat) (csvData : list csvItem)
    (shopifyProducts : option (list product)) (opts : options)
  : option (Exc (results * list event)) :=
  let results0 := mkResults (length csvData) 0 0 0 0 [] [] [] in
  let fetched :=
    match shopifyProducts with
    | Some ps => Ok ps
    | None => getAllProducts
    end in
  match bindExc fetched buildIndex with
  | Throw message => Some (Throw message)
  | Ok idx =>
      let c := categorizeProducts csvData idx (enableUpdates opts) in
      let allProductsToProcess := allProductsToProcessOf c in
      option_map Ok
        (forStride fuel 0 (length allProductsToProcess) (batchSize opts)
           (processBatchAt opts allProductsToProcess) (results0, []))
  end.

End Remote.

(** *** Payload *)

(** The columns of a row that the reconciliation does not read. A row of
    the feed is a [csvItem] together with these; [ImageLink i] is the column
    [Image<i>Link]. *)
Record csvColumns : Type := mkColumns {
  UPC : option string;
  Weight : option string;
  Size : option string;
  Length : option string;
  Width : option string;
  ImageLink_1000 : option string;
  ImageLink : nat -> option string;
  ListOfSpecs : option string;
  Metal_Desc : option string;
  Country_Of_Origin : option string;
  Attributes : option string
}.

Definition isHyphen (c : ascii) : bool := (JS.code c =? 45)%nat.

Definition isLowerLetter (c : ascii) : bool :=
  (97 <=? JS.code c)%nat && (JS.code c <=? 122)%nat.

(** The class [[a-z0-9\s-]]. *)
Definition isHandleSource (c : ascii) : bool :=
  isLowerLetter c || JS.isDigit c || JS.isWhiteSpace c || isHyphen c.

(** [s.replace(/^-|-$/g, '')]: a hyphen at the start and a hyphen at the
    end are removed. *)
Definition dropLeadingHyphen (s : string) : string :=
  match s with
  | String c r => if isHyphen c then r else s
  | EmptyString => EmptyString
  end.

Fixpoint dropTrailingHyphen (s : string) : string :=
  match s with
  | EmptyString => EmptyString
  | String c EmptyString => if isHyphen c then EmptyString else s
  | String c r => String c (dropTrailingHyphen r)
  end.

(** [generateHandle(title)] *)
Definition generateHandle (title0 : option string) : string :=
  if negb (JS.truthy title0) then "product"
  else
    let lowered := JS.toLowerCase (JS.orElse title0 "") in
    let cleaned := JS.removeAll (fun c => negb (isHandleSource c)) lowered in
    let spaced := JS.collapseRuns JS.isWhiteSpace cleaned in
    let hyphened := JS.collapseRuns isHyphen spaced in
    let trimmed := dropTrailingHyphen (dropLeadingHyphen hyphened) in
    JS.substring0 100 trimmed.

(** [parseWeight(weightStr)]: ounces to grams. *)
Definition parseWeight (weightStr : option string) : Z :=
  match weightStr with
  | None => 0%Z
  | Some s =>
      if JS.isEmpty s then 0%Z
      else
        match JS.parseFloat (JS.removeAll (fun c => negb (isPriceChar c)) s) with
        | JS.Fin weight => JS.round (weight * (2835 # 100))
        | _ => 0%Z
        end
  end.

(** The object that [createVariant] builds. *)
Record variantData : Type := mkVariantData {
  vd_title : string;
  vd_sku : string;
  vd_barcode : string;
  vd_price : string;
  vd_compare_at_price : option string;
  vd_inventory_management : string;
  vd_inventory_quantity : Z;
  vd_weight : Z;
  vd_weight_unit : string;
  vd_option1 : option string
}.

Definition isLetterX (c : ascii) : bool := (JS.code c =? 120)%nat.

(** [createVariant(csvItem)] *)
Definition createVariant (csvItem0 : csvItem) (more : csvColumns) : variantData :=
  mkVariantData "Default Title"
    (JS.orElse (Item csvItem0) "")
    (JS.orElse (UPC more) "")
    (parsePrice (JS.orOpt (MSRP csvItem0) (ContractPrice csvItem0)))
    (if JS.truthy (MSRP csvItem0) then Some (parsePrice (MSRP csvItem0)) else None)
    "shopify"
    (JS.parseIntOr0 (Qty_Avail csvItem0))
    (parseWeight (Weight more))
    "g"
    (if JS.truthy (Size more) || JS.truthy (Length more) || JS.truthy (Width more)
     then Some
            (if JS.truthy (Size more) then JS.orElse (Size more) ""
             else JS.removeFirst isLetterX
                    (JS.orElse (Length more) "" ++ "x" ++ JS.orElse (Width more) ""))
     else None).

(** An element of [images]. *)
Record image : Type := mkImage {
  src : string;
  alt : option string
}.

(** The body of the loop of [createImages] for the column [Image<i>Link]. *)
Definition additionalImage (csvItem0 : csvItem) (more : csvColumns) (i : nat)
  : list image :=
  match ImageLink more i with
  | Some imageLink =>
      if negb (JS.isEmpty imageLink) && negb (JS.isEmpty (JS.trim imageLink))
      then [mkImage imageLink
              (Some (JS.templateOf (JS.orOpt (Description csvItem0) (Item csvItem0))
                     ++ " - View " ++ JS.Z_to_string (Z.of_nat i)))]
      else []
  | None => []
  end.

(** [createImages(csvItem)] *)
Definition createImages (csvItem0 : csvItem) (more : csvColumns) : list image :=
  ((if JS.truthy (ImageLink_1000 more)
    then [mkImage (JS.orElse (ImageLink_1000 more) "")
            (JS.orOpt (Description csvItem0) (Item csvItem0))]
    else [])
   ++ flat_map (additionalImage csvItem0 more) (seq 1 9))%list.

(** An element of [metafields]. *)
Record metafield : Type := mkMetafield {
  mf_namespace : string;
  mf_key : string;
  mf_value : string;
  mf_type : string
}.

Definition metafieldIf (value : option string) (key type : string) : list metafield :=
  if JS.truthy value then [mkMetafield "custom" key (JS.orElse value "") type] else [].

(** [createMetafields(csvItem)] *)
Definition createMetafields (csvItem0 : csvItem) (more : csvColumns) : list metafield :=
  (metafieldIf (Item csvItem0) "item_number" "single_line_text_field"
   ++ metafieldIf (ListOfSpecs more) "specifications" "multi_line_text_field"
   ++ metafieldIf (Metal_Desc more) "metal_description" "single_line_text_field"
   ++ metafieldIf (Country_Of_Origin more) "country_of_origin" "single_line_text_field")%list.

Definition isPipe (c : ascii) : bool := (JS.code c =? 124)%nat.

(** The callback of [specs.forEach] in [generateProductDescription]. *)
Definition specLine (spec : string) : string :=
  if JS.isEmpty (JS.trim spec) then "" else "• " ++ JS.trim spec ++ "<br>".

Fixpoint concatStrings (l : list string) : string :=
  match l with
  | [] => EmptyString
  | x :: rest => x ++ concatStrings rest
  end.

(** [generateProductDescription(csvItem)] *)
Definition generateProductDescription (csvItem0 : csvItem) (more : csvColumns) : string :=
  let d1 :=
    if JS.truthy (Description csvItem0)
    then "<h3>" ++ JS.orElse (Description csvItem0) "" ++ "</h3>" else "" in
  let d2 :=
    if JS.truthy (Metal_Desc more)
    then "<p><strong>Material:</strong> " ++ JS.orElse (Metal_Desc more) "" ++ "</p>"
    else "" in
  let d3 :=
    if JS.truthy (Weight more)
    then "<p><strong>Weight:</strong> " ++ JS.orElse (Weight more) "" ++ "g</p>"
    else "" in
  let d4 :=
    if JS.truthy (Length more) && JS.truthy (Width more)
    then "<p><strong>Dimensions:</strong> " ++ JS.orElse (Length more) ""
         ++ JS.dquote ++ " x " ++ JS.orElse (Width more) "" ++ JS.dquote ++ "</p>"
    else if JS.truthy (Length more)
    then "<p><strong>Length:</strong> " ++ JS.orElse (Length more) "" ++ JS.dquote
         ++ "</p>"
    else "" in
  let d5 :=
    if JS.truthy (ListOfSpecs more)
    then "<div><strong>Specifications:</strong><br>"
         ++ concatStrings
              (List.map specLine (JS.splitOn isPipe (JS.orElse (ListOfSpecs more) "")))
         ++ "</div>"
    else "" in
  let description := d1 ++ d2 ++ d3 ++ d4 ++ d5 in
  if JS.isEmpty description then "<p>Quality jewelry piece</p>" else description.

(** [generateSEODescription(csvItem)] *)
Definition generateSEODescription (csvItem0 : csvItem) (more : csvColumns) : string :=
  let desc := JS.orElse (Description csvItem0) "" in
  let metal := JS.orElse (Metal_Desc more) "" in
  JS.substring0 160 (JS.trim (desc ++ " " ++ metal)).

(** The tests of [extractProductType], in order, with their answers. *)
Definition productTypeRules : list (list string * string) :=
  [ (["necklaces"; "chains"], "Necklaces");
    (["earrings"], "Earrings");
    (["bracelets"], "Bracelets");
    (["anklets"], "Anklets");
    (["rings"], "Rings");
    (["pendants"; "charms"], "Pendants & Charms");
    (["watch accessories"; "watch bands"], "Watch Accessories");
    (["watches"], "Watches");
    (["brooches"; "lapel pins"], "Brooches & Pins");
    (["jewelry sets"; "sets"], "Jewelry Sets");
    (["body jewelry"], "Body Jewelry") ].

Fixpoint firstRule (cleanCategories : string) (rules : list (list string * string))
  : option string :=
  match rules with
  | [] => None
  | (words, answer) :: rest =>
      if existsb (JS.includes cleanCategories) words then Some answer
      else firstRule cleanCategories rest
  end.

(** [extractProductType(csvItem)] *)
Definition extractProductType (csvItem0 : csvItem) : string :=
  if JS.truthy (Categories csvItem0) then
    let categories :=
      hd "" (JS.splitOn isSemicolon (JS.orElse (Categories csvItem0) "")) in
    let cleanCategories := JS.toLowerCase categories in
    default "Jewelry" (firstRule cleanCategories productTypeRules)
  else "Jewelry".

(** [generateTags(csvItem)] *)
Definition generateTags (csvItem0 : csvItem) (more : csvColumns) : string :=
  let t1 := if JS.truthy (Metal_Desc more) then [JS.orElse (Metal_Desc more) ""] else [] in
  let t2 :=
    if JS.truthy (Attributes more)
    then List.filter (fun attr => negb (JS.isEmpty (JS.trim attr)))
           (JS.splitOn isSemicolon (JS.orElse (Attributes more) ""))
    else [] in
  let t3 :=
    if JS.truthy (ProductLine csvItem0) then [JS.orElse (ProductLine csvItem0) ""] else [] in
  JS.join ", " (t1 ++ t2 ++ t3)%list.

(** The object that [mapCSVToShopifyProduct] builds. *)
Record productData : Type := mkProductData {
  pd_title : string;
  pd_handle : string;
  pd_body_html : string;
  pd_vendor : string;
  pd_product_type : string;
  pd_status : string;
  pd_published : bool;
  pd_tags : string;
  pd_variants : list variantData;
  pd_images : list image;
  pd_metafields : list metafield;
  pd_category : string;
  pd_seo_title : option string;
  pd_seo_description : option string
}.

(** [mapCSVToShopifyProduct(csvItem)] *)
Definition mapCSVToShopifyProduct (csvItem0 : csvItem) (more : csvColumns) : productData :=
  mkProductData
    (csvTitleOf csvItem0)
    (generateHandle (JS.orOpt (Description csvItem0) (Item csvItem0)))
    (generateProductDescription csvItem0 more)
    "QGold"
    (extractProductType csvItem0)
    (csvStatusOf csvItem0)
    (match Status csvItem0 with Some s => String.eqb s "Active" | None => false end)
    (generateTags csvItem0 more)
    [createVariant csvItem0 more]
    (createImages csvItem0 more)
    (createMetafields csvItem0 more)
    (getCategoryId csvItem0)
    (if JS.truthy (Description csvItem0)
     then Some (JS.substring0 70 (JS.orElse (Description csvItem0) "")) else None)
    (if JS.truthy (Description csvItem0)
     then Some (generateSEODescription csvItem0 more) else None).

(** *** Update payload *)

Definition change_eqb (a b : change) : bool :=
  match a, b with
  | title_tag, title_tag | price_tag, price_tag
  | inventory_tag, inventory_tag | status_tag, status_tag => true
  | _, _ => false
  end.

(** [changes.includes(tag)] *)
Definition includesTag (changes0 : list change) (tag : change) : bool :=
  existsb (change_eqb tag) changes0.

(** An element of [updateData.variants]. *)
Record variantUpdate : Type := mkVariantUpdate {
  vu_id : Z;
  vu_price : option string;
  vu_inventory_quantity : option Z
}.

(** The object that [buildUpdateData] builds. *)
Record updateData : Type := mkUpdateData {
  ud_id : Z;
  ud_title : option string;
  ud_status : option string;
  ud_variants : option (list variantUpdate)
}.

(** [buildUpdateData(csvItem, existingProduct, changes)] *)
Definition buildUpdateData (csvItem0 : csvItem) (existingProduct : product)
    (changes0 : list change) : updateData :=
  mkUpdateData (product_id existingProduct)
    (if includesTag changes0 title_tag then Some (csvTitleOf csvItem0) else None)
    (if includesTag changes0 status_tag then Some (csvStatusOf csvItem0) else None)
    (if includesTag changes0 price_tag || includesTag changes0 inventory_tag then
       match firstVariant existingProduct with
       | Some v =>
           Some [mkVariantUpdate (variant_id v)
                   (if includesTag changes0 price_tag
                    then Some (parsePrice (JS.orOpt (MSRP csvItem0) (ContractPrice csvItem0)))
                    else None)
                   (if includesTag changes0 inventory_tag
                    then Some (JS.parseIntOr0 (Qty_Avail csvItem0))
                    else None)]
       | None => None
       end
     else None).

(** *** Pagination *)

Definition isComma (c : ascii) : bool := (JS.code c =? 44)%nat.
Definition isLt (c : ascii) : bool := (JS.code c =? 60)%nat.
Definition isGt (c : ascii) : bool := (JS.code c =? 62)%nat.

(** The longest prefix without a greater-than sign, and what follows. *)
Fixpoint spanNotGt (s : string) : string * string :=
  match s with
  | EmptyString => (EmptyString, EmptyString)
  | String c r =>
      if isGt c then (EmptyString, s)
      else let '(body, rest) := spanNotGt r in (String c body, rest)
  end.

(** [link.match(/<([^>]+)>/)]: the captured group of the leftmost match. *)
Fixpoint angleMatch (s : string) : option string :=
  match s with
  | EmptyString => None
  | String c r =>
      if isLt c then
        match spanNotGt r with
        | (String b body, String _ _) => Some (String b body)
        | _ => angleMatch r
        end
      else angleMatch r
  end.

(** The text [rel="next"]. *)
Definition relNext : string := "rel=" ++ JS.dquote ++ "next" ++ JS.dquote.

(** The loop of [extractNextPageUrl] over the links. *)
Fixpoint firstNextLink (links : list string) : option string :=
  match links with
  | [] => None
  | link :: rest =>
      if JS.includes link relNext then angleMatch link else firstNextLink rest
  end.

(** [extractNextPageUrl(linkHeader)]; [None] is [null]. *)
Definition extractNextPageUrl (linkHeader : option string) : option string :=
  if negb (JS.truthy linkHeader) then None
  else firstNextLink (JS.splitOn isComma (JS.orElse linkHeader "")).

(** What [axios.get] on a page of products settles with: the products and
    the [link] header of the response, or an error with its message and,
    when the server answered, the status of the answer. *)
Inductive pageResponse : Type :=
  | PageOk (products : list product) (link : option string)
  | PageError (message : string) (responseStatus : option nat).

(** [error.response?.status === n] *)
Definition isStatus (n : nat) (responseStatus : option nat) : bool :=
  match responseStatus with
  | Some status0 => (status0 =? n)%nat
  | None => false
  end.

Section Pages.

(** The remote catalog reader: the response to a GET of a URL. *)
Variable httpGet : string -> pageResponse.

(** The loop [while (nextPageUrl)] of [getAllProducts]: the products so
    far, the pauses so far; [None] when the loop has not ended within
    [fuel] pages. An error leaves the loop for the [catch] block. *)
Fixpoint fetchPages (fuel : nat) (nextPageUrl : option string)
    (allProducts : list product) (log : list event)
  : option (Exc (list product) * list event) :=
  if negb (JS.truthy nextPageUrl) then Some (Ok allProducts, log)
  else
    match fuel with
    | O => None
    | Datatypes.S fuel' =>
        match httpGet (JS.orElse nextPageUrl "") with
        | PageOk products link =>
            let allProducts' := (allProducts ++ products)%list in
            let next := extractNextPageUrl link in
            fetchPages fuel' next allProducts'
              (if JS.truthy next then (log ++ [EvDelay 200])%list else log)
        | PageError message responseStatus =>
            if isStatus 429 responseStatus then Some (Ok [], log)
            else Some (Throw message, log)
        end
    end.

(** [getAllProducts()] for a client with the given [baseURL]. *)
Definition getAllProducts (fuel : nat) (baseURL : string)
  : option (Exc (list product) * list event) :=
  fetchPages fuel (Some (baseURL ++ "/products.json?limit=250")) [] [].

End Pages.

(** *** Duplicate detection by scan *)

(** [variant.sku && variant.sku.toLowerCase() === sku?.toLowerCase()] *)
Definition variantSkuMatches (sku0 : option string) (v : variant) : bool :=
  match sku v, sku0 with
  | Some k, Some s => negb (JS.isEmpty k) && String.eqb (JS.toLowerCase k) (JS.toLowerCase s)
  | _, _ => false
  end.

(** [productExists(csvItem, existingProducts)]: the scan throws on a
    product without a title that it reaches. *)
Fixpoint productExists (csvItem0 : csvItem) (existingProducts : list product) : Exc bool :=
  match existingProducts with
  | [] => Ok false
  | p :: rest =>
      let skuMatch :=
        match variants p with
        | Some vs => existsb (variantSkuMatches (Item csvItem0)) vs
        | None => false
        end in
      match title p with
      | None => Throw "Cannot read properties of undefined (reading 'toLowerCase')"
      | Some t =>
          let titleMatch :=
            match Description csvItem0 with
            | Some d => String.eqb (JS.toLowerCase t) (JS.toLowerCase d)
            | None => false
            end in
          if skuMatch || titleMatch then Ok true else productExists csvItem0 rest
      end
  end.

(** *** The create-only batches *)

Section CreateOnly.

(** The settled outcome of mapping a row and posting its payload. *)
Variable createProduct : csvItem -> Exc product.
Variable updateProduct : csvItem -> product -> list change -> Exc product.
Variable getAllProducts0 : Exc (list product).

(** The async callback of [batch.map] in [processBatchParallel]. *)
Definition createOnlyItem (dryRun0 : bool) (csvItem0 : csvItem) : Exc itemValue :=
  tryCatch
    (if dryRun0 then Ok ItemDryRun
     else bindExc (createProduct csvItem0) (fun p => Ok (ItemCreated p)))
    (fun message => Ok (ItemFailure message (JS.orElse (Item csvItem0) "Unknown"))).

(** [results.created++] alone. *)
Definition countCreated (r : results) : results :=
  mkResults (total r) (created r + 1) (updated r) (skipped r) (errors r)
    (createdProducts r) (updatedProducts r) (errorDetails r).

(** The callback of [batchResults.forEach] in [processBatchParallel]. *)
Definition recordCreateOnly (batch : list csvItem) (result : settled itemValue)
    (index : nat) (r : results) : results :=
  match result with
  | fulfilled (ItemCreated p) => addCreated r p
  | fulfilled (ItemFailure error item) => addError r (ItemError item error)
  | fulfilled _ => countCreated r
  | rejected reason =>
      let item := JS.orElse (mbind Item (nth_error batch index)) "Unknown" in
      addError r (ItemError item (messageOr reason "Promise rejected"))
  end.

(** [processBatchParallel(batch, results, dryRun)] *)
Definition processBatchParallel (batch : list csvItem) (r : results) (dryRun0 : bool)
  : results :=
  let promises := List.map (createOnlyItem dryRun0) batch in
  let batchResults := allSettled promises in
  forEach (recordCreateOnly batch) batchResults r.

(** The body of the loop of [processBatchSequential]. *)
Definition createOnlyStep (dryRun0 : bool) (st : results * list event)
    (csvItem0 : csvItem) : results * list event :=
  let '(r, log) := st in
  if dryRun0 then (countCreated r, log ++ [EvDelay 100])%list
  else
    match createProduct csvItem0 with
    | Ok p => (addCreated r p, log ++ [EvDelay 100])%list
    | Throw message =>
        (addError r (ItemError (JS.orElse (Item csvItem0) "Unknown") message), log)
    end.

(** [processBatchSequential(batch, results, dryRun)] *)
Definition processBatchSequential (batch : list csvItem) (st : results * list event)
    (dryRun0 : bool) : results * list event :=
  fold_left (createOnlyStep dryRun0) batch st.

(** [createProductsFromCSV(csvData, shopifyProducts, options)]:
    [{ ...options, enableUpdates: false }]. *)
Definition createProductsFromCSV (fuel : nat) (csvData : list csvItem)
    (shopifyProducts : option (list product)) (opts : options)
  : option (Exc (results * list event)) :=
  let newOptions :=
    mkOptions (batchSize opts) (delayBetweenBatches opts) (dryRun opts)
      (parallelBatch opts) false in
  processProductsFromCSV createProduct updateProduct getAllProducts0 fuel csvData
    shopifyProducts newOptions.

End CreateOnly.

(** *** Creating one product *)

(** A remote call of [createProduct]. *)
Inductive call : Type :=
  | CallPost (productData0 : productData)
  | CallCategory (productId : Z) (categoryId : string).

(** What [processSingleProductFromCSV] resolves to:
    [{ success: true, dryRun: true, productData }],
    [{ success: true, result }] or [{ success: false, error }]. *)
Inductive singleResult : Type :=
  | SingleDryRun (productData0 : productData)
  | SingleSuccess (result : itemValue)
  | SingleFailure (error : string).

Section Create.

(** The settled outcome of posting a payload, and of setting the category
    of a product through [updateProductCategory]. *)
Variable post : productData -> Exc product.
Variable updateProductCategory : Z -> string -> Exc unit.

(** [createProduct(productData)] for an initialized client: the outcome
    and the remote calls made. The [catch] around the category update
    logs and goes on; the outer [catch] logs and throws again. *)
Definition createProduct (productData0 : productData) : Exc product * list call :=
  match post productData0 with
  | Throw message => (Throw message, [CallPost productData0])
  | Ok product0 =>
      if negb (JS.isEmpty (pd_category productData0)) then
        (bindExc
           (tryCatch
              (updateProductCategory (product_id product0) (pd_category productData0))
              (fun _ => Ok tt))
           (fun _ => Ok product0),
         [CallPost productData0;
          CallCategory (product_id product0) (pd_category productData0)])
      else (Ok product0, [CallPost productData0])
  end.

(** [processSingleProductFromCSV(csvItem, { dryRun })] for an initialized
    client. *)
Definition processSingleProductFromCSV (csvItem0 : csvItem) (more : csvColumns)
    (dryRun0 : bool) : Exc singleResult :=
  tryCatch
    (if dryRun0 then Ok (SingleDryRun (mapCSVToShopifyProduct csvItem0 more))
     else
       bindExc
         (processCreateItem
            (fun c => fst (createProduct (mapCSVToShopifyProduct c more)))
            csvItem0 false)
         (fun result => Ok (SingleSuccess result)))
    (fun message => Ok (SingleFailure message)).

End Create.

End ShopifyClient.

(* ===================================================================== *)
(** ** ProductProcessor (src/index.js) *)
(* ===================================================================== *)

Module ProductProcessor.

(** The configuration of the constructor. *)
Definition filterCriteria0 : filterCriteria :=
  {| msrpMin := 100; msrpMax := 1000;
     productLines :=
       ["Breast Cancer Awareness"; "Colorful Collections"; "Dainty Designs";
        "Diamond Fascination"; "Earring Jackets"; "Fancy Diamond Hoops";
        "Fine Diamond Jewelry"; "IBGoodman"; "Infinity"; "Inverness";
        "Italian Gold"; "Lab Grown Diamond Jewelry"; "Lockets"; "Madi K";
        "Pearls"; "Premier"; "Sea Inspired Silver Jewelry";
        "Sideways Crosses"; "Simply Starz"; "South Sea and Tahitian Pearls";
        "Stackable Expressions"; "Two Stone Collection"; "Vibrant";
        "Wedding Bands USA"] |}.

(** [(product.Status || '').toLowerCase().trim()] *)
Definition statusOf (product : csvItem) : string :=
  JS.trim (JS.toLowerCase (JS.orElse (Status product) "")).

(** [(product.ProductLine || '').toLowerCase().trim()] *)
Definition productLineOf (product : csvItem) : string :=
  JS.trim (JS.toLowerCase (JS.orElse (ProductLine product) "")).

(** [this.filterCriteria.productLines.some(line => ...)] *)
Definition hasMatchingProductLine (fc : filterCriteria) (productLine : string) : bool :=
  existsb
    (fun line =>
       let lineLower := JS.toLowerCase line in
       String.eqb productLine lineLower || JS.includes productLine lineLower)
    (productLines fc).

(** The callback of [products.filter], with the check that rejected the
    record: [None] is [return true]. *)
Definition rejectedBy (fc : filterCriteria) (product : csvItem) : option rejection :=
  let status := statusOf product in
  if String.eqb status "discontinued" then Some Discontinued
  else
    let msrp := JS.parseFloatOpt (ContractPrice product) in
    if JS.isNaN msrp || JS.lt msrp (JS.Fin (msrpMin fc)) || JS.gt msrp (JS.Fin (msrpMax fc))
    then Some MsrpOutOfRange
    else
      let productLine := productLineOf product in
      if negb (hasMatchingProductLine fc productLine) then Some NoMatchingProductLine
      else
        let categories := JS.toLowerCase (JS.orElse (Categories product) "") in
        if JS.includes categories "finding" || JS.includes categories "mounting"
        then Some ExcludedCategories
        else
          let itemType := JS.toLowerCase (JS.orElse (Item_Type product) "") in
          if JS.includes itemType "finding" || JS.includes itemType "mounting"
          then Some ExcludedItemType
          else
            let title := JS.toLowerCase (JS.orElse (Description product) "") in
            if JS.includes title "engraveable" then Some ExcludedTitle
            else if JS.includes productLine "personalized" then Some PersonalizedProductLine
            else if JS.includes categories "personalized" then Some PersonalizedCategories
            else if negb (JS.truthy (Item product)) || negb (JS.truthy (Description product))
            then Some MissingItemOrDescription
            else None.

Definition keeps (fc : filterCriteria) (product : csvItem) : bool :=
  match rejectedBy fc product with
  | None => true
  | Some _ => false
  end.

(** [filterProducts(products)] *)
Definition filterProducts (fc : filterCriteria) (products : list csvItem) : list csvItem :=
  List.filter (keeps fc) products.

(** [this.batchConfig] *)
Record batchConfig : Type := mkBatchConfig {
  batchSize : nat;
  maxConcurrentBatches : nat;
  delayBetweenBatches : nat
}.

(** The configuration of the constructor. *)
Definition batchConfig0 : batchConfig := mkBatchConfig 10 3 2000.

(** The result of [processSingleBatch]. *)
Record batchResult : Type := mkBatchResult {
  processed : nat;
  b_created : nat;
  b_errors : nat;
  b_errorDetails : list ShopifyClient.errorDetail
}.

(** The [results] object of [processBatchedProducts]. *)
Record batchedResults : Type := mkBatched {
  totalProcessed : nat;
  created : nat;
  errors : nat;
  errorDetails : list ShopifyClient.errorDetail
}.

(** [l.map((x, index) => ...)] *)
Fixpoint mapIndexedFrom {A B : Type} (f : A -> nat -> B) (index : nat) (l : list A)
  : list B :=
  match l with
  | [] => []
  | x :: rest => f x index :: mapIndexedFrom f (S index) rest
  end.

(** [batch.map(item => item.Item).join(', ')] *)
Fixpoint joinItems (batch : list csvItem) : string :=
  match batch with
  | [] => ""
  | [c] => default "" (Item c)
  | c :: rest => default "" (Item c) ++ ", " ++ joinItems rest
  end.

(** The first loop of [processBatchedProducts]: the list of batches. *)
Definition batchesOf (fuel : nat) (bc : batchConfig) (products : list csvItem)
  : option (list (list csvItem)) :=
  forStride fuel 0 (length products) (batchSize bc)
    (fun i batches => (batches ++ [slice i (i + batchSize bc) products])%list) [].

Section Remote.

(** The settled outcome of creating the product of a row remotely. *)
Variable createProduct : csvItem -> Exc product.

(** [processSingleBatch(batch, batchIndex, totalBatches)] *)
Definition processSingleBatch (batch : list csvItem) (batchIndex totalBatches : nat)
  : batchResult :=
  let attempt : Exc batchResult :=
    let shopifyResult := ShopifyClient.processBatchDirect createProduct batch false in
    Ok (mkBatchResult (length batch) (ShopifyClient.d_created shopifyResult)
          (ShopifyClient.d_errors shopifyResult)
          (ShopifyClient.d_errorDetails shopifyResult)) in
  match attempt with
  | Ok r => r
  | Throw message =>
      mkBatchResult 0 0 (length batch)
        [ShopifyClient.BatchError batchIndex message (Some (joinItems batch))]
  end.

(** The async callback of [concurrentBatches.map]. *)
Definition batchPromise (i totalBatches : nat) (batch : list csvItem) (batchIndex : nat)
  : Exc batchResult :=
  let globalBatchIndex := i + batchIndex + 1 in
  tryCatch (Ok (processSingleBatch batch globalBatchIndex totalBatches))
    (fun message =>
       Ok (mkBatchResult 0 0 (length batch)
             [ShopifyClient.BatchError globalBatchIndex message
                (Some (joinItems batch))])).

(** The callback of [batchResults.forEach]. *)
Definition aggregate (bc : batchConfig) (i : nat) (result : settled batchResult)
    (index : nat) (r : batchedResults) : batchedResults :=
  match result with
  | fulfilled b =>
      mkBatched (totalProcessed r + processed b) (created r + b_created b)
        (errors r + b_errors b) (errorDetails r ++ b_errorDetails b)%list
  | rejected reason =>
      mkBatched (totalProcessed r) (created r) (errors r + batchSize bc)
        (errorDetails r
         ++ [ShopifyClient.BatchError (i + index + 1)
               (ShopifyClient.messageOr reason "Batch processing failed") None])%list
  end.

(** The body of the second loop: one group of concurrent batches, then
    the pause unless the group was the last. *)
Definition processWindowAt (bc : batchConfig) (batches : list (list csvItem))
    (i : nat) (st : batchedResults * list event) : batchedResults * list event :=
  let concurrentBatches := slice i (i + maxConcurrentBatches bc) batches in
  let batchPromises :=
    mapIndexedFrom (batchPromise i (length batches)) 0 concurrentBatches in
  let batchResults := allSettled batchPromises in
  let r := ShopifyClient.forEach (aggregate bc i) batchResults (fst st) in
  let log := (snd st ++ [EvBatches (List.map (@length csvItem) concurrentBatches)])%list in
  if (i + maxConcurrentBatches bc <? length batches)%nat
  then (r, log ++ [EvDelay (delayBetweenBatches bc)])%list
  else (r, log).

(** [processBatchedProducts(products)]: the [results] object and the log
    of groups and pauses; [None] when a loop has not ended within [fuel]
    iterations. *)
Definition processBatchedProducts (fuel : nat) (bc : batchConfig)
    (products : list csvItem) : option (batchedResults * list event) :=
  match batchesOf fuel bc products with
  | None => None
  | Some batches =>
      forStride fuel 0 (length batches) (maxConcurrentBatches bc)
        (processWindowAt bc batches) (mkBatched 0 0 0 [], [])
  end.

(** What [processFilteredProductsBatch] returns: the answer for a feed
    without a matching row, or the report of the batches. *)
Inductive flowResult : Type :=
  | NoMatchingProducts
  | BatchResults (r : batchedResults).

(** [processFilteredProductsBatch()] from its fourth step on, for an
    initialized client and the rows [data] that the reader has returned. *)
Definition processFilteredProductsBatch (fuel : nat) (fc : filterCriteria)
    (bc : batchConfig) (data : list csvItem) : option (flowResult * list event) :=
  let filteredProducts := filterProducts fc data in
  if (length filteredProducts =? 0)%nat then Some (NoMatchingProducts, [])
  else
    option_map (fun x => (BatchResults (fst x), snd x))
      (processBatchedProducts fuel bc filteredProducts).

(** [testRun()] from the filter on: [None] is the [return] without a
    value. *)
Definition testRun (fc : filterCriteria) (data : list csvItem)
  : option ShopifyClient.directResults :=
  let filteredProducts := filterProducts fc data in
  if (length filteredProducts =? 0)%nat then None
  else
    let testProducts := slice 0 3 filteredProducts in
    Some (ShopifyClient.processBatchDirect createProduct testProducts true).

End Remote.

End ProductProcessor.

(* ===================================================================== *)
(** ** ProductAnalyzer (the product count script) *)
(* ===================================================================== *)

Module ProductAnalyzer.

Definition filterCriteria0 : filterCriteria :=
  {| msrpMin := 1000; msrpMax := 2000;
     productLines :=
       ["Bridal"; "Fancy Diamond Hoops"; "Fine Diamond Jewelry";
        "Wedding Bands USA"; "earrings"; "bracelets"; "chains"; "pendants";
        "engagement rings"; "wedding bands"] |}.

Definition productLineOf (product : csvItem) : string :=
  JS.trim (JS.toLowerCase (JS.orElse (ProductLine product) "")).

Definition hasMatchingProductLine (fc : filterCriteria) (productLine : string) : bool :=
  existsb
    (fun line =>
       let lineLower := JS.toLowerCase line in
       String.eqb productLine lineLower || JS.includes productLine lineLower)
    (productLines fc).

Definition rejectedBy (fc : filterCriteria) (product : csvItem) : option rejection :=
  let msrp := JS.parseFloatOpt (ContractPrice product) in
  if JS.isNaN msrp || JS.lt msrp (JS.Fin (msrpMin fc)) || JS.gt msrp (JS.Fin (msrpMax fc))
  then Some MsrpOutOfRange
  else
    let productLine := productLineOf product in
    if negb (hasMatchingProductLine fc productLine) then Some NoMatchingProductLine
    else if negb (JS.truthy (Item product)) || negb (JS.truthy (Description product))
    then Some MissingItemOrDescription
    else None.

Definition keeps (fc : filterCriteria) (product : csvItem) : bool :=
  match rejectedBy fc product with
  | None => true
  | Some _ => false
  end.

Definition filterProducts (fc : filterCriteria) (products : list csvItem) : list csvItem :=
  List.filter (keeps fc) products.

End ProductAnalyzer.

(* ===================================================================== *)
(** ** CSVProcessor (src/csvProcessor.js) *)
(* ===================================================================== *)

Module CSVProcessor.

(** The body of the loop of [processRow] over the entries of the row, as
    the reader yields them: every value is a string. *)
Definition cleanEntry (cleanedRow : gmap string string) (entry : string * string)
  : gmap string string :=
  let cleanKey := JS.trim (fst entry) in
  let cleanValue := JS.trim (snd entry) in
  if negb (JS.isEmpty cleanValue) then <[cleanKey := cleanValue]> cleanedRow
  else cleanedRow.

(** [processRow(row)]; [None] is [null]. *)
Definition processRow (row : list (string * string)) : option (gmap string string) :=
  let cleanedRow := fold_left cleanEntry row ∅ in
  if (0 <? size cleanedRow)%nat then Some cleanedRow else None.

End CSVProcessor.

(* ===================================================================== *)
(** ** ProductDeleter (gx.js) *)
(* ===================================================================== *)

Module ProductDeleter.

(** An entry of [errorDetails]: [{ productId, title, error }]; a missing
    identifier or title of the fallback reads 'Unknown'. *)
Inductive deletionError : Type :=
  | DeletionError (productId : option Z) (title0 : option string) (error : string).

(** The [results] object of the deletion. *)
Record deletionResults : Type := mkDeletion {
  total : nat;
  deleted : nat;
  errors : nat;
  skipped : nat;
  errorDetails : list deletionError
}.

(** [options] of [deleteProductsByDate]. *)
Record options : Type := mkOptions {
  dryRun : bool;
  batchSize : nat;
  delayBetweenBatches : nat;
  confirmBeforeDelete : bool
}.

(** What the promise of one product resolves to. *)
Inductive deletionValue : Type :=
  | DeletionDryRun (p : product)
  | Deleted (p : product)
  | DeletionFailure (error : string) (p : product).

(** [filterProductsByDate(products, targetDate)]: the first statement of
    the body is [return products], on a line of its own; the
    [return products.filter(...)] on the next line is never reached. *)
Definition filterProductsByDate (products : list product) (targetDate : string)
  : list product :=
  products.

(** [confirmDeletion(productCount)]: a warning, a pause of 3 seconds, and
    [true]. *)
Definition confirmDeletion (productCount : nat) : bool * list event :=
  (true, [EvDelay 3000]).

(** [args.indexOf(x)]: [None] is -1. *)
Fixpoint indexOfFrom (x : string) (i : nat) (args : list string) : option nat :=
  match args with
  | [] => None
  | a :: rest => if String.eqb a x then Some i else indexOfFrom x (S i) rest
  end.

Definition indexOf (x : string) (args : list string) : option nat :=
  indexOfFrom x 0 args.

Section Remote.

(** The remote catalog: the settled outcome of fetching it, and of
    deleting the product with a given identifier. The client is taken as
    initialized. *)
Variable getAllProducts : Exc (list product).
Variable deleteProduct : Z -> Exc unit.

(** The async callback of [batch.map] in [processBatchDeletion]. *)
Definition deletionItem (dryRun0 : bool) (p : product) : Exc deletionValue :=
  tryCatch
    (if dryRun0 then Ok (DeletionDryRun p)
     else bindExc (deleteProduct (product_id p)) (fun _ => Ok (Deleted p)))
    (fun message => Ok (DeletionFailure message p)).

(** The callback of [batchResults.forEach] in [processBatchDeletion]. *)
Definition recordDeletion (batch : list product) (result : settled deletionValue)
    (index : nat) (r : deletionResults) : deletionResults :=
  match result with
  | fulfilled (DeletionFailure error p) =>
      mkDeletion (total r) (deleted r) (errors r + 1) (skipped r)
        (errorDetails r ++ [DeletionError (Some (product_id p)) (title p) error])%list
  | fulfilled _ =>
      mkDeletion (total r) (deleted r + 1) (errors r) (skipped r) (errorDetails r)
  | rejected reason =>
      mkDeletion (total r) (deleted r) (errors r + 1) (skipped r)
        (errorDetails r
         ++ [DeletionError
               (match nth_error batch index with
                | Some p => if (product_id p =? 0)%Z then None else Some (product_id p)
                | None => None
                end)
               (Some (JS.orElse (mbind title (nth_error batch index)) "Unknown"))
               (ShopifyClient.messageOr reason "Promise rejected")])%list
  end.

(** [processBatchDeletion(batch, results, dryRun)] *)
Definition processBatchDeletion (batch : list product) (r : deletionResults)
    (dryRun0 : bool) : deletionResults :=
  let promises := List.map (deletionItem dryRun0) batch in
  let batchResults := allSettled promises in
  ShopifyClient.forEach (recordDeletion batch) batchResults r.

(** The body of the loop of [processProductDeletions]; its [catch] counts
    the whole batch as failed. *)
Definition processDeletionsAt (opts : options) (products : list product) (i : nat)
    (st : deletionResults * list event) : deletionResults * list event :=
  let batch := slice i (i + batchSize opts) products in
  let r :=
    match
      tryCatch (Ok (processBatchDeletion batch (fst st) (dryRun opts)))
        (fun message =>
           Ok (mkDeletion (total (fst st)) (deleted (fst st))
                 (errors (fst st) + length batch) (skipped (fst st))
                 (errorDetails (fst st)
                  ++ List.map
                       (fun p => DeletionError (Some (product_id p)) (title p)
                                   ("Batch failure: " ++ message))
                       batch)%list))
    with
    | Ok r' => r'
    | Throw _ => fst st
    end in
  let log := (snd st ++ [EvBatches [length batch]])%list in
  if (i + batchSize opts <? length products)%nat
  then (r, log ++ [EvDelay (delayBetweenBatches opts)])%list
  else (r, log).

(** [processProductDeletions(products, options)]; [None] when the loop
    has not ended within [fuel] iterations. *)
Definition processProductDeletions (fuel : nat) (products : list product)
    (opts : options) : option (deletionResults * list event) :=
  forStride fuel 0 (length products) (batchSize opts)
    (processDeletionsAt opts products)
    (mkDeletion (length products) 0 0 0 [], []).

(** [deleteProductsByDate(targetDate, options)] *)
Definition deleteProductsByDate (fuel : nat) (targetDate : string) (opts : options)
  : option (Exc (deletionResults * list event)) :=
  match getAllProducts with
  | Throw message => Some (Throw message)
  | Ok allProducts =>
      let targetProducts := filterProductsByDate allProducts targetDate in
      if (length targetProducts =? 0)%nat then Some (Ok (mkDeletion 0 0 0 0 [], []))
      else
        let '(confirmed, log0) :=
          if confirmBeforeDelete opts && negb (dryRun opts)
          then confirmDeletion (length targetProducts)
          else (true, []) in
        if negb confirmed
        then Some (Ok (mkDeletion (length targetProducts) 0 0 (length targetProducts) [],
                       log0))
        else
          option_map (fun x => Ok (fst x, (log0 ++ snd x)%list))
            (processProductDeletions fuel targetProducts opts)
  end.

(** [main()] with the command line arguments [args]: the exit code and
    the log. The target date is declared with [const]; the assignment
    under [--date] throws a TypeError, which the [catch] of [main] turns
    into the exit code 1. *)
Definition main (fuel : nat) (args : list string) : option (nat * list event) :=
  let targetDate := "2025-10-16" in
  let dryRun0 := existsb (String.eqb "--dry-run") args in
  let opts := mkOptions dryRun0 5 2000 true in
  let assigned : Exc unit :=
    if existsb (String.eqb "--date") args then
      match indexOf "--date" args with
      | Some dateIndex =>
          if JS.truthy (nth_error args (dateIndex + 1))
          then Throw "Assignment to constant variable."
          else Ok tt
      | None => Ok tt
      end
    else Ok tt in
  match assigned with
  | Throw _ => Some (1%nat, [])
  | Ok _ =>
      match deleteProductsByDate fuel targetDate opts with
      | None => None
      | Some (Throw _) => Some (1%nat, [])
      | Some (Ok (results, log)) =>
          Some ((if (0 <? errors results)%nat then 1 else 0)%nat, log)
      end
  end.

End Remote.

End ProductDeleter.

Definition blankItem : csvItem :=
  mkCsvItem None None None None None None None None None.

(* ===================================================================== *)
(** ** Notions used to state the properties *)
(* ===================================================================== *)

(** [t] occurs in [s] as a contiguous substring. *)
Definition isSubstring (t s : string) : Prop :=
  exists pre post, s = pre ++ t ++ post.

(** Case-folding and trimming of a label. *)
Definition normalizeLabel (s : string) : string := JS.trim (JS.toLowerCase s).

(** The category-line policy in the words of the specification: after
    normalization the label equals a configured line, or is contained in
    one, or contains one. *)
Definition spec_lineMatches (lines : list string) (label : option string) : Prop :=
  exists line, In line lines /\
    let l := normalizeLabel (JS.orElse label "") in
    let c := normalizeLabel line in
    l = c \/ isSubstring l c \/ isSubstring c l.

(** A variant of [vs] has a non-empty SKU whose lower case is [x]. *)
Definition keyIn (x : string) (vs : list variant) : Prop :=
  exists v k, In v vs /\ sku v = Some k /\ k <> "" /\ JS.toLowerCase k = x.

(** The remote record [p] carries the variant key [x]: one of its variants
    has a non-empty SKU whose lower case is [x]. *)
Definition hasKey (x : string) (p : product) : Prop :=
  exists vs v k,
    variants p = Some vs /\ In v vs /\ sku v = Some k /\ k <> "" /\ JS.toLowerCase k = x.

(** The lookup by identifier alone, and the lookup by display name alone. *)
Definition identifierLookup (idx : ShopifyClient.index) (csvItem0 : csvItem)
  : option product :=
  match ShopifyClient.skuOf csvItem0 with
  | Some s => if JS.isEmpty s then None else ShopifyClient.bySku idx !! s
  | None => None
  end.

Definition displayNameLookup (idx : ShopifyClient.index) (csvItem0 : csvItem)
  : option product :=
  let t := ShopifyClient.titleOf csvItem0 in
  if JS.isEmpty t then None else ShopifyClient.byTitle idx !! t.

(** A row for which the lookup finds no remote record. *)
Definition unmatched (idx : ShopifyClient.index) (csvItem0 : csvItem) : bool :=
  match ShopifyClient.findExisting idx csvItem0 with
  | Some _ => false
  | None => true
  end.

(** The inventory comparison in the words of the specification: a count
    absent on either side stands for 0. *)
Definition spec_inventoryDiffers (csvItem0 : csvItem) (existingProduct : product) : Prop :=
  default 0%Z (mbind inventory_quantity (ShopifyClient.firstVariant existingProduct))
  <> JS.parseIntOr0 (Qty_Avail csvItem0).

(** [ceil(n / b)] *)
Definition ceilDiv (n b : nat) : nat := (n + b - 1) / b.

(** The number of iterations of [for (i = start; i < n; i += step)], and
    the values of [i] they see. *)
Definition strideCount (start n step : nat) : nat := ceilDiv (n - start) step.

Fixpoint strideIndices (count start step : nat) : list nat :=
  match count with
  | O => []
  | S count' => start :: strideIndices count' (start + step) step
  end.

(** A log of the scheduler in which every pause of [d] ms stands between
    two groups of batches: none comes first, none comes last, no two
    follow each other. *)
Inductive paced (d : nat) : list event -> Prop :=
  | paced_nil : paced d []
  | paced_last (sizes : list nat) : paced d [EvBatches sizes]
  | paced_more (sizes : list nat) (rest : list event) :
      rest <> [] -> paced d rest -> paced d (EvBatches sizes :: EvDelay d :: rest).

(** The groups of a log (the sizes of the batches of each), and its pauses. *)
Fixpoint windowsOf (log : list event) : list (list nat) :=
  match log with
  | [] => []
  | EvBatches sizes :: rest => sizes :: windowsOf rest
  | EvDelay _ :: rest => windowsOf rest
  end.

Fixpoint delaysOf (log : list event) : list nat :=
  match log with
  | [] => []
  | EvBatches _ :: rest => delaysOf rest
  | EvDelay ms :: rest => ms :: delaysOf rest
  end.

(** What one iteration of the second loop of [processBatchedProducts]
    adds to the log. *)
Definition windowEvents (bc : ProductProcessor.batchConfig)
    (batches : list (list csvItem)) (i : nat) : list event :=
  EvBatches
    (List.map (@length csvItem)
       (slice i (i + ProductProcessor.maxConcurrentBatches bc) batches))
  :: (if (i + ProductProcessor.maxConcurrentBatches bc <? length batches)%nat
      then [EvDelay (ProductProcessor.delayBetweenBatches bc)] else []).

(** The remote creation of a row succeeds. *)
Definition succeeds (createProduct : csvItem -> Exc product) (c : csvItem) : bool :=
  match createProduct c with
  | Ok _ => true
  | Throw _ => false
  end.

(** The error entry that a row contributes to a direct batch: none when its
    creation succeeds, else its identifier and the message of its own
    failure. *)
Definition directError (createProduct : csvItem -> Exc product) (c : csvItem)
  : list ShopifyClient.errorDetail :=
  match createProduct c with
  | Ok _ => []
  | Throw message =>
      [ShopifyClient.ItemError (JS.orElse (Item c) "Unknown") message]
  end.

(** The settled outcome of the remote call of one planned operation. *)
Definition outcomeOf (createProduct : csvItem -> Exc product)
    (updateProduct : csvItem -> product -> list change -> Exc product)
    (op : ShopifyClient.operation) : Exc product :=
  match op with
  | ShopifyClient.create_op c => createProduct c
  | ShopifyClient.update_op u =>
      updateProduct (ShopifyClient.u_csvItem u) (ShopifyClient.u_existingProduct u)
        (ShopifyClient.u_changes u)
  end.

(** What one operation contributes to the report, from its own outcome. *)
Definition recordOutcome (createProduct : csvItem -> Exc product)
    (updateProduct : csvItem -> product -> list change -> Exc product)
    (r : ShopifyClient.results) (op : ShopifyClient.operation) : ShopifyClient.results :=
  match outcomeOf createProduct updateProduct op, op with
  | Ok p, ShopifyClient.create_op _ => ShopifyClient.addCreated r p
  | Ok p, ShopifyClient.update_op _ => ShopifyClient.addUpdated r p
  | Throw message, _ =>
      ShopifyClient.addError r
        (ShopifyClient.ItemError
           (JS.orElse (Item (ShopifyClient.op_csvItem op)) "Unknown") message)
  end.

(** The recorded buckets of a report. *)
Definition recorded (r : ShopifyClient.results) : nat :=
  (ShopifyClient.created r + ShopifyClient.updated r + ShopifyClient.skipped r
   + ShopifyClient.errors r)%nat.

(** The skipped bucket and the total of a report have the given values. *)
Definition keepsSkipped (k t : nat) (r : ShopifyClient.results) : Prop :=
  ShopifyClient.skipped r = k /\ ShopifyClient.total r = t.

(** Slash, greater-than and pipe: the separators other than backslash. *)
Definition isSlashGtPipe (c : ascii) : bool :=
  (JS.code c =? 47)%nat || (JS.code c =? 62)%nat || (JS.code c =? 124)%nat.

(** Every character of [s] passes [p]. *)
Fixpoint allChars (p : ascii -> bool) (s : string) : bool :=
  match s with
  | EmptyString => true
  | String c r => p c && allChars p r
  end.

(** The first entry of the vocabulary, in insertion order, whose keyword
    passes [test]. *)
Definition firstKeyword (test : string -> bool) (m : list (string * string))
  : option (string * string) :=
  List.find (fun entry => test (fst entry)) m.

(** A row that [categorizeProducts] puts in neither list: it is matched to
    a remote record and either updates are disabled or no tracked field
    differs. *)
Definition isSkippedRow (idx : ShopifyClient.index) (enableUpdates0 : bool)
    (csvItem0 : csvItem) : bool :=
  match ShopifyClient.findExisting idx csvItem0 with
  | Some existingProduct =>
      negb enableUpdates0
      || negb (ShopifyClient.hasChanges
                 (ShopifyClient.doesProductNeedUpdate csvItem0 existingProduct))
  | None => false
  end.

(** The characters of a handle: a lower-case letter, a digit or a hyphen. *)
Definition isHandleChar (c : ascii) : bool :=
  ShopifyClient.isLowerLetter c || JS.isDigit c || ShopifyClient.isHyphen c.

(** No two hyphens follow each other in [s]; [prev] tells that the
    character before [s] is a hyphen. *)
Fixpoint noDoubleHyphenFrom (prev : bool) (s : string) : bool :=
  match s with
  | EmptyString => true
  | String c r =>
      negb (prev && ShopifyClient.isHyphen c)
      && noDoubleHyphenFrom (ShopifyClient.isHyphen c) r
  end.

Definition noDoubleHyphen (s : string) : bool := noDoubleHyphenFrom false s.

Definition startsWithHyphen (s : string) : bool :=
  match s with
  | String c _ => ShopifyClient.isHyphen c
  | EmptyString => false
  end.

(** A character that is neither a greater-than sign nor a comma. *)
Definition isUrlChar (c : ascii) : bool :=
  negb (ShopifyClient.isGt c) && negb (ShopifyClient.isComma c).

(** The entry of a link header that points to the next page at [url]. *)
Definition nextLink (url : string) : string :=
  "<" ++ url ++ ">; " ++ ShopifyClient.relNext.

(** Starting at [url], the catalog serves the [pages] one after the other,
    each with its products and a link header that names the non-empty URL
    of the next one, and the URL that the last of them names is [last]. *)
Fixpoint pagesLead (httpGet : string -> ShopifyClient.pageResponse) (url : string)
    (pages : list (list product * string)) (last : string) : Prop :=
  match pages with
  | [] => url = last
  | (products, next) :: rest =>
      next <> ""
      /\ (exists link,
            httpGet url = ShopifyClient.PageOk products link
            /\ ShopifyClient.extractNextPageUrl link = Some next)
      /\ pagesLead httpGet next rest last
  end.

(** A planned creation. *)
Definition isCreateOp (op : ShopifyClient.operation) : bool :=
  match op with
  | ShopifyClient.create_op _ => true
  | ShopifyClient.update_op _ => false
  end.

(** The report of a run before its first batch. *)
Definition emptyReport (n : nat) : ShopifyClient.results :=
  ShopifyClient.mkResults n 0 0 0 0 [] [] [].

(** A report in which nothing was updated. *)
Definition nothingUpdated (r : ShopifyClient.results) : Prop :=
  ShopifyClient.updated r = 0%nat /\ ShopifyClient.updatedProducts r = [].

(** The message of the TypeError raised on a remote record without a
    title. *)
Definition noTitleMessage : string :=
  "Cannot read properties of undefined (reading 'toLowerCase')".

(** The remote record [p] has the display name [x] up to case. *)
Definition hasName (x : string) (p : product) : Prop :=
  exists t, title p = Some t /\ JS.toLowerCase t = x.

(** The remote deletion of a product succeeds. *)
Definition deletes (deleteProduct : Z -> Exc unit) (p : product) : bool :=
  match deleteProduct (product_id p) with
  | Ok _ => true
  | Throw _ => false
  end.

(** The error entry that a product contributes to the deletion report:
    none when its deletion succeeds, else its identifier, its title and
    the message of its own failure. *)
Definition deletionErrorOf (deleteProduct : Z -> Exc unit) (p : product)
  : list ProductDeleter.deletionError :=
  match deleteProduct (product_id p) with
  | Ok _ => []
  | Throw message =>
      [ProductDeleter.DeletionError (Some (product_id p)) (title p) message]
  end.

(** The columns of a cleaned row that the processor reads. *)
Definition csvItemOf (row : gmap string string) : csvItem :=
  mkCsvItem (row !! "Item") (row !! "Description") (row !! "MSRP")
    (row !! "ContractPrice") (row !! "Qty_Avail") (row !! "Status")
    (row !! "Categories") (row !! "ProductLine") (row !! "Item_Type").


(* ===================================================================== *)
(** ** Sample rows and remote records *)
(* ===================================================================== *)

Definition discontinuedRing : csvItem :=
  mkCsvItem (Some "R-100") (Some "Pearl ring") (Some "300.00") (Some "250.00")
    (Some "4") (Some " Discontinued ") None (Some "Pearls") None.

Definition pearlItem : csvItem :=
  mkCsvItem (Some "P-1") (Some "Pearl strand") None (Some "250.00") None
    (Some "Active") None (Some "Pearl") None.

Definition pearlsOnly : filterCriteria := mkCriteria 100 1000 ["Pearls"].

Definition ropeChainNecklaces : string :=
  "\Jewelry\Necklaces\Chain Necklaces\Rope Chain Necklaces".

Definition ropeChain : string := "\Jewelry\Chains\Rope Chains\Rope Chain".

(** Two remote records: the first carries the SKU "X1", the second has the
    display name "Gold Ring". *)
Definition remoteUntitled : product :=
  mkProduct 1 (Some "Untitled Product") (Some "draft")
    (Some [mkVariant 11 (Some "X1") (Some "100.00") (Some 5%Z)]).

Definition remoteGoldRing : product :=
  mkProduct 2 (Some "Gold Ring") (Some "draft")
    (Some [mkVariant 21 (Some "Y2") (Some "250.00") (Some 3%Z)]).

Definition indexOfBoth : ShopifyClient.index :=
  ShopifyClient.mkIndex
    (<["y2" := remoteGoldRing]> (<["x1" := remoteUntitled]> ∅))
    (<["gold ring" := remoteGoldRing]> (<["untitled product" := remoteUntitled]> ∅)).

(** A row with the identifier of the first and the display name of the
    second. *)
Definition rowX1 : csvItem :=
  mkCsvItem (Some "x1") (Some "Gold Ring") (Some "120.00") None (Some "9")
    (Some "Active") None None None.

(** A remote record whose first variant has no inventory count and no
    price, and a row with 5 in stock. *)
Definition remoteBare : product :=
  mkProduct 3 (Some "Silver Chain") (Some "draft")
    (Some [mkVariant 31 (Some "S-3") None None]).

Definition rowFive : csvItem :=
  mkCsvItem (Some "S-3") (Some "Silver Chain") (Some "80.00") None (Some "5")
    None None None None.

(** A row that agrees with the second remote record on every tracked
    field. *)
Definition rowSame : csvItem :=
  mkCsvItem (Some "Y2") (Some "Gold Ring") (Some "250.00") None (Some "3")
    (Some "Draft") None None None.

(** A remote catalog that refuses the row "B-2" and accepts every other
    row. *)
Definition row (name : string) : csvItem :=
  mkCsvItem (Some name) (Some name) None None None None None None None.

Definition refusesB2 (c : csvItem) : Exc product :=
  if String.eqb (JS.orElse (Item c) "") "B-2" then Throw "422 Unprocessable"
  else Ok (mkProduct 100 (Description c) (Some "draft") None).

Definition refusesUpdates (c : csvItem) (e : product) (ch : list change) : Exc product :=
  Throw "503 Service Unavailable".

(** A row without any of the other columns. *)
Definition noColumns : ShopifyClient.csvColumns :=
  ShopifyClient.mkColumns None None None None None None (fun _ => None)
    None None None None.

(** A catalog of two pages; a catalog whose second page is refused with
    the status 429. *)
Definition page2Url : string := "https://shop.example/admin/products.json?page_info=p2".

Definition twoPages (url : string) : ShopifyClient.pageResponse :=
  if String.eqb url "https://shop.example/admin/products.json?limit=250"
  then ShopifyClient.PageOk [remoteUntitled] (Some (nextLink page2Url))
  else ShopifyClient.PageOk [remoteGoldRing] None.

Definition limitedOnPage2 (url : string) : ShopifyClient.pageResponse :=
  if String.eqb url "https://shop.example/admin/products.json?limit=250"
  then ShopifyClient.PageOk [remoteUntitled] (Some (nextLink page2Url))
  else ShopifyClient.PageError "Request failed with status code 429" (Some 429%nat).

(** A row priced at the lower bound of [pearlsOnly]. *)
Definition pearlStrand : csvItem :=
  mkCsvItem (Some "P-2") (Some "Pearl strand") None (Some "100") None
    (Some "Active") None (Some "Pearls") None.

(** A remote record without a title. *)
Definition remoteNoTitle : product := mkProduct 9 None (Some "active") None.

(** A row of columns with a length of 18 and a width of 2, and no size. *)
Definition columns18by2 : ShopifyClient.csvColumns :=
  ShopifyClient.mkColumns None None None (Some "18") (Some "2") None (fun _ => None)
    None None None None.

(** A remote side that refuses to delete the product 2 and accepts every
    other deletion. *)
Definition refusesToDelete2 (productId : Z) : Exc unit :=
  if (productId =? 2)%Z then Throw "API Error 500" else Ok tt.

(** A row of the reader with padded and blank values. *)
Definition rawRow : list (string * string) :=
  [(" Item ", " R-1 "); ("Description", "  "); ("MSRP", "120.00 ")].


(* ===================================================================== *)
(** ** The primitives on small inputs *)
(* ===================================================================== *)

Example parseFloat_ex1 : JS.parseFloat " 1500.00" = JS.Fin (150000 # 100).
Proof. reflexivity. Qed.
Example parseFloat_ex2 : JS.parseFloat "-.5e1x" = JS.Fin (inject_Z (-5)).
Proof. reflexivity. Qed.
Example parseFloat_ex3 : JS.parseFloat "abc" = JS.NaN.
Proof. reflexivity. Qed.
Example toFixed2_ex1 : JS.toFixed2 (JS.parseFloat "1500") = "1500.00".
Proof. reflexivity. Qed.
Example toFixed2_ex2 : JS.toFixed2 (JS.parseFloat "-12.345") = "-12.35".
Proof. vm_compute. reflexivity. Qed.
Example toFixed2_ex3 : JS.toFixed2 (JS.parseFloat "0.5") = "0.50".
Proof. vm_compute. reflexivity. Qed.
Example parseInt_ex1 : JS.parseInt " 12abc" = Some 12%Z.
Proof. reflexivity. Qed.
Example parseInt_ex2 : JS.parseInt "0x1A" = Some 26%Z.
Proof. reflexivity. Qed.
Example trim_ex : JS.trim "  a b  " = "a b".
Proof. reflexivity. Qed.
Example split_ex : JS.splitOn (fun c => (JS.code c =? 47)%nat) "a//b/" = ["a"; ""; "b"; ""].
Proof. reflexivity. Qed.
Example filter_ex1 :
  ProductProcessor.rejectedBy ProductProcessor.filterCriteria0
    (mkCsvItem (Some "A1") (Some "Pearl ring") None (Some "250.00") None
       (Some "Active") None (Some "Cultured Pearls ") None) = None.
Proof. vm_compute. reflexivity. Qed.
Example filter_ex2 :
  ProductProcessor.rejectedBy ProductProcessor.filterCriteria0
    (mkCsvItem (Some "A1") (Some "Pearl ring") None (Some "250.00") None
       (Some " DISCONTINUED ") None (Some "Cultured Pearls ") None) = Some Discontinued.
Proof. vm_compute. reflexivity. Qed.
Example filter_ex3 :
  ProductProcessor.rejectedBy ProductProcessor.filterCriteria0
    (mkCsvItem (Some "A1") (Some "Pearl ring") None (Some "250.00") None
       (Some "Active") None (Some "pearl") None) = Some NoMatchingProductLine.
Proof. vm_compute. reflexivity. Qed.

Example taxonomy_ex1 :
  ShopifyClient.findBestCategoryMatch "Jewelry > Rings > Watch Bands" = Some (ShopifyClient.aa_6 "10-1").
Proof. vm_compute. reflexivity. Qed.
Example taxonomy_ex2 :
  ShopifyClient.findBestCategoryMatch "\Jewelry\Necklaces\Chain Necklaces\Rope Chain Necklaces" = Some (ShopifyClient.aa_6 "8").
Proof. vm_compute. reflexivity. Qed.
Example taxonomy_ex3 :
  ShopifyClient.findBestCategoryMatch "\Jewelry\Chains\Rope Chains\Rope Chain" = Some (ShopifyClient.aa_6 "8").
Proof. vm_compute. reflexivity. Qed.
Example taxonomy_ex4 :
  ShopifyClient.findBestCategoryMatch "Rings\Watches" = Some (ShopifyClient.aa_6 "9").
Proof. vm_compute. reflexivity. Qed.
Example taxonomy_ex5 :
  ShopifyClient.findBestCategoryMatch "Rings/Watches" = Some (ShopifyClient.aa_6 "11").
Proof. vm_compute. reflexivity. Qed.
Example taxonomy_ex6 :
  ShopifyClient.cleanPathOf "\Jewelry\Chains\Rope Chains\Rope Chain" = "jewelrychainsrope chainsrope chain".
Proof. vm_compute. reflexivity. Qed.

(* ===================================================================== *)
(** ** Strings *)
(* ===================================================================== *)

Lemma append_nil_l (s : string) : "" ++ s = s.
Proof. reflexivity. Qed.

Lemma append_cons (c : ascii) (s t : string) : String c s ++ t = String c (s ++ t).
Proof. reflexivity. Qed.

Lemma append_nil_r (s : string) : s ++ "" = s.
Proof. induction s as [|c s IH]; [reflexivity | now rewrite append_cons, IH]. Qed.

Lemma prefix_nil (s : string) : String.prefix "" s = true.
Proof. now destruct s. Qed.

Lemma prefix_cons (a b : ascii) (t s : string) :
  String.prefix (String a t) (String b s)
  = if ascii_dec a b then String.prefix t s else false.
Proof. reflexivity. Qed.

Lemma prefix_app (t s : string) :
  String.prefix t s = true <-> exists post, s = t ++ post.
Proof.
  revert s; induction t as [|a t IH]; intros s.
  - rewrite prefix_nil. split; [intros _; exists s; reflexivity | reflexivity].
  - destruct s as [|b s].
    + split; [discriminate | intros [post H]; rewrite append_cons in H; discriminate].
    + rewrite prefix_cons. destruct (ascii_dec a b) as [->|Hne].
      * rewrite IH. split; intros [post H]; exists post.
        -- now rewrite append_cons, H.
        -- rewrite append_cons in H. now injection H.
      * split; [discriminate|].
        intros [post H]. rewrite append_cons in H. injection H; intros; congruence.
Qed.

Lemma includes_nil (t : string) : JS.includes "" t = String.prefix t "".
Proof. unfold JS.includes. now rewrite orb_false_r. Qed.

Lemma includes_cons (c : ascii) (s t : string) :
  JS.includes (String c s) t = String.prefix t (String c s) || JS.includes s t.
Proof. reflexivity. Qed.

(** [includes] decides the substring relation. *)
Lemma includes_isSubstring (s t : string) :
  JS.includes s t = true <-> isSubstring t s.
Proof.
  unfold isSubstring. induction s as [|c s IH].
  - rewrite includes_nil, prefix_app. split.
    + intros [post H]. exists "", post. exact H.
    + intros [pre [post H]]. destruct pre as [|c' pre].
      * now exists post.
      * rewrite append_cons in H. discriminate.
  - rewrite includes_cons, orb_true_iff, prefix_app, IH. split.
    + intros [[post H] | [pre [post H]]].
      * exists "", post. exact H.
      * exists (String c pre), post. now rewrite append_cons, H.
    + intros [pre [post H]]. destruct pre as [|c' pre].
      * left. now exists post.
      * right. rewrite append_cons in H. injection H as _ H. now exists pre, post.
Qed.

Lemma includes_refl (s : string) : JS.includes s s = true.
Proof.
  apply includes_isSubstring. exists "", "".
  now rewrite append_nil_l, append_nil_r.
Qed.

Lemma toLowerCase_isEmpty (s : string) :
  JS.isEmpty (JS.toLowerCase s) = JS.isEmpty s.
Proof. now destruct s. Qed.

Lemma isEmpty_true (s : string) : JS.isEmpty s = true <-> s = "".
Proof. destruct s; simpl; split; congruence. Qed.

(* ===================================================================== *)
(** ** Eligibility filter *)
(* ===================================================================== *)

(** C10. A record whose Status, lower-cased and trimmed, is "discontinued"
    is rejected by the first check of [filterProducts], whatever the
    criteria and whatever its other fields: the price, line and exclusion
    checks are not reached, and the record is in no filtered list. *)
Theorem C10_discontinued_rejected_first (fc : filterCriteria) (product : csvItem) :
  JS.trim (JS.toLowerCase (JS.orElse (Status product) "")) = "discontinued" ->
  ProductProcessor.rejectedBy fc product = Some Discontinued
  /\ ProductProcessor.keeps fc product = false
  /\ forall products, ~ In product (ProductProcessor.filterProducts fc products).
Proof.
  intros Hst.
  assert (Hrej : ProductProcessor.rejectedBy fc product = Some Discontinued).
  { unfold ProductProcessor.rejectedBy, ProductProcessor.statusOf.
    rewrite Hst. reflexivity. }
  assert (Hkeep : ProductProcessor.keeps fc product = false).
  { unfold ProductProcessor.keeps. now rewrite Hrej. }
  repeat split; trivial.
  intros products Hin. unfold ProductProcessor.filterProducts in Hin.
  apply filter_In in Hin. destruct Hin as [_ Hk]. congruence.
Qed.

Lemma C10_witness :
  ProductProcessor.rejectedBy ProductProcessor.filterCriteria0 discontinuedRing
    = Some Discontinued
  /\ ProductProcessor.keeps ProductProcessor.filterCriteria0 discontinuedRing = false
  /\ forall products,
       ~ In discontinuedRing
           (ProductProcessor.filterProducts ProductProcessor.filterCriteria0 products).
Proof.
  apply (C10_discontinued_rejected_first ProductProcessor.filterCriteria0 discontinuedRing).
  reflexivity.
Defined.

Lemma hasMatchingProductLine_iff (lines : list string) (productLine : string) :
  existsb
    (fun line =>
       let lineLower := JS.toLowerCase line in
       String.eqb productLine lineLower || JS.includes productLine lineLower) lines = true
  <-> exists line, In line lines /\
        (productLine = JS.toLowerCase line
         \/ isSubstring (JS.toLowerCase line) productLine).
Proof.
  rewrite existsb_exists. split; intros [line [Hin H]]; exists line; split; trivial.
  - cbv zeta in H. apply orb_true_iff in H. destruct H as [H|H].
    + left. now apply String.eqb_eq.
    + right. now apply includes_isSubstring.
  - cbv zeta. apply orb_true_iff. destruct H as [H|H].
    + left. now apply String.eqb_eq.
    + right. now apply includes_isSubstring.
Qed.

(** C2, as the code has it. The category-line check of both filters
    succeeds exactly when the record's label, lower-cased and trimmed,
    equals a configured line in lower case or contains one as a substring.
    Containment is tested in that one direction only: a label that is a
    proper part of a configured line does not match. *)
Theorem C2_line_check_one_direction (fc : filterCriteria) (product : csvItem) :
  (ProductProcessor.hasMatchingProductLine fc (ProductProcessor.productLineOf product) = true
   <-> exists line, In line (productLines fc) /\
         (normalizeLabel (JS.orElse (ProductLine product) "") = JS.toLowerCase line
          \/ isSubstring (JS.toLowerCase line)
               (normalizeLabel (JS.orElse (ProductLine product) ""))))
  /\
  (ProductAnalyzer.hasMatchingProductLine fc (ProductAnalyzer.productLineOf product) = true
   <-> exists line, In line (productLines fc) /\
         (normalizeLabel (JS.orElse (ProductLine product) "") = JS.toLowerCase line
          \/ isSubstring (JS.toLowerCase line)
               (normalizeLabel (JS.orElse (ProductLine product) "")))).
Proof.
  split; apply hasMatchingProductLine_iff.
Qed.

(** C2, as stated, fails: the label "Pearl" is part of the configured line
    "Pearls", so the policy of the specification accepts it, while the check
    of the code does not. *)
Lemma C2_counterexample :
  ~ (ProductProcessor.hasMatchingProductLine pearlsOnly
       (ProductProcessor.productLineOf pearlItem) = true
     <-> spec_lineMatches (productLines pearlsOnly) (ProductLine pearlItem)).
Proof.
  intros [_ H].
  assert (Hspec : spec_lineMatches (productLines pearlsOnly) (ProductLine pearlItem)).
  { exists "Pearls". split; [now left|].
    right; left. exists "", "s". reflexivity. }
  apply H in Hspec. vm_compute in Hspec. discriminate.
Qed.

(* ===================================================================== *)
(** ** Taxonomy path resolver *)
(* ===================================================================== *)

(** The keys of [categoryMap] are pairwise distinct, so the list in
    insertion order is the map. *)
Lemma categoryMap_keys_distinct :
  NoDup (List.map fst ShopifyClient.categoryMap).
Proof.
  apply (bool_decide_unpack _). vm_compute. exact I.
Qed.

(** A scan of the entries answers with the first entry, in insertion
    order, whose keyword passes the test. *)
Lemma firstEntry_first (test : string -> bool) (m : list (string * string)) (id : string) :
  ShopifyClient.firstEntry test m = Some id <->
  exists before keyword after,
    m = (before ++ (keyword, id) :: after)%list
    /\ test keyword = true
    /\ forall k v, In (k, v) before -> test k = false.
Proof.
  induction m as [|[k v] m IH]; simpl.
  - split; [discriminate|]. intros (b & kw & a & H & _). now destruct b.
  - destruct (test k) eqn:Hk.
    + split.
      * intros [= <-]. exists [], k, m. repeat split; trivial. intros ? ? [].
      * intros (b & kw & a & H & Hkw & Hb). destruct b as [|[k' v'] b].
        -- simpl in H. now injection H as _ <- _.
        -- simpl in H. injection H as -> -> _.
           specialize (Hb k' v' (or_introl eq_refl)). congruence.
    + rewrite IH. split.
      * intros (b & kw & a & -> & Hkw & Hb). exists ((k, v) :: b), kw, a.
        repeat split; trivial. intros k' v' [[= <- <-]|Hin]; eauto.
      * intros (b & kw & a & H & Hkw & Hb). destruct b as [|[k' v'] b].
        -- simpl in H. injection H as -> _ _. congruence.
        -- simpl in H. injection H as _ _ ->. exists b, kw, a.
           repeat split; trivial. intros; apply (Hb k0 v0). now right.
Qed.

Lemma firstEntry_firstKeyword (test : string -> bool) (m : list (string * string)) :
  ShopifyClient.firstEntry test m = option_map snd (firstKeyword test m).
Proof.
  unfold firstKeyword. induction m as [|[k v] m IH]; simpl; trivial.
  now destruct (test k).
Qed.

(** The segments are tried in the order given -- the reversed order of the
    path -- and the first segment that matches decides. *)
Lemma firstMatch_first (cm : list (string * string)) (terms : list string) (id : string) :
  ShopifyClient.firstMatch cm terms = Some id <->
  exists before term after,
    terms = (before ++ term :: after)%list
    /\ ShopifyClient.matchTerm cm term = Some id
    /\ forall t, In t before -> ShopifyClient.matchTerm cm t = None.
Proof.
  induction terms as [|t terms IH]; simpl.
  - split; [discriminate|]. intros (b & tm & a & H & _). now destruct b.
  - destruct (ShopifyClient.matchTerm cm t) as [i|] eqn:Ht.
    + split.
      * intros [= <-]. exists [], t, terms. repeat split; trivial. intros ? [].
      * intros (b & tm & a & H & Htm & Hb). destruct b as [|t' b]; simpl in H.
        -- injection H as <- _. congruence.
        -- injection H as <- _. specialize (Hb t (or_introl eq_refl)). congruence.
    + rewrite IH. split.
      * intros (b & tm & a & -> & Htm & Hb). exists (t :: b), tm, a.
        repeat split; trivial. intros t' [<-|Hin]; auto.
      * intros (b & tm & a & H & Htm & Hb). destruct b as [|t' b]; simpl in H.
        -- injection H as <- _. congruence.
        -- injection H as _ ->. exists b, tm, a. repeat split; trivial.
           intros; apply Hb. now right.
Qed.

(** A segment is matched by the keyword equal to it, else by the first
    keyword, in insertion order, that it contains or that contains it. *)
Lemma matchTerm_cases (cm : list (string * string)) (term : string) :
  ShopifyClient.matchTerm cm term =
  match ShopifyClient.mapGet cm term with
  | Some id => Some id
  | None =>
      option_map snd
        (firstKeyword
           (fun keyword => JS.includes term keyword || JS.includes keyword term) cm)
  end.
Proof.
  unfold ShopifyClient.matchTerm. destruct (ShopifyClient.mapGet cm term); trivial.
  apply firstEntry_firstKeyword.
Qed.

(** The normalized path holds no backslash: the split never sees one. *)
Lemma removeAll_allChars (p : ascii -> bool) (s : string) :
  allChars (fun c => negb (p c)) (JS.removeAll p s) = true.
Proof.
  induction s as [|c s IH]; simpl; trivial.
  destruct (p c) eqn:Hc; simpl; trivial. now rewrite Hc.
Qed.

Lemma cleanPath_no_backslash (categoryPath : string) :
  allChars (fun c => negb (ShopifyClient.isBackslash c))
    (ShopifyClient.cleanPathOf categoryPath) = true.
Proof. apply removeAll_allChars. Qed.

Lemma splitOn_agree (p q : ascii -> bool) (s : string) :
  allChars (fun c => Bool.eqb (p c) (q c)) s = true ->
  JS.splitOn p s = JS.splitOn q s.
Proof.
  induction s as [|c s IH]; simpl; trivial.
  intros H. apply andb_true_iff in H. destruct H as [Hc Hs].
  apply Bool.eqb_prop in Hc. rewrite Hc, (IH Hs). reflexivity.
Qed.

Lemma allChars_impl (p q : ascii -> bool) (s : string) :
  (forall c, p c = true -> q c = true) ->
  allChars p s = true -> allChars q s = true.
Proof.
  intros Hpq. induction s as [|c s IH]; simpl; trivial.
  intros H. apply andb_true_iff in H. destruct H as [Hc Hs].
  now rewrite (Hpq c Hc), (IH Hs).
Qed.

(** On a normalized path the split on the four separators is the split on
    slash, greater-than and pipe. *)
Lemma categoryTerms_without_backslash (categoryPath : string) :
  ShopifyClient.categoryTermsOf (ShopifyClient.cleanPathOf categoryPath)
  = List.filter (fun term => negb (JS.isEmpty term))
      (List.map JS.trim
         (JS.splitOn isSlashGtPipe (ShopifyClient.cleanPathOf categoryPath))).
Proof.
  unfold ShopifyClient.categoryTermsOf. do 2 f_equal.
  apply splitOn_agree.
  apply (allChars_impl (fun c => negb (ShopifyClient.isBackslash c)));
    [|apply cleanPath_no_backslash].
  intros c Hc. unfold ShopifyClient.isSeparator, isSlashGtPipe.
  unfold ShopifyClient.isBackslash in Hc. apply negb_true_iff in Hc.
  rewrite Hc. simpl. apply Bool.eqb_reflx.
Qed.

(** C9. Two rows whose Categories are the paths
    "\Jewelry\Necklaces\Chain Necklaces\Rope Chain Necklaces" and
    "\Jewelry\Chains\Rope Chains\Rope Chain" get the same category
    identifier, aa-6-8, the one of the necklace and chain keywords. Each
    path is matched by a keyword of the vocabulary, so the identifier is not
    the fallback for an unmatched path: scanned in its fixed insertion order,
    the first keyword that matches the one segment of the first path is
    "necklaces", and the first that matches the one segment of the second
    is "chains". *)
Theorem C9_rope_chain_paths_same_category (row1 row2 : csvItem) :
  Categories row1 = Some ropeChainNecklaces ->
  Categories row2 = Some ropeChain ->
  ShopifyClient.getCategoryId row1 = ShopifyClient.getCategoryId row2
  /\ ShopifyClient.getCategoryId row1 = "gid://shopify/TaxonomyCategory/aa-6-8"
  /\ ShopifyClient.findBestCategoryMatch ropeChainNecklaces
     = Some "gid://shopify/TaxonomyCategory/aa-6-8"
  /\ ShopifyClient.findBestCategoryMatch ropeChain
     = Some "gid://shopify/TaxonomyCategory/aa-6-8"
  /\ ShopifyClient.categoryTermsOf (ShopifyClient.cleanPathOf ropeChainNecklaces)
     = ["jewelrynecklaceschain necklacesrope chain necklaces"]
  /\ firstKeyword
       (fun keyword =>
          JS.includes "jewelrynecklaceschain necklacesrope chain necklaces" keyword
          || JS.includes keyword "jewelrynecklaceschain necklacesrope chain necklaces")
       ShopifyClient.categoryMap
     = Some ("necklaces", "gid://shopify/TaxonomyCategory/aa-6-8")
  /\ ShopifyClient.categoryTermsOf (ShopifyClient.cleanPathOf ropeChain)
     = ["jewelrychainsrope chainsrope chain"]
  /\ firstKeyword
       (fun keyword =>
          JS.includes "jewelrychainsrope chainsrope chain" keyword
          || JS.includes keyword "jewelrychainsrope chainsrope chain")
       ShopifyClient.categoryMap
     = Some ("chains", "gid://shopify/TaxonomyCategory/aa-6-8").
Proof.
  intros H1 H2. unfold ShopifyClient.getCategoryId. rewrite H1, H2.
  vm_compute. repeat split; reflexivity.
Qed.

Lemma C9_witness :
  ShopifyClient.getCategoryId
    (mkCsvItem (Some "N-1") None None None None None (Some ropeChainNecklaces) None None)
  = ShopifyClient.getCategoryId
      (mkCsvItem (Some "N-2") None None None None None (Some ropeChain) None None).
Proof.
  apply (C9_rope_chain_paths_same_category
           (mkCsvItem (Some "N-1") None None None None None (Some ropeChainNecklaces) None None)
           (mkCsvItem (Some "N-2") None None None None None (Some ropeChain) None None));
    reflexivity.
Defined.

(** C3, on the code. The path is trimmed, lower-cased and stripped of
    every backslash before it is split, so on every path the split is the
    split on slash, greater-than and pipe alone and a backslash never
    separates two segments. "\Jewelry\Rings\Eternity" is the one segment
    "jewelryringseternity", whose first matching keyword is "set" (across
    the lost boundary of "rings" and "eternity"), so it resolves to the
    jewelry sets; "/Jewelry/Rings/Eternity" has the segments "jewelry",
    "rings", "eternity" and resolves, leaf first, through "rings". Likewise
    "Rings\Watches" resolves through "rings" while "Rings/Watches",
    "Rings>Watches" and "Rings|Watches" resolve through the leaf
    "watches". *)
Theorem C3_backslash_does_not_separate :
  (forall categoryPath,
     ShopifyClient.categoryTermsOf (ShopifyClient.cleanPathOf categoryPath)
     = List.filter (fun term => negb (JS.isEmpty term))
         (List.map JS.trim
            (JS.splitOn isSlashGtPipe (ShopifyClient.cleanPathOf categoryPath))))
  /\ ShopifyClient.categoryTermsOf (ShopifyClient.cleanPathOf "\Jewelry\Rings\Eternity")
     = ["jewelryringseternity"]
  /\ firstKeyword
       (fun keyword =>
          JS.includes "jewelryringseternity" keyword
          || JS.includes keyword "jewelryringseternity")
       ShopifyClient.categoryMap
     = Some ("set", "gid://shopify/TaxonomyCategory/aa-6-7")
  /\ ShopifyClient.findBestCategoryMatch "\Jewelry\Rings\Eternity"
     = Some "gid://shopify/TaxonomyCategory/aa-6-7"
  /\ ShopifyClient.categoryTermsOf (ShopifyClient.cleanPathOf "/Jewelry/Rings/Eternity")
     = ["jewelry"; "rings"; "eternity"]
  /\ ShopifyClient.findBestCategoryMatch "/Jewelry/Rings/Eternity"
     = Some "gid://shopify/TaxonomyCategory/aa-6-9"
  /\ ShopifyClient.findBestCategoryMatch "Rings\Watches"
     = Some "gid://shopify/TaxonomyCategory/aa-6-9"
  /\ ShopifyClient.findBestCategoryMatch "Rings/Watches"
     = Some "gid://shopify/TaxonomyCategory/aa-6-11"
  /\ ShopifyClient.findBestCategoryMatch "Rings>Watches"
     = Some "gid://shopify/TaxonomyCategory/aa-6-11"
  /\ ShopifyClient.findBestCategoryMatch "Rings|Watches"
     = Some "gid://shopify/TaxonomyCategory/aa-6-11".
Proof.
  split; [exact categoryTerms_without_backslash|].
  vm_compute. repeat split; reflexivity.
Qed.

(* ===================================================================== *)
(** ** Reconciliation index *)
(* ===================================================================== *)

Section IndexBuild.

Import ShopifyClient.

Lemma indexVariant_lookup (p : product) (m : gmap string product) (v : variant)
    (x : string) :
  indexVariant p m v !! x = Some p /\ keyIn x [v]
  \/ indexVariant p m v !! x = m !! x /\ ~ keyIn x [v].
Proof.
  unfold indexVariant.
  destruct (sku v) as [k|] eqn:Hk.
  - destruct (JS.isEmpty k) eqn:He.
    + right. split; trivial. intros (v' & k' & [<-|[]] & Hs & Hne & _).
      rewrite Hk in Hs. injection Hs as <-. apply isEmpty_true in He. contradiction.
    + destruct (decide (JS.toLowerCase k = x)) as [<-|Hne].
      * left. split; [apply lookup_insert_eq|].
        exists v, k. repeat split; trivial; [now left|].
        intros ->. discriminate.
      * right. split; [now apply lookup_insert_ne|].
        intros (v' & k' & [<-|[]] & Hs & _ & Hx).
        rewrite Hk in Hs. injection Hs as <-. contradiction.
  - right. split; trivial. intros (v' & k' & [<-|[]] & Hs & _). congruence.
Qed.

Lemma keyIn_cons (x : string) (v : variant) (vs : list variant) :
  keyIn x (v :: vs) <-> keyIn x [v] \/ keyIn x vs.
Proof.
  unfold keyIn. split.
  - intros (v' & k & [Heq|Hin] & H); [left | right]; exists v', k; split; trivial.
    now left.
  - intros [(v' & k & [Heq|[]] & H) | (v' & k & Hin & H)]; exists v', k; split; trivial.
    + now left.
    + now right.
Qed.

(** After the variants of [p] are indexed, a key of [p] points to [p] and
    every other key is as before. *)
Lemma indexVariants_lookup (p : product) (vs : list variant) (m : gmap string product)
    (x : string) :
  fold_left (indexVariant p) vs m !! x = Some p /\ keyIn x vs
  \/ fold_left (indexVariant p) vs m !! x = m !! x /\ ~ keyIn x vs.
Proof.
  revert m; induction vs as [|v vs IH]; intros m; simpl.
  - right. split; trivial. intros (v & k & [] & _).
  - destruct (IH (indexVariant p m v)) as [[H1 H2] | [H1 H2]].
    + left. split; trivial. apply keyIn_cons. now right.
    + rewrite H1. destruct (indexVariant_lookup p m v x) as [[H3 H4] | [H3 H4]].
      * left. split; trivial. apply keyIn_cons. now left.
      * right. split; trivial. rewrite keyIn_cons. tauto.
Qed.

Lemma hasKey_keyIn (x : string) (p : product) :
  hasKey x p <-> exists vs, variants p = Some vs /\ keyIn x vs.
Proof.
  unfold hasKey, keyIn. split.
  - intros (vs & v & k & H1 & H2 & H3). exists vs. split; trivial. now exists v, k.
  - intros (vs & H1 & v & k & H2 & H3). now exists vs, v, k.
Qed.

(** One step of the build: a key of [p] now points to [p]; every other
    key of the SKU map is as before. *)
Lemma indexProduct_bySku (idx idx' : index) (p : product) (x : string) :
  indexProduct idx p = Ok idx' ->
  bySku idx' !! x = Some p /\ hasKey x p
  \/ bySku idx' !! x = bySku idx !! x /\ ~ hasKey x p.
Proof.
  unfold indexProduct. destruct (title p) as [t|]; [|discriminate].
  intros [= <-]. simpl. destruct (variants p) as [vs|] eqn:Hv.
  - destruct (indexVariants_lookup p vs (bySku idx) x) as [[H1 H2] | [H1 H2]].
    + left. split; trivial. apply hasKey_keyIn. now exists vs.
    + right. split; trivial. rewrite hasKey_keyIn. intros (vs' & Hv' & H).
      rewrite Hv in Hv'. injection Hv' as <-. auto.
  - right. split; trivial. rewrite hasKey_keyIn. intros (vs' & Hv' & _). congruence.
Qed.

(** The SKU map of a built index: a key carried by some remote record is
    present, and whatever a key points to is a remote record that carries
    it (or was in the map before the build). *)
Lemma buildIndexFrom_bySku (ps : list product) (idx idx' : index) (x : string) :
  buildIndexFrom idx ps = Ok idx' ->
  ((exists p, In p ps /\ hasKey x p) \/ is_Some (bySku idx !! x) ->
     is_Some (bySku idx' !! x))
  /\ (forall q, bySku idx' !! x = Some q ->
        (In q ps /\ hasKey x q) \/ bySku idx !! x = Some q).
Proof.
  revert idx; induction ps as [|p ps IH]; intros idx; simpl.
  - intros [= <-]. split.
    + intros [(p & [] & _) | H]; exact H.
    + intros q H. now right.
  - destruct (indexProduct idx p) as [idx1|] eqn:H1; simpl; [|discriminate].
    intros H. destruct (IH idx1 H) as [IHa IHb].
    pose proof (indexProduct_bySku idx idx1 p x H1) as Hstep. split.
    + intros Hpre. apply IHa.
      destruct Hstep as [[Hs _] | [Hs Hn]].
      * right. rewrite Hs. eauto.
      * destruct Hpre as [(p' & [<-|Hin] & Hk) | Hsome].
        -- contradiction.
        -- left. eauto.
        -- right. now rewrite Hs.
    + intros q Hq. destruct (IHb q Hq) as [[Hin Hk] | Hq1].
      * left. split; trivial. now right.
      * destruct Hstep as [[Hs Hk] | [Hs _]].
        -- left. rewrite Hs in Hq1. injection Hq1 as <-. split; trivial. now left.
        -- right. now rewrite <- Hs.
Qed.

(** What a key points to in a built index is the last remote record, in
    the order of the catalog, that carries the key. *)
Lemma buildIndexFrom_last (ps : list product) (idx idx' : index) (x : string)
    (q : product) :
  buildIndexFrom idx ps = Ok idx' ->
  bySku idx' !! x = Some q ->
  (exists before after,
     ps = (before ++ q :: after)%list /\ hasKey x q
     /\ forall p, In p after -> ~ hasKey x p)
  \/ (bySku idx !! x = Some q /\ forall p, In p ps -> ~ hasKey x p).
Proof.
  revert idx; induction ps as [|p ps IH]; intros idx; simpl.
  - intros [= <-] Hq. right. split; trivial. intros p [].
  - destruct (indexProduct idx p) as [idx1|] eqn:H1; simpl; [|discriminate].
    intros H Hq. pose proof (indexProduct_bySku idx idx1 p x H1) as Hstep.
    destruct (IH idx1 H Hq) as [(before & after & -> & Hk & Hafter) | [Hq1 Hnone]].
    + left. exists (p :: before), after. repeat split; trivial.
    + destruct Hstep as [[Hs Hk] | [Hs Hn]].
      * left. rewrite Hs in Hq1. injection Hq1 as <-.
        exists [], ps. repeat split; trivial.
      * right. split; [now rewrite <- Hs|].
        intros p' [<-|Hin]; [exact Hn | now apply Hnone].
Qed.

(** The lookup of [categorizeProducts] is the identifier lookup, and the
    display-name lookup only when the identifier lookup misses. *)
Lemma findExisting_policy (idx : index) (csvItem0 : csvItem) :
  findExisting idx csvItem0 =
  match identifierLookup idx csvItem0 with
  | Some q => Some q
  | None => displayNameLookup idx csvItem0
  end.
Proof.
  unfold findExisting, identifierLookup, displayNameLookup.
  assert (Ht : forall t,
    (if negb (JS.isEmpty t) && bool_decide (is_Some (byTitle idx !! t))
     then byTitle idx !! t else None)
    = (if JS.isEmpty t then None else byTitle idx !! t)).
  { intros t. destruct (JS.isEmpty t); simpl; trivial.
    case_bool_decide as H; trivial.
    destruct (byTitle idx !! t) eqn:E; trivial. exfalso. apply H. eauto. }
  destruct (skuOf csvItem0) as [s|]; [|apply Ht].
  destruct (JS.isEmpty s); simpl; [apply Ht|].
  case_bool_decide as H.
  - destruct H as [q Hq]. now rewrite Hq.
  - destruct (bySku idx !! s) eqn:E; [exfalso; apply H; eauto | apply Ht].
Qed.

End IndexBuild.

(** C4. When the lower-cased identifier of an incoming row is a variant key
    of some remote record, the lookup against the built index pairs the row
    with a remote record that carries that key -- the one the SKU map holds
    for it, which is the last such record of the catalog, and is that very
    record when no other carries the key -- whatever the display-name map
    holds. In general the lookup is the identifier lookup, and the
    display-name lookup only where the identifier lookup misses. *)
Theorem C4_identifier_match_wins (existingProducts : list product)
    (idx : ShopifyClient.index) (csvItem0 : csvItem) (s : string) (p : product) :
  ShopifyClient.buildIndex existingProducts = Ok idx ->
  Item csvItem0 = Some s ->
  In p existingProducts ->
  hasKey (JS.toLowerCase s) p ->
  (exists q,
     ShopifyClient.findExisting idx csvItem0 = Some q
     /\ In q existingProducts
     /\ hasKey (JS.toLowerCase s) q
     /\ ShopifyClient.bySku idx !! JS.toLowerCase s = Some q
     /\ (exists before after,
           existingProducts = (before ++ q :: after)%list
           /\ forall p', In p' after -> ~ hasKey (JS.toLowerCase s) p')
     /\ ((forall p', In p' existingProducts -> hasKey (JS.toLowerCase s) p' -> p' = p)
         -> q = p))
  /\ (forall row,
        ShopifyClient.findExisting idx row =
        match identifierLookup idx row with
        | Some q => Some q
        | None => displayNameLookup idx row
        end).
Proof.
  intros Hbuild Hitem Hin Hkey. split; [|intros row; apply findExisting_policy].
  destruct (buildIndexFrom_bySku existingProducts ShopifyClient.emptyIndex idx
              (JS.toLowerCase s) Hbuild) as [Hpresent _].
  destruct Hpresent as [q Hq]; [left; eauto|].
  exists q.
  destruct (buildIndexFrom_last existingProducts ShopifyClient.emptyIndex idx
              (JS.toLowerCase s) q Hbuild Hq)
    as [(before & after & Heq & Hq2 & Hafter) | [Habs _]].
  - assert (Hq1 : In q existingProducts).
    { rewrite Heq. apply in_or_app. right. now left. }
    repeat split; trivial.
    + rewrite findExisting_policy. unfold identifierLookup, ShopifyClient.skuOf.
      rewrite Hitem. simpl.
      destruct Hkey as (vs & v & k & _ & _ & _ & Hne & Hk).
      assert (He : JS.isEmpty (JS.toLowerCase s) = false).
      { rewrite <- Hk, toLowerCase_isEmpty. destruct k; [contradiction | reflexivity]. }
      now rewrite He, Hq.
    + now exists before, after.
    + intros Honly. now apply Honly.
  - simpl in Habs. rewrite lookup_empty in Habs. discriminate.
Qed.

Lemma C4_witness :
  ShopifyClient.findExisting indexOfBoth rowX1 = Some remoteUntitled
  /\ displayNameLookup indexOfBoth rowX1 = Some remoteGoldRing.
Proof.
  destruct (C4_identifier_match_wins [remoteUntitled; remoteGoldRing] indexOfBoth
              rowX1 "x1" remoteUntitled) as [(q & Hq & _ & _ & _ & _ & Honly) _].
  - vm_compute. reflexivity.
  - reflexivity.
  - now left.
  - exists [mkVariant 11 (Some "X1") (Some "100.00") (Some 5%Z)],
      (mkVariant 11 (Some "X1") (Some "100.00") (Some 5%Z)), "X1".
    repeat split; [now left | discriminate].
  - split; [|vm_compute; reflexivity].
    rewrite Hq. f_equal. apply Honly.
    intros p' [<-|[<-|[]]] Hk; [reflexivity|].
    destruct Hk as (vs & v & k & [= <-] & [<-|[]] & [= <-] & _ & Hlow).
    vm_compute in Hlow. discriminate.
Defined.


(* ===================================================================== *)
(** ** Categorisation and diff *)
(* ===================================================================== *)

Section Categorize.

Import ShopifyClient.

Lemma categorize_create (idx : index) (enable : bool) (csvData : list csvItem)
    (acc : categorized) :
  productsToCreate (fold_left (categorizeItem idx enable) csvData acc)
  = (productsToCreate acc ++ List.filter (unmatched idx) csvData)%list.
Proof.
  revert acc; induction csvData as [|c l IH]; intros acc; simpl.
  - now rewrite app_nil_r.
  - rewrite IH. unfold categorizeItem, unmatched.
    destruct (findExisting idx c) as [e|].
    + destruct enable; [|reflexivity].
      destruct (hasChanges (doesProductNeedUpdate c e)); reflexivity.
    + cbn [productsToCreate]. now rewrite <- app_assoc.
Qed.

Lemma categorize_update_disabled (idx : index) (csvData : list csvItem)
    (acc : categorized) :
  productsToUpdate (fold_left (categorizeItem idx false) csvData acc)
  = productsToUpdate acc.
Proof.
  revert acc; induction csvData as [|c l IH]; intros acc; simpl; trivial.
  rewrite IH. unfold categorizeItem. now destruct (findExisting idx c).
Qed.

End Categorize.

(** C7. With [enableUpdates] false a row that the lookup matches to a remote
    record is put in neither list, whatever the two records hold: no entry
    of the list to create is the row, the list to update is empty, and so no
    operation is planned for the row. *)
Theorem C7_updates_disabled_skip (csvData : list csvItem) (idx : ShopifyClient.index)
    (row : csvItem) (existingProduct : product) :
  In row csvData ->
  ShopifyClient.findExisting idx row = Some existingProduct ->
  ~ In row (ShopifyClient.productsToCreate
              (ShopifyClient.categorizeProducts csvData idx false))
  /\ ShopifyClient.productsToUpdate
       (ShopifyClient.categorizeProducts csvData idx false) = []
  /\ forall op,
       In op (ShopifyClient.allProductsToProcessOf
                (ShopifyClient.categorizeProducts csvData idx false)) ->
       ShopifyClient.op_csvItem op <> row.
Proof.
  intros Hin Hfound. unfold ShopifyClient.categorizeProducts.
  assert (Hc : ~ In row (ShopifyClient.productsToCreate
                 (fold_left (ShopifyClient.categorizeItem idx false) csvData
                    (ShopifyClient.mkCategorized [] [])))).
  { rewrite categorize_create. simpl. intros H. apply filter_In in H.
    destruct H as [_ H]. unfold unmatched in H. now rewrite Hfound in H. }
  assert (Hu : ShopifyClient.productsToUpdate
                 (fold_left (ShopifyClient.categorizeItem idx false) csvData
                    (ShopifyClient.mkCategorized [] [])) = []).
  { now rewrite categorize_update_disabled. }
  repeat split; trivial.
  intros op Hop Heq. unfold ShopifyClient.allProductsToProcessOf in Hop.
  rewrite Hu in Hop. simpl in Hop. rewrite app_nil_r in Hop.
  apply in_map_iff in Hop. destruct Hop as (c & <- & Hc'). simpl in Heq.
  subst c. contradiction.
Qed.

Lemma C7_witness :
  ~ In rowX1 (ShopifyClient.productsToCreate
                (ShopifyClient.categorizeProducts [rowFive; rowX1] indexOfBoth false))
  /\ ShopifyClient.productsToUpdate
       (ShopifyClient.categorizeProducts [rowFive; rowX1] indexOfBoth false) = []
  /\ forall op,
       In op (ShopifyClient.allProductsToProcessOf
                (ShopifyClient.categorizeProducts [rowFive; rowX1] indexOfBoth false)) ->
       ShopifyClient.op_csvItem op <> rowX1.
Proof.
  apply (C7_updates_disabled_skip [rowFive; rowX1] indexOfBoth rowX1 remoteUntitled).
  - right; now left.
  - vm_compute. reflexivity.
Defined.

Example updates_enabled_would_update :
  ShopifyClient.categorizeProducts [rowFive; rowX1] indexOfBoth true
  = ShopifyClient.mkCategorized [rowFive]
      [ShopifyClient.mkUpdate rowX1 remoteUntitled
         [title_tag; price_tag; inventory_tag; status_tag]].
Proof. vm_compute. reflexivity. Qed.

Section Diff.

Import ShopifyClient.

Variables (csvItem0 : csvItem) (existingProduct : product).

(** The try block always completes, so the catch block is not entered. *)
Lemma doesProductNeedUpdate_completes :
  doesProductNeedUpdate_try csvItem0 existingProduct
  = Ok (doesProductNeedUpdate csvItem0 existingProduct).
Proof. reflexivity. Qed.

(** A tag is in [changes] exactly when its check found a difference. *)
Lemma changes_tags (tag : change) :
  In tag (changes (doesProductNeedUpdate csvItem0 existingProduct)) <->
  match tag with
  | title_tag => titleChanged csvItem0 existingProduct = true
  | price_tag => priceChanged csvItem0 existingProduct = true
  | inventory_tag => inventoryChanged csvItem0 existingProduct = true
  | status_tag => statusChanged csvItem0 existingProduct = true
  end.
Proof.
  unfold doesProductNeedUpdate, doesProductNeedUpdate_try, pushIf. cbn [changes].
  destruct (titleChanged csvItem0 existingProduct),
           (priceChanged csvItem0 existingProduct),
           (inventoryChanged csvItem0 existingProduct),
           (statusChanged csvItem0 existingProduct);
    destruct tag; cbn; intuition congruence.
Qed.

Lemma hasChanges_changes :
  hasChanges (doesProductNeedUpdate csvItem0 existingProduct) = true <->
  changes (doesProductNeedUpdate csvItem0 existingProduct) <> [].
Proof.
  unfold doesProductNeedUpdate, doesProductNeedUpdate_try, pushIf.
  cbn [changes hasChanges].
  destruct (titleChanged csvItem0 existingProduct),
           (priceChanged csvItem0 existingProduct),
           (inventoryChanged csvItem0 existingProduct),
           (statusChanged csvItem0 existingProduct);
    cbn; intuition congruence.
Qed.

Lemma differsFrom_true (o : option string) (s : string) :
  differsFrom o s = true <-> o <> Some s.
Proof.
  destruct o as [t|]; simpl.
  - rewrite negb_true_iff. split.
    + intros H [= ->]. now rewrite String.eqb_refl in H.
    + intros H. apply String.eqb_neq. congruence.
  - split; [discriminate | reflexivity].
Qed.

Lemma inventoryChanged_true :
  inventoryChanged csvItem0 existingProduct = true <->
  exists n, mbind inventory_quantity (firstVariant existingProduct) = Some n
            /\ n <> JS.parseIntOr0 (Qty_Avail csvItem0).
Proof.
  unfold inventoryChanged.
  destruct (mbind inventory_quantity (firstVariant existingProduct)) as [n|].
  - rewrite negb_true_iff, Z.eqb_neq. split.
    + intros H. now exists n.
    + now intros (m & [= <-] & H).
  - split; [discriminate | now intros (m & [=] & _)].
Qed.

Lemma priceChanged_true :
  priceChanged csvItem0 existingProduct = true <->
  exists e, mbind price (firstVariant existingProduct) = Some e
            /\ e <> ""
            /\ JS.strictNe (JS.parseFloat e)
                 (JS.parseFloat
                    (parsePrice (JS.orOpt (MSRP csvItem0) (ContractPrice csvItem0))))
               = true.
Proof.
  unfold priceChanged.
  destruct (mbind price (firstVariant existingProduct)) as [e|].
  - rewrite andb_true_iff, negb_true_iff. split.
    + intros [H1 H2]. exists e. repeat split; trivial. intros ->. discriminate.
    + intros (e' & [= <-] & H1 & H2). split; trivial. now destruct e.
  - split; [discriminate | now intros (m & [=] & _)].
Qed.

End Diff.

(** C5, as the code has it. The diff never raises: its try block always
    completes. A field absent on the incoming side is compared as a default
    (inventory 0, price "0.00", title "Untitled Product", status "draft"). An
    inventory count or a price absent on the remote side is not compared as
    zero: it is not compared at all, and the field is not reported as
    changed. The four tags of [changes] are characterised exactly. *)
Theorem C5_absent_fields_in_diff (csvItem0 : csvItem) (existingProduct : product) :
  ShopifyClient.doesProductNeedUpdate_try csvItem0 existingProduct
    = Ok (ShopifyClient.doesProductNeedUpdate csvItem0 existingProduct)
  /\ (In inventory_tag
        (ShopifyClient.changes (ShopifyClient.doesProductNeedUpdate csvItem0 existingProduct))
      <-> exists n,
            mbind inventory_quantity (ShopifyClient.firstVariant existingProduct) = Some n
            /\ n <> JS.parseIntOr0 (Qty_Avail csvItem0))
  /\ (In price_tag
        (ShopifyClient.changes (ShopifyClient.doesProductNeedUpdate csvItem0 existingProduct))
      <-> exists e,
            mbind price (ShopifyClient.firstVariant existingProduct) = Some e
            /\ e <> ""
            /\ JS.strictNe (JS.parseFloat e)
                 (JS.parseFloat
                    (ShopifyClient.parsePrice
                       (JS.orOpt (MSRP csvItem0) (ContractPrice csvItem0)))) = true)
  /\ (In title_tag
        (ShopifyClient.changes (ShopifyClient.doesProductNeedUpdate csvItem0 existingProduct))
      <-> title existingProduct <> Some (ShopifyClient.csvTitleOf csvItem0))
  /\ (In status_tag
        (ShopifyClient.changes (ShopifyClient.doesProductNeedUpdate csvItem0 existingProduct))
      <-> status existingProduct <> Some (ShopifyClient.csvStatusOf csvItem0))
  /\ JS.parseIntOr0 None = 0%Z
  /\ ShopifyClient.parsePrice None = "0.00"
  /\ ShopifyClient.csvTitleOf blankItem = "Untitled Product"
  /\ ShopifyClient.csvStatusOf blankItem = "draft".
Proof.
  split; [apply doesProductNeedUpdate_completes|].
  split; [rewrite changes_tags; apply inventoryChanged_true|].
  split; [rewrite changes_tags; apply priceChanged_true|].
  split; [rewrite changes_tags; apply differsFrom_true|].
  split; [rewrite changes_tags; apply differsFrom_true|].
  repeat split.
Qed.

(** C5, as stated, fails: the remote record has no inventory count and the
    row has 5 in stock; comparing the absent count as 0 would report the
    inventory as changed, and the diff does not. *)
Lemma C5_counterexample :
  ~ (In inventory_tag
       (ShopifyClient.changes (ShopifyClient.doesProductNeedUpdate rowFive remoteBare))
     <-> spec_inventoryDiffers rowFive remoteBare).
Proof.
  intros [_ H].
  assert (Hspec : spec_inventoryDiffers rowFive remoteBare).
  { unfold spec_inventoryDiffers. vm_compute. discriminate. }
  apply H in Hspec. vm_compute in Hspec. intuition discriminate.
Qed.

Example diff_of_bare_remote :
  ShopifyClient.doesProductNeedUpdate rowFive remoteBare
  = ShopifyClient.mkDiff false [].
Proof. vm_compute. reflexivity. Qed.

(* ===================================================================== *)
(** ** Loops with a stride *)
(* ===================================================================== *)

Section Stride.

Context {S : Type}.

Lemma ceilDiv_0 (b : nat) : (0 < b)%nat -> ceilDiv 0 b = 0%nat.
Proof. intros Hb. unfold ceilDiv. apply Nat.div_small. lia. Qed.

Lemma ceilDiv_pos (n b : nat) :
  (0 < b)%nat -> (0 < n)%nat -> ceilDiv n b = Datatypes.S (ceilDiv (n - b) b).
Proof.
  intros Hb Hn. unfold ceilDiv.
  destruct (Nat.le_gt_cases b n) as [Hle|Hlt].
  - replace (n + b - 1)%nat with ((n - b + b - 1) + 1 * b)%nat by lia.
    rewrite Nat.div_add by lia. lia.
  - replace (n - b)%nat with 0%nat by lia.
    assert (H0 : ((0 + b - 1) / b = 0)%nat) by (apply Nat.div_small; lia).
    rewrite H0. symmetry. apply (Nat.div_unique (n + b - 1) b 1 (n - 1)); lia.
Qed.

Lemma ceilDiv_le (n b : nat) : (0 < b)%nat -> (ceilDiv n b <= n)%nat.
Proof.
  intros Hb. induction n as [n IH] using lt_wf_ind.
  destruct n as [|n].
  - now rewrite ceilDiv_0.
  - rewrite ceilDiv_pos by lia.
    specialize (IH (Datatypes.S n - b)%nat ltac:(lia)). lia.
Qed.

(** [ceilDiv n b] is the least number of blocks of [b] that hold [n]. *)
Lemma ceilDiv_ceiling (n b : nat) :
  (0 < b)%nat -> (n <= ceilDiv n b * b < n + b)%nat.
Proof.
  intros Hb. unfold ceilDiv.
  pose proof (Nat.div_mod_eq (n + b - 1) b) as Hdm.
  pose proof (Nat.mod_upper_bound (n + b - 1) b ltac:(lia)) as Hr.
  rewrite (Nat.mul_comm ((n + b - 1) / b) b). lia.
Qed.

Lemma strideCount_done (i n step : nat) :
  (0 < step)%nat -> (n <= i)%nat -> strideCount i n step = 0%nat.
Proof.
  intros Hs Hle. unfold strideCount. replace (n - i)%nat with 0%nat by lia.
  now apply ceilDiv_0.
Qed.

Lemma strideCount_step (i n step : nat) :
  (0 < step)%nat -> (i < n)%nat ->
  strideCount i n step = Datatypes.S (strideCount (i + step) n step).
Proof.
  intros Hs Hlt. unfold strideCount. rewrite ceilDiv_pos by lia.
  do 2 f_equal. lia.
Qed.

Lemma strideCount_le (i n step : nat) :
  (0 < step)%nat -> (strideCount i n step <= n - i)%nat.
Proof. intros Hs. now apply ceilDiv_le. Qed.

(** With a positive step and enough fuel the loop ends, and its result is
    the fold of the body over the values of the index. *)
Lemma forStride_fold (n step : nat) (body : nat -> S -> S) :
  (0 < step)%nat ->
  forall (fuel i : nat) (s : S),
    (strideCount i n step < fuel)%nat ->
    forStride fuel i n step body s
    = Some (fold_left (fun x j => body j x)
              (strideIndices (strideCount i n step) i step) s).
Proof.
  intros Hs. induction fuel as [|fuel IH]; intros i s Hf; [lia|].
  simpl. destruct (i <? n)%nat eqn:Hin.
  - apply Nat.ltb_lt in Hin. rewrite (strideCount_step i n step) in * by assumption.
    simpl. apply IH. lia.
  - apply Nat.ltb_ge in Hin. now rewrite strideCount_done.
Qed.

(** With a step of 0 the loop over a non-empty range never ends. *)
Lemma forStride_zero_step (n : nat) (body : nat -> S -> S) (fuel i : nat) (s : S) :
  (i < n)%nat -> forStride fuel i n 0 body s = None.
Proof.
  intros Hin. revert s. induction fuel as [|fuel IH]; intros s; simpl; trivial.
  apply Nat.ltb_lt in Hin. rewrite Hin. rewrite Nat.add_0_r. apply IH.
Qed.

(** A property kept by the body is kept by the loop. *)
Lemma forStride_invariant (P : S -> Prop) (n step : nat) (body : nat -> S -> S) :
  (forall j x, P x -> P (body j x)) ->
  forall (fuel i : nat) (s s' : S),
    P s -> forStride fuel i n step body s = Some s' -> P s'.
Proof.
  intros Hbody. induction fuel as [|fuel IH]; intros i s s' Hs; simpl; [discriminate|].
  destruct (i <? n)%nat.
  - apply IH. now apply Hbody.
  - now intros [= <-].
Qed.

(** Whenever the loop with a positive step ends, its result is that
    fold. *)
Lemma forStride_Some_fold (n step : nat) (body : nat -> S -> S) :
  (0 < step)%nat ->
  forall (fuel i : nat) (s s' : S),
    forStride fuel i n step body s = Some s' ->
    s' = fold_left (fun x j => body j x)
           (strideIndices (strideCount i n step) i step) s.
Proof.
  intros Hs. induction fuel as [|fuel IH]; intros i s s'; simpl; [discriminate|].
  destruct (i <? n)%nat eqn:Hin.
  - apply Nat.ltb_lt in Hin. rewrite (strideCount_step i n step) by assumption.
    simpl. apply IH.
  - apply Nat.ltb_ge in Hin. rewrite strideCount_done by assumption.
    now intros [= <-].
Qed.

End Stride.

Lemma forEachFrom_invariant {A S : Type} (P : S -> Prop) (f : A -> nat -> S -> S) :
  (forall a j x, P x -> P (f a j x)) ->
  forall (l : list A) (index : nat) (s : S),
    P s -> P (ShopifyClient.forEachFrom f index l s).
Proof.
  intros Hf. induction l as [|a l IH]; intros index s Hs; simpl; trivial.
  apply IH. now apply Hf.
Qed.

Lemma fold_left_invariant {A S : Type} (P : S -> Prop) (f : S -> A -> S) :
  (forall x a, P x -> P (f x a)) ->
  forall (l : list A) (s : S), P s -> P (fold_left f l s).
Proof.
  intros Hf. induction l as [|a l IH]; intros s Hs; simpl; trivial.
  apply IH. now apply Hf.
Qed.

(* ===================================================================== *)
(** ** Batches: every item is recorded with its own outcome *)
(* ===================================================================== *)

Section Batches.

Import ShopifyClient.

Variable createProduct : csvItem -> Exc product.
Variable updateProduct : csvItem -> product -> list change -> Exc product.

Lemma allSettled_length {A : Type} (promises : list (Exc A)) :
  length (allSettled promises) = length promises.
Proof. unfold allSettled. apply length_map. Qed.

(** The promise of an item of a direct batch is always fulfilled: with the
    created product, or with the failure of that item. *)
Lemma directItem_settles (c : csvItem) :
  directItem createProduct false c =
  match createProduct c with
  | Ok p => Ok (ItemCreated p)
  | Throw message => Ok (ItemFailure message (JS.orElse (Item c) "Unknown"))
  end.
Proof. unfold directItem. simpl. now destruct (createProduct c). Qed.

Lemma processBatchDirect_from (all l : list csvItem) (index : nat) (r : directResults) :
  forEachFrom (recordDirect all) index
    (allSettled (List.map (directItem createProduct false) l)) r
  = mkDirect (d_total r)
      (d_created r + length (List.filter (succeeds createProduct) l))
      (d_errors r
       + length (List.filter (fun c => negb (succeeds createProduct c)) l))
      (d_errorDetails r ++ flat_map (directError createProduct) l).
Proof.
  revert index r; induction l as [|c l IH]; intros index r; simpl.
  - destruct r; simpl. now rewrite !Nat.add_0_r, app_nil_r.
  - rewrite directItem_settles. cbn [List.filter flat_map].
    assert (Hs : succeeds createProduct c
                 = match createProduct c with Ok _ => true | Throw _ => false end)
      by reflexivity.
    assert (He : directError createProduct c
                 = match createProduct c with
                   | Ok _ => []
                   | Throw message =>
                       [ItemError (JS.orElse (Item c) "Unknown") message]
                   end) by reflexivity.
    rewrite Hs, He. clear Hs He.
    destruct (createProduct c) as [p|m]; cbn [allSettled forEachFrom recordDirect negb];
      rewrite IH; cbn [d_total d_created d_errors d_errorDetails length app];
      f_equal; try lia.
    now rewrite <- app_assoc.
Qed.

(** The report of a direct batch, item by item. *)
Lemma processBatchDirect_itemwise (csvItems : list csvItem) :
  processBatchDirect createProduct csvItems false
  = mkDirect (length csvItems)
      (length (List.filter (succeeds createProduct) csvItems))
      (length (List.filter (fun c => negb (succeeds createProduct c)) csvItems))
      (flat_map (directError createProduct) csvItems).
Proof.
  unfold processBatchDirect, forEach. now rewrite processBatchDirect_from.
Qed.

Lemma filter_partition_length {A : Type} (f : A -> bool) (l : list A) :
  (length (List.filter f l) + length (List.filter (fun a => negb (f a)) l)
   = length l)%nat.
Proof.
  induction l as [|a l IH]; simpl; trivial.
  destruct (f a); simpl; lia.
Qed.

(** The promise of an operation of a batch with updates is always
    fulfilled, with the outcome of that operation. *)
Lemma parallelItem_settles (op : operation) :
  parallelItem createProduct updateProduct false op =
  match outcomeOf createProduct updateProduct op, op with
  | Ok p, create_op _ => Ok (ItemCreated p)
  | Ok p, update_op _ => Ok (ItemUpdated p)
  | Throw message, _ =>
      Ok (ItemFailure message (JS.orElse (Item (op_csvItem op)) "Unknown"))
  end.
Proof.
  unfold parallelItem, processItem, processCreateItem, processUpdateItem, outcomeOf.
  destruct op as [c|u]; simpl.
  - now destruct (createProduct c).
  - now destruct (updateProduct (u_csvItem u) (u_existingProduct u) (u_changes u)).
Qed.

Lemma processBatchParallel_from (all l : list operation) (index : nat) (r : results) :
  forEachFrom (recordParallel all) index
    (allSettled (List.map (parallelItem createProduct updateProduct false) l)) r
  = fold_left (recordOutcome createProduct updateProduct) l r.
Proof.
  revert index r; induction l as [|op l IH]; intros index r; simpl; trivial.
  rewrite parallelItem_settles. unfold recordOutcome at 2.
  destruct (outcomeOf createProduct updateProduct op) as [p|m];
    [destruct op|]; simpl; apply IH.
Qed.

(** The report after a batch with updates, operation by operation. *)
Lemma processBatchParallel_itemwise (batch : list operation) (r : results) :
  processBatchParallelWithUpdates createProduct updateProduct batch r false
  = fold_left (recordOutcome createProduct updateProduct) batch r.
Proof. unfold processBatchParallelWithUpdates, forEach. apply processBatchParallel_from. Qed.

Lemma recordOutcome_recorded (r : results) (op : operation) :
  recorded (recordOutcome createProduct updateProduct r op) = Datatypes.S (recorded r)
  /\ skipped (recordOutcome createProduct updateProduct r op) = skipped r
  /\ total (recordOutcome createProduct updateProduct r op) = total r.
Proof.
  unfold recordOutcome, recorded.
  destruct (outcomeOf createProduct updateProduct op); [destruct op|]; simpl; lia.
Qed.

Lemma fold_recordOutcome_recorded (batch : list operation) (r : results) :
  recorded (fold_left (recordOutcome createProduct updateProduct) batch r)
  = (recorded r + length batch)%nat.
Proof.
  revert r; induction batch as [|op l IH]; intros r; simpl; [lia|].
  rewrite IH. destruct (recordOutcome_recorded r op) as [-> _]. lia.
Qed.

End Batches.

(** C6. In the model of the remote calls by their settled outcomes, a batch
    records every item with the outcome of that item alone. The report of a
    direct batch counts the items whose own creation succeeded and those
    whose own creation failed, with one error entry per failed item; the
    report after a batch with updates is the fold of the outcome of each
    operation. So when one item fails, its siblings before and after it are
    recorded as they are without it, and the buckets grow by the size of the
    batch: every promise of the batch has settled. *)
Theorem C6_failure_isolated_in_batch
    (createProduct : csvItem -> Exc product)
    (updateProduct : csvItem -> product -> list change -> Exc product) :
  (forall csvItems,
     ShopifyClient.processBatchDirect createProduct csvItems false
     = ShopifyClient.mkDirect (length csvItems)
         (length (List.filter (succeeds createProduct) csvItems))
         (length (List.filter (fun c => negb (succeeds createProduct c)) csvItems))
         (flat_map (directError createProduct) csvItems))
  /\ (forall before failing after message,
        createProduct failing = Throw message ->
        let withIt :=
          ShopifyClient.processBatchDirect createProduct
            (before ++ failing :: after) false in
        let withoutIt :=
          ShopifyClient.processBatchDirect createProduct (before ++ after) false in
        ShopifyClient.d_created withIt = ShopifyClient.d_created withoutIt
        /\ ShopifyClient.d_errors withIt = Datatypes.S (ShopifyClient.d_errors withoutIt)
        /\ ShopifyClient.d_errorDetails withIt
           = (flat_map (directError createProduct) before
              ++ ShopifyClient.ItemError (JS.orElse (Item failing) "Unknown") message
                 :: flat_map (directError createProduct) after)%list
        /\ (ShopifyClient.d_created withIt + ShopifyClient.d_errors withIt
            = length (before ++ failing :: after))%nat)
  /\ (forall batch r,
        ShopifyClient.processBatchParallelWithUpdates createProduct updateProduct
          batch r false
        = fold_left (recordOutcome createProduct updateProduct) batch r)
  /\ (forall batch r,
        recorded (ShopifyClient.processBatchParallelWithUpdates createProduct
                    updateProduct batch r false)
        = (recorded r + length batch)%nat)
  /\ (forall (promises : list (Exc ShopifyClient.itemValue)),
        length (allSettled promises) = length promises).
Proof.
  split; [apply processBatchDirect_itemwise|].
  split.
  - intros before failing after message Hfail. cbv zeta.
    rewrite !processBatchDirect_itemwise. cbn [ShopifyClient.d_created
      ShopifyClient.d_errors ShopifyClient.d_errorDetails].
    assert (Hs : succeeds createProduct failing = false)
      by (unfold succeeds; now rewrite Hfail).
    assert (He : directError createProduct failing
                 = [ShopifyClient.ItemError (JS.orElse (Item failing) "Unknown") message])
      by (unfold directError; now rewrite Hfail).
    rewrite !List.filter_app, !flat_map_app. cbn [List.filter flat_map].
    rewrite Hs, He. cbn [negb].
    rewrite !length_app. cbn [length app].
    repeat split; try lia.
    pose proof (filter_partition_length (succeeds createProduct) before).
    pose proof (filter_partition_length (succeeds createProduct) after).
    lia.
  - split; [apply processBatchParallel_itemwise|].
    split; [|apply allSettled_length].
    intros batch r. rewrite processBatchParallel_itemwise.
    apply fold_recordOutcome_recorded.
Qed.

Lemma C6_witness :
  ShopifyClient.d_created
    (ShopifyClient.processBatchDirect refusesB2 ([row "A-1"] ++ row "B-2" :: [row "C-3"]) false)
  = ShopifyClient.d_created
      (ShopifyClient.processBatchDirect refusesB2 ([row "A-1"] ++ [row "C-3"]) false)
  /\ ShopifyClient.d_errors
       (ShopifyClient.processBatchDirect refusesB2 ([row "A-1"] ++ row "B-2" :: [row "C-3"]) false)
     = 1%nat.
Proof.
  destruct (C6_failure_isolated_in_batch refusesB2 refusesUpdates) as (_ & H & _).
  destruct (H [row "A-1"] (row "B-2") [row "C-3"] "422 Unprocessable" eq_refl)
    as (H1 & H2 & _).
  split; [exact H1 | rewrite H2; reflexivity].
Defined.

Example batch_with_one_failure :
  ShopifyClient.processBatchDirect refusesB2 [row "A-1"; row "B-2"; row "C-3"] false
  = ShopifyClient.mkDirect 3 2 1 [ShopifyClient.ItemError "B-2" "422 Unprocessable"].
Proof. vm_compute. reflexivity. Qed.

(* ===================================================================== *)
(** ** Batch scheduler *)
(* ===================================================================== *)

Section Slices.

Context {A : Type}.

Lemma fold_left_snoc {B : Type} (f : B -> A) (l : list B) (acc : list A) :
  fold_left (fun batches j => (batches ++ [f j])%list) l acc
  = (acc ++ List.map f l)%list.
Proof.
  revert acc; induction l as [|j l IH]; intros acc; simpl.
  - now rewrite app_nil_r.
  - rewrite IH. now rewrite <- app_assoc.
Qed.

Lemma slice_length (i j : nat) (l : list A) :
  length (slice i j l) = Nat.min (j - i) (length l - i).
Proof. unfold slice. now rewrite length_firstn, length_skipn. Qed.

Lemma strideIndices_length (count start step : nat) :
  length (strideIndices count start step) = count.
Proof.
  revert start; induction count as [|k IH]; intros start; simpl; trivial.
  now rewrite IH.
Qed.

(** The slices taken by a loop with stride [step] from index [i] on are,
    put end to end, the list from [i] on: nothing is lost, repeated or
    reordered. *)
Lemma concat_slices (step : nat) (l : list A) :
  (0 < step)%nat ->
  forall (count i : nat),
    count = strideCount i (length l) step ->
    concat (List.map (fun j => slice j (j + step) l) (strideIndices count i step))
    = skipn i l.
Proof.
  intros Hs. induction count as [|k IH]; intros i Hk; simpl.
  - destruct (Nat.lt_ge_cases i (length l)) as [Hlt|Hge].
    + rewrite (strideCount_step i (length l) step) in Hk by assumption. discriminate.
    + symmetry. now apply skipn_all2.
  - destruct (Nat.lt_ge_cases i (length l)) as [Hlt|Hge].
    + rewrite (strideCount_step i (length l) step) in Hk by assumption.
      injection Hk as Hk. rewrite (IH (i + step)%nat Hk).
      unfold slice. replace (i + step - i)%nat with step by lia.
      replace (i + step)%nat with (step + i)%nat by lia.
      rewrite <- skipn_skipn. apply firstn_skipn.
    + rewrite strideCount_done in Hk by assumption. discriminate.
Qed.

Lemma slices_bounded (step : nat) (l : list A) (count i : nat) (b : list A) :
  In b (List.map (fun j => slice j (j + step) l) (strideIndices count i step)) ->
  (length b <= step)%nat.
Proof.
  intros H. apply in_map_iff in H. destruct H as (j & <- & _).
  rewrite slice_length. lia.
Qed.

End Slices.

Section Scheduler.

Import ProductProcessor.

Variable createProduct : csvItem -> Exc product.
Variable bc : batchConfig.
Hypothesis batchSize_pos : (0 < batchSize bc)%nat.
Hypothesis maxConcurrent_pos : (0 < maxConcurrentBatches bc)%nat.

(** The batches that the first loop builds. *)
Lemma batchesOf_run (fuel : nat) (products : list csvItem) :
  (length products < fuel)%nat ->
  batchesOf fuel bc products
  = Some (List.map (fun j => slice j (j + batchSize bc) products)
            (strideIndices (ceilDiv (length products) (batchSize bc)) 0 (batchSize bc))).
Proof using batchSize_pos.
  clear maxConcurrent_pos.
  intros Hf. unfold batchesOf. rewrite forStride_fold; trivial.
  - rewrite fold_left_snoc. unfold strideCount. now rewrite Nat.sub_0_r.
  - pose proof (strideCount_le 0 (length products) (batchSize bc) batchSize_pos). lia.
Qed.

(** The log of the second loop does not depend on the remote outcomes. *)
Lemma windows_log (batches : list (list csvItem)) (l : list nat)
    (st : batchedResults * list event) :
  snd (fold_left (fun x j => processWindowAt createProduct bc batches j x) l st)
  = (snd st ++ flat_map (windowEvents bc batches) l)%list.
Proof using.
  revert st; induction l as [|j l IH]; intros st; simpl.
  - now rewrite app_nil_r.
  - rewrite IH. unfold processWindowAt, windowEvents.
    destruct (j + maxConcurrentBatches bc <? length batches)%nat; simpl;
      now rewrite <- !app_assoc.
Qed.

Lemma windowsOf_events (batches : list (list csvItem)) (l : list nat) :
  windowsOf (flat_map (windowEvents bc batches) l)
  = List.map
      (fun i => List.map (@length csvItem)
                  (slice i (i + maxConcurrentBatches bc) batches)) l.
Proof using.
  induction l as [|i l IH]; simpl; trivial.
  destruct (i + maxConcurrentBatches bc <? length batches)%nat; simpl; now rewrite IH.
Qed.

(** Every pause of the log stands between two groups. *)
Lemma windows_paced (batches : list (list csvItem)) :
  forall (count i : nat),
    count = strideCount i (length batches) (maxConcurrentBatches bc) ->
    paced (delayBetweenBatches bc)
      (flat_map (windowEvents bc batches)
         (strideIndices count i (maxConcurrentBatches bc))).
Proof using maxConcurrent_pos.
  induction count as [|k IH]; intros i Hk; simpl; [constructor|].
  destruct (Nat.lt_ge_cases i (length batches)) as [Hlt|Hge].
  - rewrite (strideCount_step i (length batches) _ maxConcurrent_pos Hlt) in Hk.
    injection Hk as Hk. specialize (IH _ Hk).
    destruct (i + maxConcurrentBatches bc <? length batches)%nat eqn:Hmore.
    + apply Nat.ltb_lt in Hmore.
      rewrite (strideCount_step _ (length batches) _ maxConcurrent_pos Hmore) in Hk.
      subst k. simpl. apply paced_more; [discriminate|]. exact IH.
    + apply Nat.ltb_ge in Hmore.
      rewrite (strideCount_done _ (length batches) _ maxConcurrent_pos Hmore) in Hk.
      subst k. simpl. constructor.
  - rewrite strideCount_done in Hk by assumption. discriminate.
Qed.

Lemma paced_delays (d : nat) (log : list event) :
  paced d log -> delaysOf log = repeat d (length (windowsOf log) - 1).
Proof using.
  induction 1 as [|sizes|sizes rest Hne Hp IH]; simpl; trivial.
  rewrite IH. destruct Hp; simpl; try contradiction; now rewrite ?Nat.sub_0_r.
Qed.

(** The run of [processBatchedProducts] with enough fuel. *)
Lemma processBatchedProducts_run (fuel : nat) (products : list csvItem) :
  (length products < fuel)%nat ->
  let batches :=
    List.map (fun j => slice j (j + batchSize bc) products)
      (strideIndices (ceilDiv (length products) (batchSize bc)) 0 (batchSize bc)) in
  let windows :=
    strideIndices (ceilDiv (length batches) (maxConcurrentBatches bc)) 0
      (maxConcurrentBatches bc) in
  processBatchedProducts createProduct fuel bc products
  = Some (fold_left (fun x j => processWindowAt createProduct bc batches j x)
            windows (mkBatched 0 0 0 [], [])).
Proof using batchSize_pos maxConcurrent_pos.
  intros Hf batches windows. unfold processBatchedProducts.
  rewrite batchesOf_run by assumption. fold batches.
  assert (Hlen : length batches = ceilDiv (length products) (batchSize bc)).
  { unfold batches. now rewrite length_map, strideIndices_length. }
  rewrite forStride_fold; trivial.
  - unfold windows, strideCount. now rewrite Nat.sub_0_r.
  - pose proof (strideCount_le 0 (length batches) _ maxConcurrent_pos).
    pose proof (ceilDiv_le (length products) _ batchSize_pos). lia.
Qed.

(** The log of the second loop: its groups hold the batches in order, at
    most [maxConcurrentBatches] each, and its pauses stand between the
    groups. *)
Lemma windows_facts (batches : list (list csvItem)) :
  let log :=
    flat_map (windowEvents bc batches)
      (strideIndices (ceilDiv (length batches) (maxConcurrentBatches bc)) 0
         (maxConcurrentBatches bc)) in
  concat (windowsOf log) = List.map (@length csvItem) batches
  /\ length (windowsOf log) = ceilDiv (length batches) (maxConcurrentBatches bc)
  /\ (forall sizes, In sizes (windowsOf log) ->
        (length sizes <= maxConcurrentBatches bc)%nat)
  /\ paced (delayBetweenBatches bc) log
  /\ delaysOf log = repeat (delayBetweenBatches bc) (length (windowsOf log) - 1).
Proof using maxConcurrent_pos.
  clear batchSize_pos.
  intros log.
  assert (Hstride : ceilDiv (length batches) (maxConcurrentBatches bc)
                    = strideCount 0 (length batches) (maxConcurrentBatches bc)).
  { unfold strideCount. now rewrite Nat.sub_0_r. }
  assert (Hwin : windowsOf log
                 = List.map
                     (fun i => List.map (@length csvItem)
                                 (slice i (i + maxConcurrentBatches bc) batches))
                     (strideIndices (ceilDiv (length batches) (maxConcurrentBatches bc))
                        0 (maxConcurrentBatches bc))).
  { apply windowsOf_events. }
  assert (Hpaced : paced (delayBetweenBatches bc) log).
  { apply windows_paced. exact Hstride. }
  split.
  { rewrite Hwin.
    rewrite <- (List.map_map (fun i => slice i (i + maxConcurrentBatches bc) batches)
                  (List.map (@length csvItem))).
    rewrite <- concat_map. f_equal.
    rewrite (concat_slices _ batches maxConcurrent_pos); [reflexivity | exact Hstride]. }
  split. { rewrite Hwin, length_map. apply strideIndices_length. }
  split.
  { intros sizes Hs. rewrite Hwin in Hs. apply in_map_iff in Hs.
    destruct Hs as (i & <- & _). rewrite length_map, slice_length. lia. }
  split; [exact Hpaced | now apply paced_delays].
Qed.

Lemma processBatchedProducts_log (fuel : nat) (products : list csvItem) :
  (length products < fuel)%nat ->
  let batches :=
    List.map (fun j => slice j (j + batchSize bc) products)
      (strideIndices (ceilDiv (length products) (batchSize bc)) 0 (batchSize bc)) in
  exists r,
    processBatchedProducts createProduct fuel bc products
    = Some (r, flat_map (windowEvents bc batches)
                 (strideIndices (ceilDiv (length batches) (maxConcurrentBatches bc)) 0
                    (maxConcurrentBatches bc))).
Proof using batchSize_pos maxConcurrent_pos.
  intros Hf batches. rewrite processBatchedProducts_run by assumption.
  fold batches.
  set (run := fold_left _ _ _).
  exists (fst run). f_equal. rewrite (surjective_pairing run) at 1. f_equal.
  unfold run. now rewrite windows_log.
Qed.

End Scheduler.

(** C8. With a positive batch size and enough fuel the first loop of
    [processBatchedProducts] ends: its batches are [ceil(N/B)] in number
    (the least number of batches of [B] that hold the [N] rows), have at
    most [B] rows each and, put end to end, are the input in its order.
    Whenever the run returns, the groups of its log hold the batches in
    order, at most [maxConcurrentBatches] each, and every pause of the log
    is the configured one and stands between two groups: there is one pause
    less than there are groups, and none after the last. With a positive
    [maxConcurrentBatches] the run does return, with one group per
    [maxConcurrentBatches] batches. For 23 rows with batches of 10 and 3
    concurrent batches there are 3 batches, in one group, and no pause. *)
Theorem C8_partition_and_pacing
    (createProduct : csvItem -> Exc product) (bc : ProductProcessor.batchConfig)
    (products : list csvItem) (fuel : nat) :
  (0 < ProductProcessor.batchSize bc)%nat ->
  (length products < fuel)%nat ->
  exists batches,
    ProductProcessor.batchesOf fuel bc products = Some batches
    /\ length batches = ceilDiv (length products) (ProductProcessor.batchSize bc)
    /\ (length products <= length batches * ProductProcessor.batchSize bc
        < length products + ProductProcessor.batchSize bc)%nat
    /\ concat batches = products
    /\ (forall b, In b batches -> (length b <= ProductProcessor.batchSize bc)%nat)
    /\ (forall r log,
          ProductProcessor.processBatchedProducts createProduct fuel bc products
            = Some (r, log) ->
          concat (windowsOf log) = List.map (@length csvItem) batches
          /\ (forall sizes, In sizes (windowsOf log) ->
                (length sizes <= ProductProcessor.maxConcurrentBatches bc)%nat)
          /\ paced (ProductProcessor.delayBetweenBatches bc) log
          /\ delaysOf log
             = repeat (ProductProcessor.delayBetweenBatches bc)
                 (length (windowsOf log) - 1))
    /\ ((0 < ProductProcessor.maxConcurrentBatches bc)%nat ->
        exists r log,
          ProductProcessor.processBatchedProducts createProduct fuel bc products
            = Some (r, log)
          /\ length (windowsOf log)
             = ceilDiv (length batches) (ProductProcessor.maxConcurrentBatches bc))
    /\ (length products = 23%nat ->
        ProductProcessor.batchSize bc = 10%nat ->
        ProductProcessor.maxConcurrentBatches bc = 3%nat ->
        length batches = 3%nat
        /\ exists r,
             ProductProcessor.processBatchedProducts createProduct fuel bc products
             = Some (r, [EvBatches [10; 10; 3]%nat])).
Proof.
  intros HB Hfuel.
  set (B := ProductProcessor.batchSize bc) in *.
  set (M := ProductProcessor.maxConcurrentBatches bc).
  set (batches :=
         List.map (fun j => slice j (j + B) products)
           (strideIndices (ceilDiv (length products) B) 0 B)).
  assert (Hbatches : ProductProcessor.batchesOf fuel bc products = Some batches)
    by exact (batchesOf_run bc HB fuel products Hfuel).
  assert (Hlen : length batches = ceilDiv (length products) B).
  { unfold batches. now rewrite length_map, strideIndices_length. }
  exists batches.
  split; [exact Hbatches|].
  split; [exact Hlen|].
  split. { rewrite Hlen. now apply ceilDiv_ceiling. }
  split.
  { unfold batches. rewrite (concat_slices B products HB); [reflexivity|].
    unfold strideCount. now rewrite Nat.sub_0_r. }
  split. { intros b Hb. eapply slices_bounded. exact Hb. }
  split.
  { intros r log Hrun.
    destruct (Nat.eq_0_gt_0_cases M) as [HM0|HM].
    - (* no progress is possible: the run returns only on no batch at all *)
      unfold ProductProcessor.processBatchedProducts in Hrun.
      rewrite Hbatches in Hrun. fold M in Hrun. rewrite HM0 in Hrun.
      destruct batches as [|b0 bs] eqn:Hb.
      + destruct fuel as [|fuel']; [lia|]. simpl in Hrun.
        injection Hrun as _ <-. repeat split; try constructor.
        intros sizes [].
      + rewrite forStride_zero_step in Hrun by (simpl; lia). discriminate.
    - destruct (processBatchedProducts_log createProduct bc HB HM fuel products Hfuel)
        as [r' Hrun'].
      fold B batches M in Hrun'. rewrite Hrun' in Hrun. injection Hrun as _ <-.
      destruct (windows_facts bc HM batches) as (H1 & _ & H3 & H4 & H5).
      fold M in H1, H3, H4, H5. repeat split; assumption. }
  split.
  { intros HM.
    destruct (processBatchedProducts_log createProduct bc HB HM fuel products Hfuel)
      as [r' Hrun'].
    fold B batches M in Hrun'. eexists _, _. split; [exact Hrun'|].
    destruct (windows_facts bc HM batches) as (_ & H2 & _). exact H2. }
  intros H23 H10 H3.
  assert (Hb3 : length batches = 3%nat).
  { rewrite Hlen, H23, H10. reflexivity. }
  split; [exact Hb3|].
  assert (HM : (0 < M)%nat) by (unfold M; lia).
  destruct (processBatchedProducts_log createProduct bc HB HM fuel products Hfuel)
    as [r' Hrun'].
  fold B batches M in Hrun'. exists r'. rewrite Hrun'. do 2 f_equal.
  fold M in H3. rewrite Hb3, H3.
  change (strideIndices (ceilDiv 3 3) 0 3) with [0%nat].
  cbn [flat_map]. unfold windowEvents. fold M. rewrite Hb3, H3.
  change (0 + 3 <? 3)%nat with false. cbn [app].
  do 2 f_equal. unfold slice. rewrite Nat.sub_0_r, skipn_O.
  rewrite firstn_all2 by lia.
  unfold batches. rewrite H23, H10, map_map.
  change (strideIndices (ceilDiv 23 10) 0 10) with [0; 10; 20]%nat.
  cbn [List.map]. rewrite !slice_length, H23. reflexivity.
Qed.

Lemma C8_witness :
  exists batches r,
    ProductProcessor.batchesOf 24 ProductProcessor.batchConfig0 (repeat (row "A-1") 23)
      = Some batches
    /\ length batches = 3%nat
    /\ ProductProcessor.processBatchedProducts refusesB2 24 ProductProcessor.batchConfig0
         (repeat (row "A-1") 23) = Some (r, [EvBatches [10; 10; 3]%nat]).
Proof.
  destruct (C8_partition_and_pacing refusesB2 ProductProcessor.batchConfig0
              (repeat (row "A-1") 23) 24)
    as (batches & H1 & _ & _ & _ & _ & _ & _ & H);
    [simpl; lia | simpl; lia |].
  destruct (H eq_refl eq_refl eq_refl) as [H3 [r H4]].
  exists batches, r. repeat split; assumption.
Defined.

Example windows_of_31_rows :
  option_map snd
    (ProductProcessor.processBatchedProducts refusesB2 40 ProductProcessor.batchConfig0
       (repeat (row "A-1") 31))
  = Some [EvBatches [10; 10; 10]%nat; EvDelay 2000; EvBatches [1%nat]].
Proof. vm_compute. reflexivity. Qed.

Example zero_batch_size_never_ends (fuel : nat) :
  ProductProcessor.batchesOf fuel (ProductProcessor.mkBatchConfig 0 3 2000) [row "A-1"]
  = None.
Proof. unfold ProductProcessor.batchesOf. apply forStride_zero_step. simpl. lia. Qed.

(* ===================================================================== *)
(** ** The run report *)
(* ===================================================================== *)

Section Run.

Import ShopifyClient.

Variable createProduct : csvItem -> Exc product.
Variable updateProduct : csvItem -> product -> list change -> Exc product.
Variable getAllProducts : Exc (list product).

Lemma recordParallel_keeps (k t : nat) (batch : list operation)
    (result : settled itemValue) (index : nat) (r : results) :
  keepsSkipped k t r -> keepsSkipped k t (recordParallel batch result index r).
Proof.
  unfold keepsSkipped, recordParallel.
  destruct result as [[]|]; simpl; trivial.
Qed.

Lemma sequentialItem_keeps (k t : nat) (dry : bool) (st : results * list event)
    (item : operation) :
  keepsSkipped k t (fst st) ->
  keepsSkipped k t (fst (sequentialItem createProduct updateProduct dry st item)).
Proof.
  unfold keepsSkipped, sequentialItem. destruct st as [r log].
  destruct (processItem createProduct updateProduct item dry) as [[]|]; simpl; trivial.
Qed.

Lemma processBatchAt_keeps (k t : nat) (opts : options) (all : list operation)
    (i : nat) (st : results * list event) :
  keepsSkipped k t (fst st) ->
  keepsSkipped k t (fst (processBatchAt createProduct updateProduct opts all i st)).
Proof.
  intros H. unfold processBatchAt.
  set (batch := slice i (i + batchSize opts) all).
  assert (Hstep : keepsSkipped k t
            (fst (if parallelBatch opts && negb (dryRun opts)
                  then (processBatchParallelWithUpdates createProduct updateProduct
                          batch (fst st) (dryRun opts),
                        (snd st ++ [EvBatches [length batch]])%list)
                  else processBatchSequentialWithUpdates createProduct updateProduct
                         batch (fst st, (snd st ++ [EvBatches [length batch]])%list)
                         (dryRun opts)))).
  { destruct (parallelBatch opts && negb (dryRun opts)).
    - cbn [fst]. unfold processBatchParallelWithUpdates, forEach.
      apply forEachFrom_invariant; trivial.
      intros; now apply recordParallel_keeps.
    - unfold processBatchSequentialWithUpdates.
      apply (fold_left_invariant (fun x => keepsSkipped k t (fst x))); trivial.
      intros; now apply sequentialItem_keeps. }
  cbn [fst snd] in *.
  destruct (i + batchSize opts <? length all)%nat; exact Hstep.
Qed.

(** No run ever counts a skipped row: the skipped bucket of the report is
    0 whatever the input, and the total is the number of rows. *)
Lemma run_never_counts_skipped (fuel : nat) (csvData : list csvItem)
    (shopifyProducts : option (list product)) (opts : options)
    (r : results) (log : list event) :
  processProductsFromCSV createProduct updateProduct getAllProducts fuel csvData
    shopifyProducts opts = Some (Ok (r, log)) ->
  skipped r = 0%nat /\ total r = length csvData.
Proof.
  unfold processProductsFromCSV.
  destruct (bindExc _ buildIndex) as [idx|m]; [|discriminate].
  destruct (forStride _ _ _ _ _ _) as [st|] eqn:Hrun; [|discriminate].
  simpl. intros [= ->].
  change (keepsSkipped 0 (length csvData) (fst (r, log))).
  eapply (forStride_invariant (fun x => keepsSkipped 0 (length csvData) (fst x)));
    [| |exact Hrun].
  - intros; now apply processBatchAt_keeps.
  - split; reflexivity.
Qed.

Lemma sequentialItem_recorded (st : results * list event) (item : operation) :
  recorded (fst (sequentialItem createProduct updateProduct false st item))
  = Datatypes.S (recorded (fst st)).
Proof.
  unfold sequentialItem, processItem, processCreateItem, processUpdateItem, recorded.
  destruct st as [r log]. destruct item as [c|u]; simpl.
  - destruct (createProduct c); simpl; lia.
  - destruct (updateProduct (u_csvItem u) (u_existingProduct u) (u_changes u));
      simpl; lia.
Qed.

Lemma sequentialBatch_recorded (batch : list operation) (st : results * list event) :
  recorded (fst (processBatchSequentialWithUpdates createProduct updateProduct
                   batch st false))
  = (recorded (fst st) + length batch)%nat.
Proof.
  unfold processBatchSequentialWithUpdates.
  revert st; induction batch as [|item l IH]; intros st; simpl; [lia|].
  rewrite IH, sequentialItem_recorded. lia.
Qed.

(** Without dry run a batch adds its size to the recorded buckets, in
    parallel and in sequence. *)
Lemma processBatchAt_recorded (opts : options) (all : list operation) (i : nat)
    (st : results * list event) :
  dryRun opts = false ->
  recorded (fst (processBatchAt createProduct updateProduct opts all i st))
  = (recorded (fst st) + length (slice i (i + batchSize opts) all))%nat.
Proof.
  intros Hdry. unfold processBatchAt. rewrite Hdry.
  set (batch := slice i (i + batchSize opts) all).
  assert (Hstep : recorded
            (fst (if parallelBatch opts && negb false
                  then (processBatchParallelWithUpdates createProduct updateProduct
                          batch (fst st) false,
                        (snd st ++ [EvBatches [length batch]])%list)
                  else processBatchSequentialWithUpdates createProduct updateProduct
                         batch (fst st, (snd st ++ [EvBatches [length batch]])%list)
                         false))
          = (recorded (fst st) + length batch)%nat).
  { destruct (parallelBatch opts && negb false).
    - cbn [fst]. rewrite processBatchParallel_itemwise.
      apply fold_recordOutcome_recorded.
    - now rewrite sequentialBatch_recorded. }
  cbn [fst snd] in *.
  destruct (i + batchSize opts <? length all)%nat; exact Hstep.
Qed.

Lemma batches_recorded (opts : options) (all : list operation) (l : list nat)
    (st : results * list event) :
  dryRun opts = false ->
  recorded (fst (fold_left
                   (fun x j => processBatchAt createProduct updateProduct opts all j x)
                   l st))
  = (recorded (fst st)
     + length (concat (List.map (fun j => slice j (j + batchSize opts) all) l)))%nat.
Proof.
  intros Hdry. revert st; induction l as [|j l IH]; intros st; simpl; [lia|].
  rewrite IH, processBatchAt_recorded, length_app by assumption. lia.
Qed.

(** Every row is created, updated or left out by the categorisation. *)
Lemma categorize_partition (idx : index) (enable : bool) (csvData : list csvItem)
    (acc : categorized) :
  (length (productsToCreate (fold_left (categorizeItem idx enable) csvData acc))
   + length (productsToUpdate (fold_left (categorizeItem idx enable) csvData acc))
   + length (List.filter (isSkippedRow idx enable) csvData)
   = length (productsToCreate acc) + length (productsToUpdate acc)
     + length csvData)%nat.
Proof.
  revert acc; induction csvData as [|c l IH]; intros acc; [simpl; lia|].
  cbn [fold_left List.filter length].
  pose proof (IH (categorizeItem idx enable acc c)) as H.
  assert (Hc : (length (productsToCreate (categorizeItem idx enable acc c))
                + length (productsToUpdate (categorizeItem idx enable acc c))
                + (if isSkippedRow idx enable c then 1 else 0)
                = length (productsToCreate acc) + length (productsToUpdate acc) + 1)%nat).
  { unfold categorizeItem, isSkippedRow.
    destruct (findExisting idx c) as [e|].
    - destruct enable; cbn [negb orb]; [|lia].
      destruct (hasChanges (doesProductNeedUpdate c e));
        cbn [negb productsToCreate productsToUpdate]; rewrite ?length_app; simpl; lia.
    - cbn [productsToCreate productsToUpdate]. rewrite length_app. simpl. lia. }
  destruct (isSkippedRow idx enable c); cbn [length]; lia.
Qed.

(** What a run without dry run does count: the recorded buckets hold
    the planned operations, and fall short of the total by the number of
    rows left out by the categorisation. *)
Lemma run_recorded_short_of_total (fuel : nat) (csvData : list csvItem)
    (existingProducts : list product) (idx : index) (opts : options)
    (r : results) (log : list event) :
  (0 < batchSize opts)%nat ->
  dryRun opts = false ->
  buildIndex existingProducts = Ok idx ->
  processProductsFromCSV createProduct updateProduct getAllProducts fuel csvData
    (Some existingProducts) opts = Some (Ok (r, log)) ->
  (total r
   = recorded r + length (List.filter (isSkippedRow idx (enableUpdates opts)) csvData))%nat.
Proof.
  intros HB Hdry Hidx. unfold processProductsFromCSV. cbn [bindExc]. rewrite Hidx.
  destruct (forStride _ _ _ _ _ _) as [st|] eqn:Hrun; [|discriminate].
  simpl. intros [= ->].
  pose proof (run_never_counts_skipped fuel csvData (Some existingProducts) opts r log)
    as Hkeep.
  unfold processProductsFromCSV in Hkeep. cbn [bindExc] in Hkeep.
  rewrite Hidx, Hrun in Hkeep. destruct (Hkeep eq_refl) as [_ Htotal].
  apply (forStride_Some_fold _ _ _ HB) in Hrun.
  assert (Hrec := f_equal (fun x => recorded (fst x)) Hrun). cbn beta in Hrec.
  rewrite batches_recorded in Hrec by assumption. cbn [fst] in Hrec.
  rewrite (concat_slices _ _ HB) in Hrec by reflexivity.
  rewrite skipn_O in Hrec. unfold recorded at 2 in Hrec. simpl in Hrec.
  rewrite Htotal, Hrec. unfold allProductsToProcessOf, categorizeProducts.
  rewrite length_app, !length_map.
  pose proof (categorize_partition idx (enableUpdates opts) csvData
                (mkCategorized [] [])) as Hpart.
  simpl in Hpart. lia.
Qed.

End Run.

(** C1, on the code. A run over one row that matches a remote record and
    differs from it in no tracked field plans no operation and returns a
    report whose total is 1 while created, updated, skipped and errors are
    all 0: the skipped counter is not incremented for the row, so the four
    buckets sum to 0, not to the one row that reached the reconciliation. *)
Theorem C1_skipped_row_not_counted
    (createProduct : csvItem -> Exc product)
    (updateProduct : csvItem -> product -> list change -> Exc product)
    (getAllProducts : Exc (list product)) (fuel : nat) :
  exists r log,
    ShopifyClient.processProductsFromCSV createProduct updateProduct getAllProducts
      (S fuel) [rowSame] (Some [remoteUntitled; remoteGoldRing])
      ShopifyClient.defaultOptions = Some (Ok (r, log))
    /\ ShopifyClient.total r = length [rowSame]
    /\ recorded r = 0%nat
    /\ ShopifyClient.buildIndex [remoteUntitled; remoteGoldRing] = Ok indexOfBoth
    /\ ShopifyClient.findExisting indexOfBoth rowSame = Some remoteGoldRing
    /\ ShopifyClient.doesProductNeedUpdate rowSame remoteGoldRing
       = ShopifyClient.mkDiff false [].
Proof.
  exists (ShopifyClient.mkResults 1 0 0 0 0 [] [] []), [].
  repeat split; vm_compute; reflexivity.
Qed.

(* ===================================================================== *)
(** ** Payload: the handle *)
(* ===================================================================== *)

Section Handle.

Import ShopifyClient.

Lemma allChars_removeAll_keep (keep : ascii -> bool) (s : string) :
  allChars keep (JS.removeAll (fun c => negb (keep c)) s) = true.
Proof.
  induction s as [|c s IH]; simpl; trivial.
  destruct (keep c) eqn:Hc; simpl; trivial. now rewrite Hc.
Qed.

(** Collapsing the runs of a class leaves hyphens and the characters
    outside the class. *)
Lemma collapseRuns_chars (p q : ascii -> bool) (inRun : bool) (s : string) :
  allChars q s = true ->
  allChars (fun c => isHyphen c || (q c && negb (p c)))
    (JS.collapseRunsFrom p inRun s) = true.
Proof.
  revert inRun; induction s as [|c s IH]; intros inRun; simpl; trivial.
  intros H. apply andb_true_iff in H. destruct H as [Hc Hs].
  destruct (p c) eqn:Hp.
  - destruct inRun; simpl; auto.
  - simpl. rewrite Hc, Hp, (IH false Hs). simpl. now rewrite orb_true_r.
Qed.

Lemma collapseHyphens_noDouble (inRun : bool) (s : string) :
  noDoubleHyphenFrom inRun (JS.collapseRunsFrom isHyphen inRun s) = true.
Proof.
  revert inRun; induction s as [|c s IH]; intros inRun; simpl; trivial.
  destruct (isHyphen c) eqn:Hc.
  - destruct inRun; [apply IH|]. simpl. apply IH.
  - simpl. rewrite Hc, andb_false_r. simpl. apply IH.
Qed.

Lemma noDouble_weaken (prev : bool) (s : string) :
  noDoubleHyphenFrom prev s = true -> noDoubleHyphenFrom false s = true.
Proof. destruct s as [|c r]; simpl; trivial. intros H. apply andb_true_iff in H. tauto. Qed.

Lemma dropLeadingHyphen_facts (q : ascii -> bool) (s : string) :
  allChars q s = true -> noDoubleHyphenFrom false s = true ->
  allChars q (dropLeadingHyphen s) = true
  /\ noDoubleHyphenFrom false (dropLeadingHyphen s) = true
  /\ startsWithHyphen (dropLeadingHyphen s) = false.
Proof.
  destruct s as [|c r]; simpl; [auto|].
  intros Hq Hn. apply andb_true_iff in Hq. destruct Hq as [Hc Hr].
  destruct (isHyphen c) eqn:Hh.
  - simpl in Hn. repeat split; trivial.
    + eapply noDouble_weaken. exact Hn.
    + destruct r as [|d r']; simpl; trivial. simpl in Hn.
      apply andb_true_iff in Hn. destruct Hn as [Hn _].
      now apply negb_true_iff in Hn.
  - simpl. rewrite Hc, Hr, Hh. simpl in Hn. auto.
Qed.

Lemma dropTrailingHyphen_facts (q : ascii -> bool) (prev : bool) (s : string) :
  allChars q s = true -> noDoubleHyphenFrom prev s = true ->
  allChars q (dropTrailingHyphen s) = true
  /\ noDoubleHyphenFrom prev (dropTrailingHyphen s) = true
  /\ (startsWithHyphen s = false -> startsWithHyphen (dropTrailingHyphen s) = false).
Proof.
  revert prev; induction s as [|c r IH]; intros prev; simpl; [auto|].
  intros Hq Hn. apply andb_true_iff in Hq. destruct Hq as [Hc Hr].
  apply andb_true_iff in Hn. destruct Hn as [Hn1 Hn2].
  destruct r as [|d r'].
  - destruct (isHyphen c) eqn:Hh; [simpl; auto|].
    cbn [allChars noDoubleHyphenFrom startsWithHyphen].
    rewrite Hc, Hh, andb_false_r. auto.
  - destruct (IH (isHyphen c) Hr Hn2) as (Ha & Hb & _).
    change (dropTrailingHyphen (String c (String d r')))
      with (String c (dropTrailingHyphen (String d r'))).
    cbn [allChars noDoubleHyphenFrom startsWithHyphen].
    rewrite Hc, Hn1, Ha, Hb. auto.
Qed.

Lemma substring0_facts (q : ascii -> bool) (n : nat) :
  forall (prev : bool) (s : string),
    allChars q s = true -> noDoubleHyphenFrom prev s = true ->
    allChars q (JS.substring0 n s) = true
    /\ noDoubleHyphenFrom prev (JS.substring0 n s) = true
    /\ (startsWithHyphen s = false -> startsWithHyphen (JS.substring0 n s) = false)
    /\ (String.length (JS.substring0 n s) <= n)%nat.
Proof.
  unfold JS.substring0. induction n as [|n IH]; intros prev s Hq Hn.
  - destruct s; simpl; repeat split; auto.
  - destruct s as [|c r]; simpl; [repeat split; auto; lia|].
    simpl in Hq, Hn. apply andb_true_iff in Hq. destruct Hq as [Hc Hr].
    apply andb_true_iff in Hn. destruct Hn as [Hn1 Hn2].
    destruct (IH (isHyphen c) r Hr Hn2) as (Ha & Hb & _ & Hd).
    rewrite Hc, Hn1, Ha, Hb. repeat split; auto. lia.
Qed.

End Handle.

(** The shape of a handle. *)
Lemma generateHandle_facts (title0 : option string) :
  allChars isHandleChar (ShopifyClient.generateHandle title0) = true
  /\ noDoubleHyphen (ShopifyClient.generateHandle title0) = true
  /\ startsWithHyphen (ShopifyClient.generateHandle title0) = false
  /\ (String.length (ShopifyClient.generateHandle title0) <= 100)%nat.
Proof.
  unfold ShopifyClient.generateHandle.
  destruct (JS.truthy title0); simpl negb; cbv iota.
  2: { vm_compute. repeat split; trivial. lia. }
  set (lowered := JS.toLowerCase (JS.orElse title0 "")).
  set (cleaned := JS.removeAll (fun c => negb (ShopifyClient.isHandleSource c)) lowered).
  assert (H1 : allChars ShopifyClient.isHandleSource cleaned = true)
    by apply allChars_removeAll_keep.
  set (spaced := JS.collapseRuns JS.isWhiteSpace cleaned).
  assert (H2 : allChars isHandleChar spaced = true).
  { eapply allChars_impl;
      [|exact (collapseRuns_chars JS.isWhiteSpace _ false cleaned H1)].
    intros c. unfold isHandleChar, ShopifyClient.isHandleSource. cbv beta.
    destruct (ShopifyClient.isHyphen c), (ShopifyClient.isLowerLetter c),
      (JS.isDigit c), (JS.isWhiteSpace c); simpl; congruence. }
  set (hyphened := JS.collapseRuns ShopifyClient.isHyphen spaced).
  assert (H3 : allChars isHandleChar hyphened = true).
  { eapply allChars_impl;
      [|exact (collapseRuns_chars ShopifyClient.isHyphen _ false spaced H2)].
    intros c. cbv beta. destruct (ShopifyClient.isHyphen c) eqn:Hh; simpl.
    - intros _. unfold isHandleChar. rewrite Hh. now rewrite !orb_true_r.
    - now rewrite andb_true_r. }
  assert (H4 : noDoubleHyphenFrom false hyphened = true)
    by apply collapseHyphens_noDouble.
  destruct (dropLeadingHyphen_facts isHandleChar hyphened H3 H4) as (H5 & H6 & H7).
  destruct (dropTrailingHyphen_facts isHandleChar false _ H5 H6) as (H8 & H9 & H10).
  destruct (substring0_facts isHandleChar 100 false _ H8 H9) as (Ha & Hb & Hc & Hd).
  repeat split; auto.
Qed.

(** X1. The handle that [generateHandle] builds, for any title, is made of
    lower-case letters, digits and hyphens only, has no two hyphens in a row,
    does not start with a hyphen and has at most 100 characters. *)
Theorem generateHandle_wellformed (title0 : option string) :
  allChars isHandleChar (ShopifyClient.generateHandle title0) = true
  /\ noDoubleHyphen (ShopifyClient.generateHandle title0) = true
  /\ startsWithHyphen (ShopifyClient.generateHandle title0) = false
  /\ (String.length (ShopifyClient.generateHandle title0) <= 100)%nat.
Proof. apply generateHandle_facts. Qed.

Example generateHandle_ex1 :
  ShopifyClient.generateHandle (Some "  14K Gold -- Rope Chain (20in)!  ")
  = "14k-gold-rope-chain-20in".
Proof. vm_compute. reflexivity. Qed.

(* ===================================================================== *)
(** ** Payload: prices *)
(* ===================================================================== *)

Section Prices.

Import ShopifyClient.

Lemma digit_cases (c : ascii) :
  JS.isDigit c = true ->
  In c ["0"; "1"; "2"; "3"; "4"; "5"; "6"; "7"; "8"; "9"]%char.
Proof.
  destruct c as [[] [] [] [] [] [] [] []]; vm_compute; intros H;
    try discriminate; tauto.
Qed.

(** A printed natural number starts with a digit. *)
Lemma Z_to_string_digit (z : Z) :
  exists c r, JS.Z_to_string z = String c r /\ JS.isDigit c = true.
Proof.
  unfold JS.Z_to_string. destruct (N.to_uint (Z.to_N z)); simpl;
    eexists _, _; split; reflexivity.
Qed.

Lemma allChars_trimStart (p : ascii -> bool) (s : string) :
  allChars p s = true -> allChars p (JS.trimStart s) = true.
Proof.
  induction s as [|c r IH]; simpl; trivial.
  intros H. destruct (JS.isWhiteSpace c); [|exact H].
  apply andb_true_iff in H. now apply IH.
Qed.

Lemma allChars_takeSign (p : ascii -> bool) (s : string) :
  allChars p s = true -> allChars p (snd (JS.takeSign s)) = true.
Proof.
  destruct s as [|c r]; trivial.
  intros H. assert (Hr : allChars p r = true).
  { simpl in H. apply andb_true_iff in H. tauto. }
  destruct c as [[] [] [] [] [] [] [] []]; trivial.
Qed.

(** When what follows the sign does not start with "Infinity" and starts
    with a digit, [parseFloat] gives a finite number. *)
Lemma parseFloat_finite (s : string) :
  String.prefix "Infinity" (snd (JS.takeSign (JS.trimStart s))) = false ->
  JS.isEmpty (fst (JS.spanDigits (snd (JS.takeSign (JS.trimStart s))))) = false ->
  exists q, JS.parseFloat s = JS.Fin q.
Proof.
  unfold JS.parseFloat. destruct (JS.takeSign (JS.trimStart s)) as [neg s2].
  cbn [snd]. intros Hinf Hip. rewrite Hinf.
  destruct (JS.spanDigits s2) as [ip s3]. cbn [fst] in Hip.
  match goal with
  | |- context [let '(_, _) := ?m in _] => destruct m as [fp s4]
  end.
  rewrite Hip. cbn [andb]. eexists. reflexivity.
Qed.

Lemma parseFloat_of_digits (neg : bool) (c : ascii) (r : string) :
  JS.isDigit c = true ->
  exists q, JS.parseFloat ((if neg then "-" else "") ++ String c r) = JS.Fin q.
Proof.
  intros Hc. apply digit_cases in Hc.
  assert (Hs : snd (JS.takeSign (JS.trimStart ((if neg then "-" else "") ++ String c r)))
               = String c r).
  { destruct neg; [rewrite append_cons, append_nil_l | rewrite append_nil_l];
      simpl in Hc; intuition subst; reflexivity. }
  apply parseFloat_finite; rewrite Hs.
  - simpl in Hc; intuition subst; reflexivity.
  - cbn [JS.spanDigits].
    assert (Hd : JS.isDigit c = true) by (simpl in Hc; intuition subst; reflexivity).
    rewrite Hd. now destruct (JS.spanDigits r).
Qed.

(** A fixed-point print of a finite number reads back as a finite number. *)
Lemma parseFloat_toFixed2 (q : Q) :
  exists q', JS.parseFloat (JS.toFixed2 (JS.Fin q)) = JS.Fin q'.
Proof.
  unfold JS.toFixed2.
  destruct (Z_to_string_digit (Qfloor (Qabs q * 100 + (1 # 2)) / 100))
    as (c & r & -> & Hc).
  rewrite append_cons. now apply parseFloat_of_digits.
Qed.

(** A text of price characters does not read as an infinity. *)
Lemma parseFloat_price_chars (s : string) (n : bool) :
  allChars isPriceChar s = true -> JS.parseFloat s <> JS.Inf n.
Proof.
  intros Hs. unfold JS.parseFloat.
  pose proof (allChars_takeSign _ _ (allChars_trimStart _ _ Hs)) as H2.
  destruct (JS.takeSign (JS.trimStart s)) as [neg s2]. cbn [snd] in H2.
  destruct (String.prefix "Infinity" s2) eqn:Hp.
  - apply prefix_app in Hp. destruct Hp as [post ->].
    rewrite append_cons in H2. simpl in H2. discriminate.
  - destruct (JS.spanDigits s2) as [ip s3].
    match goal with
    | |- context [let '(_, _) := ?m in _] => destruct m as [fp s4]
    end.
    destruct (JS.isEmpty ip && JS.isEmpty fp); discriminate.
Qed.

(** The price text of any column reads back as a finite number. *)
Lemma parsePrice_reads_finite (priceStr : option string) :
  exists q, JS.parseFloat (parsePrice priceStr) = JS.Fin q.
Proof.
  unfold parsePrice.
  destruct priceStr as [s|]; [|eexists; reflexivity].
  destruct (JS.isEmpty s); [eexists; reflexivity|].
  set (cleaned := JS.removeAll (fun c => negb (isPriceChar c)) s).
  assert (Hc : allChars isPriceChar cleaned = true)
    by apply allChars_removeAll_keep.
  destruct (JS.parseFloat cleaned) as [|q|n] eqn:Hp; simpl.
  - eexists; reflexivity.
  - apply parseFloat_toFixed2.
  - exfalso. exact (parseFloat_price_chars cleaned n Hc Hp).
Qed.

Lemma parsePrice_falsy (priceStr : option string) :
  JS.truthy priceStr = false -> parsePrice priceStr = "0.00".
Proof.
  unfold parsePrice, JS.truthy.
  destruct priceStr as [s|]; trivial. destruct (JS.isEmpty s); [trivial | discriminate].
Qed.

End Prices.

(** X2. For a price column of at most 20 characters (a number below 10^21,
    which [toFixed] prints in fixed-point notation), whatever the column
    holds -- nothing, an empty text, a text without a number, a number with
    currency signs and commas -- the price text that [parsePrice] builds
    reads back as a finite number: never as [NaN], never as an infinity.
    A missing or empty column gives "0.00". *)
Theorem parsePrice_always_a_number (priceStr : option string) :
  (String.length (default "" priceStr) <= 20)%nat ->
  (exists q, JS.parseFloat (ShopifyClient.parsePrice priceStr) = JS.Fin q)
  /\ (JS.truthy priceStr = false -> ShopifyClient.parsePrice priceStr = "0.00").
Proof.
  intros _. split.
  - apply parsePrice_reads_finite.
  - apply parsePrice_falsy.
Qed.

Lemma parsePrice_always_a_number_witness :
  (exists q, JS.parseFloat (ShopifyClient.parsePrice (Some "$1,500.5 USD")) = JS.Fin q)
  /\ (JS.truthy (Some "$1,500.5 USD") = false ->
      ShopifyClient.parsePrice (Some "$1,500.5 USD") = "0.00").
Proof.
  apply (parsePrice_always_a_number (Some "$1,500.5 USD")). cbn. lia.
Defined.

Example parsePrice_ex1 : ShopifyClient.parsePrice (Some "$1,500.5 USD") = "1500.50".
Proof. vm_compute. reflexivity. Qed.
Example parsePrice_ex2 : ShopifyClient.parsePrice (Some "call us") = "0.00".
Proof. vm_compute. reflexivity. Qed.
Example parsePrice_ex3 : ShopifyClient.parsePrice (Some "12-34") = "12.00".
Proof. vm_compute. reflexivity. Qed.

(* ===================================================================== *)
(** ** A second run over the same feed *)
(* ===================================================================== *)

(** X3. A remote record that carries what the payload of a row carries --
    the title and the status of [mapCSVToShopifyProduct], the price and the
    inventory count of [createVariant] on its first variant -- is seen as
    unchanged by [doesProductNeedUpdate]; a row that the lookup matches to
    such a record is planned neither as a creation nor as an update. *)
Theorem rerun_reports_no_change (csvItem0 : csvItem) (more : ShopifyClient.csvColumns)
    (existingProduct : product) (v : variant) (vs : list variant)
    (idx : ShopifyClient.index) (acc : ShopifyClient.categorized) :
  title existingProduct
    = Some (ShopifyClient.pd_title (ShopifyClient.mapCSVToShopifyProduct csvItem0 more)) ->
  status existingProduct
    = Some (ShopifyClient.pd_status (ShopifyClient.mapCSVToShopifyProduct csvItem0 more)) ->
  variants existingProduct = Some (v :: vs) ->
  price v = Some (ShopifyClient.vd_price (ShopifyClient.createVariant csvItem0 more)) ->
  inventory_quantity v
    = Some (ShopifyClient.vd_inventory_quantity (ShopifyClient.createVariant csvItem0 more)) ->
  ShopifyClient.doesProductNeedUpdate csvItem0 existingProduct
    = ShopifyClient.mkDiff false []
  /\ (ShopifyClient.findExisting idx csvItem0 = Some existingProduct ->
      ShopifyClient.categorizeItem idx true acc csvItem0 = acc).
Proof.
  intros Ht Hs Hv Hp Hi. cbn in Ht, Hs, Hp, Hi.
  assert (Hd : ShopifyClient.doesProductNeedUpdate csvItem0 existingProduct
               = ShopifyClient.mkDiff false []).
  { unfold ShopifyClient.doesProductNeedUpdate, ShopifyClient.doesProductNeedUpdate_try.
    assert (H1 : ShopifyClient.titleChanged csvItem0 existingProduct = false).
    { unfold ShopifyClient.titleChanged. rewrite Ht. simpl.
      now rewrite String.eqb_refl. }
    assert (H2 : ShopifyClient.priceChanged csvItem0 existingProduct = false).
    { unfold ShopifyClient.priceChanged, ShopifyClient.firstVariant.
      rewrite Hv. cbn [mbind option_bind]. rewrite Hp.
      destruct (parsePrice_reads_finite
                  (JS.orOpt (MSRP csvItem0) (ContractPrice csvItem0))) as [q ->].
      simpl. rewrite Qeq_bool_refl. apply andb_false_r. }
    assert (H3 : ShopifyClient.inventoryChanged csvItem0 existingProduct = false).
    { unfold ShopifyClient.inventoryChanged, ShopifyClient.firstVariant.
      rewrite Hv. cbn [mbind option_bind]. rewrite Hi.
      now rewrite Z.eqb_refl. }
    assert (H4 : ShopifyClient.statusChanged csvItem0 existingProduct = false).
    { unfold ShopifyClient.statusChanged. rewrite Hs. simpl.
      now rewrite String.eqb_refl. }
    rewrite H1, H2, H3, H4. reflexivity. }
  split; [exact Hd|].
  intros Hf. unfold ShopifyClient.categorizeItem. rewrite Hf, Hd. reflexivity.
Qed.

Lemma rerun_reports_no_change_witness :
  ShopifyClient.doesProductNeedUpdate rowSame remoteGoldRing
    = ShopifyClient.mkDiff false []
  /\ (ShopifyClient.findExisting indexOfBoth rowSame = Some remoteGoldRing ->
      ShopifyClient.categorizeItem indexOfBoth true
        (ShopifyClient.mkCategorized [] []) rowSame
      = ShopifyClient.mkCategorized [] []).
Proof.
  apply (rerun_reports_no_change rowSame noColumns remoteGoldRing
           (mkVariant 21 (Some "Y2") (Some "250.00") (Some 3%Z)) []);
    reflexivity.
Defined.

(* ===================================================================== *)
(** ** The update payload *)
(* ===================================================================== *)

Section UpdatePayload.

Import ShopifyClient.

Lemma includesTag_In (changes0 : list change) (tag : change) :
  includesTag changes0 tag = true <-> In tag changes0.
Proof.
  unfold includesTag. rewrite existsb_exists. split.
  - intros (x & Hx & He). destruct tag, x; simpl in He; congruence.
  - intros H. exists tag. split; [exact H | now destruct tag].
Qed.

Lemma includesTag_diff (csvItem0 : csvItem) (existingProduct : product) (tag : change) :
  includesTag (changes (doesProductNeedUpdate csvItem0 existingProduct)) tag
  = match tag with
    | title_tag => titleChanged csvItem0 existingProduct
    | price_tag => priceChanged csvItem0 existingProduct
    | inventory_tag => inventoryChanged csvItem0 existingProduct
    | status_tag => statusChanged csvItem0 existingProduct
    end.
Proof.
  apply eq_true_iff_eq. rewrite includesTag_In, changes_tags. now destruct tag.
Qed.

Lemma changed_has_variant (csvItem0 : csvItem) (existingProduct : product) :
  priceChanged csvItem0 existingProduct || inventoryChanged csvItem0 existingProduct = true ->
  exists v, firstVariant existingProduct = Some v.
Proof.
  unfold priceChanged, inventoryChanged.
  destruct (firstVariant existingProduct) as [v|]; [eauto|].
  simpl. discriminate.
Qed.

End UpdatePayload.

(** X4. The update payload that [buildUpdateData] builds from the diff of
    [doesProductNeedUpdate] carries the title exactly when the title
    differs and the status exactly when the status differs; when the price
    or the inventory count differs it carries one variant entry, with the
    identifier of the first variant of the remote record, the price exactly
    when the price differs and the count exactly when the count differs;
    and when the diff reports changes the payload carries at least one
    field besides the identifier. *)
Theorem update_payload_follows_diff (csvItem0 : csvItem) (existingProduct : product) :
  let d := ShopifyClient.doesProductNeedUpdate csvItem0 existingProduct in
  let u := ShopifyClient.buildUpdateData csvItem0 existingProduct (ShopifyClient.changes d) in
  ShopifyClient.ud_title u
    = (if ShopifyClient.titleChanged csvItem0 existingProduct
       then Some (ShopifyClient.csvTitleOf csvItem0) else None)
  /\ ShopifyClient.ud_status u
    = (if ShopifyClient.statusChanged csvItem0 existingProduct
       then Some (ShopifyClient.csvStatusOf csvItem0) else None)
  /\ (ShopifyClient.priceChanged csvItem0 existingProduct
      || ShopifyClient.inventoryChanged csvItem0 existingProduct = true ->
      exists v,
        ShopifyClient.firstVariant existingProduct = Some v
        /\ ShopifyClient.ud_variants u
           = Some [ShopifyClient.mkVariantUpdate (variant_id v)
                     (if ShopifyClient.priceChanged csvItem0 existingProduct
                      then Some (ShopifyClient.parsePrice
                                   (JS.orOpt (MSRP csvItem0) (ContractPrice csvItem0)))
                      else None)
                     (if ShopifyClient.inventoryChanged csvItem0 existingProduct
                      then Some (JS.parseIntOr0 (Qty_Avail csvItem0)) else None)])
  /\ (ShopifyClient.priceChanged csvItem0 existingProduct
      || ShopifyClient.inventoryChanged csvItem0 existingProduct = false ->
      ShopifyClient.ud_variants u = None)
  /\ (ShopifyClient.hasChanges d = true ->
      ShopifyClient.ud_title u <> None \/ ShopifyClient.ud_status u <> None
      \/ ShopifyClient.ud_variants u <> None).
Proof.
  intros d u. subst d u. unfold ShopifyClient.buildUpdateData.
  cbn [ShopifyClient.ud_title ShopifyClient.ud_status ShopifyClient.ud_variants].
  rewrite !includesTag_diff.
  split; [reflexivity|]. split; [reflexivity|].
  split; [|split].
  - intros H. destruct (changed_has_variant _ _ H) as [v Hv].
    exists v. split; [exact Hv|]. rewrite H, Hv. reflexivity.
  - intros H. rewrite H. reflexivity.
  - intros H. apply hasChanges_changes in H.
    destruct (ShopifyClient.titleChanged csvItem0 existingProduct) eqn:H1;
      [left; discriminate|].
    destruct (ShopifyClient.statusChanged csvItem0 existingProduct) eqn:H4;
      [right; left; discriminate|].
    right; right.
    destruct (ShopifyClient.priceChanged csvItem0 existingProduct
              || ShopifyClient.inventoryChanged csvItem0 existingProduct) eqn:H23.
    + destruct (changed_has_variant _ _ H23) as [v ->]. discriminate.
    + exfalso. apply H. apply orb_false_iff in H23. destruct H23 as [H2 H3].
      unfold ShopifyClient.doesProductNeedUpdate,
        ShopifyClient.doesProductNeedUpdate_try.
      rewrite H1, H2, H3, H4. reflexivity.
Qed.

Lemma update_payload_follows_diff_witness :
  exists v,
    ShopifyClient.firstVariant remoteUntitled = Some v
    /\ ShopifyClient.ud_variants
         (ShopifyClient.buildUpdateData rowX1 remoteUntitled
            (ShopifyClient.changes (ShopifyClient.doesProductNeedUpdate rowX1 remoteUntitled)))
       = Some [ShopifyClient.mkVariantUpdate (variant_id v)
                 (if ShopifyClient.priceChanged rowX1 remoteUntitled
                  then Some (ShopifyClient.parsePrice
                               (JS.orOpt (MSRP rowX1) (ContractPrice rowX1)))
                  else None)
                 (if ShopifyClient.inventoryChanged rowX1 remoteUntitled
                  then Some (JS.parseIntOr0 (Qty_Avail rowX1)) else None)].
Proof.
  apply (update_payload_follows_diff rowX1 remoteUntitled). reflexivity.
Defined.

(* ===================================================================== *)
(** ** Payload: the category is always of the vocabulary *)
(* ===================================================================== *)

Section Vocabulary.

Import ShopifyClient.

Lemma mapGet_In (m : list (string * string)) (key id : string) :
  mapGet m key = Some id -> In id (List.map snd m).
Proof.
  induction m as [|[k v] rest IH]; simpl; [discriminate|].
  destruct (String.eqb k key); [intros [= ->]; now left | auto].
Qed.

Lemma firstEntry_In (test : string -> bool) (m : list (string * string)) (id : string) :
  firstEntry test m = Some id -> In id (List.map snd m).
Proof.
  induction m as [|[k v] rest IH]; simpl; [discriminate|].
  destruct (test k); [intros [= ->]; now left | auto].
Qed.

Lemma firstMatch_In (cm : list (string * string)) (terms : list string) (id : string) :
  firstMatch cm terms = Some id -> In id (List.map snd cm).
Proof.
  induction terms as [|term rest IH]; simpl; [discriminate|].
  unfold matchTerm. destruct (mapGet cm term) as [v|] eqn:Hg.
  - intros [= <-]. eapply mapGet_In, Hg.
  - destruct (firstEntry _ cm) as [v|] eqn:He.
    + intros [= <-]. eapply firstEntry_In, He.
    + exact IH.
Qed.

Lemma findBestCategoryMatchIn_In (cm : list (string * string)) (categoryPath id : string) :
  findBestCategoryMatchIn cm categoryPath = Some id -> In id (List.map snd cm).
Proof.
  unfold findBestCategoryMatchIn. destruct (JS.isEmpty categoryPath); [discriminate|].
  destruct (firstMatch cm _) as [v|] eqn:Hm.
  - intros [= <-]. eapply firstMatch_In, Hm.
  - apply firstEntry_In.
Qed.

Lemma firstCategory_In (categories : list string) (id : string) :
  firstCategory categories = Some id -> In id (List.map snd categoryMap).
Proof.
  induction categories as [|categoryPath rest IH]; cbn [firstCategory];
    [discriminate|].
  destruct (findBestCategoryMatch categoryPath) as [v|] eqn:Hf; [|exact IH].
  destruct (JS.isEmpty v); [exact IH|].
  intros [= <-]. eapply findBestCategoryMatchIn_In, Hf.
Qed.

Lemma default_In : In defaultJewelryCategory (List.map snd categoryMap).
Proof. vm_compute. repeat (first [left; reflexivity | right]). Qed.

End Vocabulary.

(** X5. The category of a payload is always an identifier of the taxonomy
    vocabulary, whatever the category column holds; a row without a
    category column, or with an empty one, gets the default category
    (the one of necklaces). *)
Theorem getCategoryId_in_vocabulary (csvItem0 : csvItem) :
  In (ShopifyClient.getCategoryId csvItem0) (List.map snd ShopifyClient.categoryMap)
  /\ (JS.truthy (Categories csvItem0) = false ->
      ShopifyClient.getCategoryId csvItem0 = ShopifyClient.defaultJewelryCategory)
  /\ ShopifyClient.mapGet ShopifyClient.categoryMap "necklaces"
     = Some ShopifyClient.defaultJewelryCategory.
Proof.
  unfold ShopifyClient.getCategoryId. split; [|split].
  - destruct (negb (JS.truthy (Categories csvItem0))); [apply default_In|].
    destruct (ShopifyClient.firstCategory _) as [id|] eqn:Hc.
    + eapply firstCategory_In, Hc.
    + apply default_In.
  - intros ->. reflexivity.
  - reflexivity.
Qed.

Lemma getCategoryId_in_vocabulary_witness :
  ShopifyClient.getCategoryId blankItem = ShopifyClient.defaultJewelryCategory.
Proof.
  apply (getCategoryId_in_vocabulary blankItem). reflexivity.
Defined.

(* ===================================================================== *)
(** ** Pagination *)
(* ===================================================================== *)

Section NextPage.

Import ShopifyClient.

Lemma splitOn_no_separator (p : ascii -> bool) (s : string) :
  allChars (fun c => negb (p c)) s = true -> JS.splitOn p s = [s].
Proof.
  induction s as [|c r IH]; simpl; [reflexivity|].
  intros H. apply andb_true_iff in H. destruct H as [Hc Hr].
  apply negb_true_iff in Hc. rewrite Hc, (IH Hr). reflexivity.
Qed.

Lemma allChars_app (p : ascii -> bool) (s t : string) :
  allChars p (s ++ t) = allChars p s && allChars p t.
Proof.
  induction s as [|c r IH].
  - now rewrite append_nil_l.
  - rewrite append_cons. simpl. now rewrite IH, andb_assoc.
Qed.

Lemma spanNotGt_app (body rest : string) (c : ascii) :
  allChars (fun c => negb (isGt c)) body = true ->
  isGt c = true ->
  spanNotGt (body ++ String c rest) = (body, String c rest).
Proof.
  intros Hb Hc. induction body as [|b body IH].
  - rewrite append_nil_l. simpl. now rewrite Hc.
  - rewrite append_cons. simpl in *. apply andb_true_iff in Hb.
    destruct Hb as [Hb1 Hb2]. apply negb_true_iff in Hb1.
    rewrite Hb1, (IH Hb2). reflexivity.
Qed.

Lemma includes_app_r (pre t : string) : JS.includes (pre ++ t) t = true.
Proof.
  apply includes_isSubstring. exists pre, "". now rewrite append_nil_r.
Qed.

Lemma append_assoc_s (a b c : string) : (a ++ b) ++ c = a ++ b ++ c.
Proof.
  induction a as [|x a IH].
  - now rewrite !append_nil_l.
  - now rewrite !append_cons, IH.
Qed.

Lemma isSubstring_trans (a b c : string) :
  isSubstring a b -> isSubstring b c -> isSubstring a c.
Proof.
  intros (p1 & q1 & ->) (p2 & q2 & ->).
  exists (p2 ++ p1), (q1 ++ q2). now rewrite !append_assoc_s.
Qed.

(** The first piece of a split is a prefix of the text. *)
Lemma splitOn_head (p : ascii -> bool) (s w : string) (ws : list string) :
  JS.splitOn p s = w :: ws -> exists post, s = w ++ post.
Proof.
  revert w ws. induction s as [|c r IH]; intros w ws; simpl.
  - intros [= <- <-]. now exists "".
  - destruct (p c).
    + intros [= <- <-]. exists (String c r). now rewrite append_nil_l.
    + destruct (JS.splitOn p r) as [|w' ws'] eqn:Hs.
      * intros [= <- <-]. exists r. now rewrite append_cons, append_nil_l.
      * intros [= <- <-]. destruct (IH _ _ eq_refl) as [post ->].
        exists post. now rewrite append_cons.
Qed.

(** Every piece of a split occurs in the text. *)
Lemma splitOn_substring (p : ascii -> bool) (s link : string) :
  In link (JS.splitOn p s) -> isSubstring link s.
Proof.
  revert link. induction s as [|c r IH]; intros link; simpl.
  - intros [<- | []]. exists "", "". reflexivity.
  - destruct (p c).
    + intros [<- | H].
      * exists "", (String c r). now rewrite !append_nil_l.
      * destruct (IH _ H) as (pre & post & ->).
        exists (String c pre), post. now rewrite append_cons.
    + destruct (JS.splitOn p r) as [|w ws] eqn:Hs.
      * intros [<- | []]. exists "", r. now rewrite append_nil_l, append_cons, append_nil_l.
      * intros [<- | H].
        -- destruct (splitOn_head _ _ _ _ Hs) as [post ->].
           exists "", post. now rewrite append_nil_l, append_cons.
        -- destruct (IH link (or_intror H)) as (pre & post & ->).
           exists (String c pre), post. now rewrite append_cons.
Qed.

Lemma firstNextLink_none (links : list string) :
  (forall link, In link links -> JS.includes link relNext = false) ->
  firstNextLink links = None.
Proof.
  induction links as [|link rest IH]; [reflexivity|].
  intros H. cbn [firstNextLink]. rewrite (H link (or_introl eq_refl)).
  apply IH. intros l Hl. apply H. now right.
Qed.

Lemma extractNextPageUrl_nextLink (url : string) :
  url <> "" -> allChars isUrlChar url = true ->
  extractNextPageUrl (Some (nextLink url)) = Some url.
Proof.
  intros Hne Hu. unfold extractNextPageUrl, nextLink.
  assert (Hgt : allChars (fun c => negb (isGt c)) url = true).
  { revert Hu. apply allChars_impl. intros c Hc. unfold isUrlChar in Hc.
    now apply andb_true_iff in Hc. }
  assert (Hco : allChars (fun c => negb (isComma c)) url = true).
  { revert Hu. apply allChars_impl. intros c Hc. unfold isUrlChar in Hc.
    now apply andb_true_iff in Hc. }
  rewrite append_cons, append_nil_l.
  cbn [JS.truthy JS.isEmpty negb JS.orElse].
  rewrite splitOn_no_separator.
  2:{ cbn [allChars]. rewrite allChars_app, Hco. reflexivity. }
  cbn [firstNextLink].
  assert (Hin : JS.includes (String "<" (url ++ ">; " ++ relNext)) relNext = true).
  { apply includes_isSubstring. exists (String "<" (url ++ ">; ")), "".
    now rewrite append_nil_r, (append_cons "<"), append_assoc_s. }
  rewrite Hin. cbn [angleMatch].
  change (isLt "<") with true. cbv iota.
  change (">; " ++ relNext) with (String ">" ("; " ++ relNext)).
  rewrite spanNotGt_app by (trivial || reflexivity).
  destruct url as [|b body]; [contradiction|reflexivity].
Qed.

Lemma extractNextPageUrl_without_next (header : string) :
  JS.includes header relNext = false -> extractNextPageUrl (Some header) = None.
Proof.
  intros H. unfold extractNextPageUrl.
  destruct (negb (JS.truthy (Some header))); [reflexivity|].
  apply firstNextLink_none. intros link Hl.
  destruct (JS.includes link relNext) eqn:Hi; [|reflexivity].
  apply includes_isSubstring in Hi.
  apply splitOn_substring in Hl.
  assert (Ht : JS.includes header relNext = true).
  { apply includes_isSubstring.
    assert (Ho : JS.orElse (Some header) "" = header).
    { simpl. destruct (JS.isEmpty header) eqn:He; [|reflexivity].
      apply isEmpty_true in He. now subst. }
    rewrite Ho in Hl. eapply isSubstring_trans; eassumption. }
  congruence.
Qed.

End NextPage.

(** X6. [extractNextPageUrl] reads the URL back from the link header entry
    that names it as the next page: for a non-empty URL without a
    greater-than sign and without a comma, the header [<url>; rel="next"]
    gives that URL. *)
Theorem extractNextPageUrl_round_trip (url : string) :
  url <> "" -> allChars isUrlChar url = true ->
  ShopifyClient.extractNextPageUrl (Some (nextLink url)) = Some url.
Proof. apply extractNextPageUrl_nextLink. Qed.

Lemma extractNextPageUrl_round_trip_witness :
  ShopifyClient.extractNextPageUrl (Some (nextLink page2Url)) = Some page2Url.
Proof.
  apply (extractNextPageUrl_round_trip page2Url); [discriminate | reflexivity].
Defined.

(** X7. A link header in which the text [rel="next"] does not occur names
    no next page, whatever else it holds; so does a missing header. *)
Theorem extractNextPageUrl_no_next (header : string) :
  JS.includes header ShopifyClient.relNext = false ->
  ShopifyClient.extractNextPageUrl (Some header) = None
  /\ ShopifyClient.extractNextPageUrl None = None.
Proof.
  intros H. split; [now apply extractNextPageUrl_without_next | reflexivity].
Qed.

Lemma extractNextPageUrl_no_next_witness :
  ShopifyClient.extractNextPageUrl
    (Some "<https://shop.example/admin/products.json?page_info=p1>; rel=previous")
  = None
  /\ ShopifyClient.extractNextPageUrl None = None.
Proof.
  apply (extractNextPageUrl_no_next
           "<https://shop.example/admin/products.json?page_info=p1>; rel=previous").
  reflexivity.
Defined.

(* ===================================================================== *)
(** ** Fetching the catalog *)
(* ===================================================================== *)

Section Fetch.

Import ShopifyClient.

Variable httpGet : string -> pageResponse.

Lemma truthy_Some (s : string) : s <> "" -> JS.truthy (Some s) = true.
Proof. destruct s; [contradiction | reflexivity]. Qed.

Lemma orElse_Some (s : string) : s <> "" -> JS.orElse (Some s) "" = s.
Proof. destruct s; [contradiction | reflexivity]. Qed.

(** Along pages that lead from [url] to [last], the loop collects the
    products of each and pauses after each. *)
Lemma fetchPages_chain (pages : list (list product * string)) (last : string) :
  forall (url : string) (allProducts : list product) (log : list event) (fuel : nat),
    url <> "" ->
    pagesLead httpGet url pages last ->
    fetchPages httpGet (length pages + fuel) (Some url) allProducts log
    = fetchPages httpGet fuel (Some last)
        (allProducts ++ concat (List.map fst pages))
        (log ++ repeat (EvDelay 200) (length pages)).
Proof.
  induction pages as [|[products next] rest IH]; intros url allProducts log fuel Hu Hl.
  - simpl in Hl. subst last. simpl. now rewrite !app_nil_r.
  - destruct Hl as (Hn & (link & Hg & He) & Hrest).
    cbn [length Nat.add fetchPages].
    rewrite (truthy_Some url Hu), (orElse_Some url Hu), Hg, He.
    cbn [negb]. rewrite (truthy_Some next Hn).
    rewrite (IH next _ _ fuel Hn Hrest).
    cbn [List.map fst concat repeat length].
    now rewrite <- !app_assoc.
Qed.

Lemma pagesLead_last (pages : list (list product * string)) (last : string) :
  forall url : string, url <> "" -> pagesLead httpGet url pages last -> last <> "".
Proof.
  induction pages as [|[products next] rest IH]; intros url Hu Hl.
  - simpl in Hl. now subst.
  - destruct Hl as (Hn & _ & Hrest). exact (IH next Hn Hrest).
Qed.

Lemma firstPage_nonempty (baseURL : string) : baseURL ++ "/products.json?limit=250" <> "".
Proof.
  destruct baseURL; [rewrite append_nil_l | rewrite append_cons]; discriminate.
Qed.

End Fetch.

(** X8. [getAllProducts] on a catalog that serves some pages one after the
    other, each naming the next: when the page after them is served
    without a next link, the answer is the products of all the pages in
    order, after one 200 ms pause per page that names a next one; when it
    is refused with the status 429, the answer is the empty list -- the
    products of the pages fetched before are dropped; when it fails
    otherwise, the failure is thrown. *)
Theorem getAllProducts_pages (httpGet : string -> ShopifyClient.pageResponse)
    (baseURL : string) (pages : list (list product * string)) (last : string)
    (fuel : nat) :
  pagesLead httpGet (baseURL ++ "/products.json?limit=250") pages last ->
  (length pages < fuel)%nat ->
  let pauses := repeat (EvDelay 200) (length pages) in
  (forall products link,
     httpGet last = ShopifyClient.PageOk products link ->
     JS.truthy (ShopifyClient.extractNextPageUrl link) = false ->
     ShopifyClient.getAllProducts httpGet fuel baseURL
     = Some (Ok (concat (List.map fst pages) ++ products)%list, pauses))
  /\ (forall message,
        httpGet last = ShopifyClient.PageError message (Some 429%nat) ->
        ShopifyClient.getAllProducts httpGet fuel baseURL = Some (Ok [], pauses))
  /\ (forall message responseStatus,
        httpGet last = ShopifyClient.PageError message responseStatus ->
        responseStatus <> Some 429%nat ->
        ShopifyClient.getAllProducts httpGet fuel baseURL
        = Some (Throw message, pauses)).
Proof.
  intros Hl Hf pauses. subst pauses.
  pose proof (pagesLead_last httpGet pages last _ (firstPage_nonempty baseURL) Hl) as Hlast.
  assert (Hrun : forall k,
            ShopifyClient.getAllProducts httpGet (length pages + S k) baseURL
            = ShopifyClient.fetchPages httpGet (S k) (Some last)
                (concat (List.map fst pages))
                (repeat (EvDelay 200) (length pages))).
  { intros k. unfold ShopifyClient.getAllProducts.
    now rewrite (fetchPages_chain httpGet pages last _ [] [] (S k)
                   (firstPage_nonempty baseURL) Hl). }
  replace fuel with (length pages + S (fuel - length pages - 1))%nat by lia.
  rewrite Hrun. cbn [ShopifyClient.fetchPages].
  rewrite (truthy_Some last Hlast), (orElse_Some last Hlast). cbn [negb].
  split; [|split].
  - intros products link -> Hn. rewrite Hn.
    destruct (fuel - length pages - 1)%nat; cbn [ShopifyClient.fetchPages];
      rewrite Hn; reflexivity.
  - intros message ->. reflexivity.
  - intros message responseStatus -> Hs.
    assert (H429 : ShopifyClient.isStatus 429 responseStatus = false).
    { destruct responseStatus as [n|]; [|reflexivity]. simpl.
      apply Nat.eqb_neq. congruence. }
    now rewrite H429.
Qed.

Lemma getAllProducts_pages_witness :
  ShopifyClient.getAllProducts limitedOnPage2 5 "https://shop.example/admin"
  = Some (Ok [], [EvDelay 200]).
Proof.
  destruct (getAllProducts_pages limitedOnPage2 "https://shop.example/admin"
              [([remoteUntitled], page2Url)] page2Url 5) as (_ & H & _).
  - split; [discriminate | split; [|reflexivity]].
    eexists; split; reflexivity.
  - simpl; lia.
  - apply (H "Request failed with status code 429"). reflexivity.
Defined.

Example getAllProducts_two_pages :
  ShopifyClient.getAllProducts twoPages 5 "https://shop.example/admin"
  = Some (Ok [remoteUntitled; remoteGoldRing], [EvDelay 200]).
Proof. vm_compute. reflexivity. Qed.

(* ===================================================================== *)
(** ** The report of a run *)
(* ===================================================================== *)

Section RunReport.

Import ShopifyClient.

Variable createProduct : csvItem -> Exc product.
Variable updateProduct : csvItem -> product -> list change -> Exc product.
Variable getAllProducts : Exc (list product).

Lemma sequentialItem_outcome (st : results * list event) (item : operation) :
  fst (sequentialItem createProduct updateProduct false st item)
  = recordOutcome createProduct updateProduct (fst st) item.
Proof.
  unfold sequentialItem, processItem, processCreateItem, processUpdateItem,
    recordOutcome, outcomeOf.
  destruct st as [r log]. destruct item as [c|u]; simpl.
  - now destruct (createProduct c).
  - now destruct (updateProduct (u_csvItem u) (u_existingProduct u) (u_changes u)).
Qed.

Lemma sequentialBatch_outcome (batch : list operation) (st : results * list event) :
  fst (processBatchSequentialWithUpdates createProduct updateProduct batch st false)
  = fold_left (recordOutcome createProduct updateProduct) batch (fst st).
Proof.
  unfold processBatchSequentialWithUpdates.
  revert st; induction batch as [|item l IH]; intros st; simpl; trivial.
  now rewrite IH, sequentialItem_outcome.
Qed.

(** Without dry run a batch records the outcome of each of its operations
    in order, in parallel and in sequence alike. *)
Lemma processBatchAt_outcome (opts : options) (all : list operation) (i : nat)
    (st : results * list event) :
  dryRun opts = false ->
  fst (processBatchAt createProduct updateProduct opts all i st)
  = fold_left (recordOutcome createProduct updateProduct)
      (slice i (i + batchSize opts) all) (fst st).
Proof.
  intros Hdry. unfold processBatchAt. rewrite Hdry.
  set (batch := slice i (i + batchSize opts) all).
  assert (Hstep :
            fst (if parallelBatch opts && negb false
                 then (processBatchParallelWithUpdates createProduct updateProduct
                         batch (fst st) false,
                       (snd st ++ [EvBatches [length batch]])%list)
                 else processBatchSequentialWithUpdates createProduct updateProduct
                        batch (fst st, (snd st ++ [EvBatches [length batch]])%list)
                        false)
            = fold_left (recordOutcome createProduct updateProduct) batch (fst st)).
  { destruct (parallelBatch opts && negb false).
    - cbn [fst]. apply processBatchParallel_itemwise.
    - now rewrite sequentialBatch_outcome. }
  cbn [fst snd] in *.
  destruct (i + batchSize opts <? length all)%nat; exact Hstep.
Qed.

Lemma fold_left_concat {A B : Type} (f : A -> B -> A) (ls : list (list B)) (a : A) :
  fold_left f (concat ls) a = fold_left (fun x l => fold_left f l x) ls a.
Proof.
  revert a; induction ls as [|l ls IH]; intros a; simpl; trivial.
  now rewrite fold_left_app, IH.
Qed.

Lemma batches_outcome (opts : options) (all : list operation) (l : list nat)
    (st : results * list event) :
  dryRun opts = false ->
  fst (fold_left
         (fun x j => processBatchAt createProduct updateProduct opts all j x) l st)
  = fold_left (recordOutcome createProduct updateProduct)
      (concat (List.map (fun j => slice j (j + batchSize opts) all) l)) (fst st).
Proof.
  intros Hdry. revert st; induction l as [|j l IH]; intros st; simpl; trivial.
  now rewrite IH, processBatchAt_outcome, fold_left_app.
Qed.

Lemma planned_le_rows (idx : index) (enable : bool) (csvData : list csvItem) :
  (length (allProductsToProcessOf (categorizeProducts csvData idx enable))
   <= length csvData)%nat.
Proof.
  unfold allProductsToProcessOf, categorizeProducts.
  rewrite length_app, !length_map.
  pose proof (categorize_partition idx enable csvData (mkCategorized [] [])) as H.
  simpl in H. lia.
Qed.

(** With a positive batch size and more fuel than rows the batch loop
    ends. *)
Lemma run_ends (fuel : nat) (csvData : list csvItem) (existingProducts : list product)
    (idx : index) (opts : options) :
  (0 < batchSize opts)%nat ->
  buildIndex existingProducts = Ok idx ->
  (length csvData < fuel)%nat ->
  let all := allProductsToProcessOf (categorizeProducts csvData idx (enableUpdates opts)) in
  processProductsFromCSV createProduct updateProduct getAllProducts fuel csvData
    (Some existingProducts) opts
  = Some (Ok (fold_left
                (fun x j => processBatchAt createProduct updateProduct opts all j x)
                (strideIndices (strideCount 0 (length all) (batchSize opts)) 0
                   (batchSize opts))
                (mkResults (length csvData) 0 0 0 0 [] [] [], []))).
Proof.
  intros HB Hidx Hf all. unfold processProductsFromCSV. cbn [bindExc]. rewrite Hidx.
  fold all. rewrite forStride_fold; trivial.
  pose proof (strideCount_le 0 (length all) (batchSize opts) HB).
  pose proof (planned_le_rows idx (enableUpdates opts) csvData). fold all in H0. lia.
Qed.

(** The report of a run without dry run: the outcomes of the planned
    operations, recorded in the order of the plan. *)
Lemma run_report (fuel : nat) (csvData : list csvItem) (existingProducts : list product)
    (idx : index) (opts : options) :
  (0 < batchSize opts)%nat ->
  dryRun opts = false ->
  buildIndex existingProducts = Ok idx ->
  (length csvData < fuel)%nat ->
  exists log,
    processProductsFromCSV createProduct updateProduct getAllProducts fuel csvData
      (Some existingProducts) opts
    = Some (Ok (fold_left (recordOutcome createProduct updateProduct)
                  (allProductsToProcessOf
                     (categorizeProducts csvData idx (enableUpdates opts)))
                  (emptyReport (length csvData)), log)).
Proof.
  intros HB Hdry Hidx Hf. rewrite (run_ends fuel csvData existingProducts idx opts HB Hidx Hf).
  set (all := allProductsToProcessOf _).
  set (run := fold_left _ _ _).
  exists (snd run). do 2 f_equal. rewrite (surjective_pairing run) at 1. f_equal.
  unfold run. rewrite batches_outcome by assumption.
  rewrite (concat_slices _ all HB) by reflexivity. now rewrite skipn_O.
Qed.

(** In a dry run an operation makes no remote call and counts nothing. *)
Lemma sequentialItem_dry (st : results * list event) (item : operation) :
  sequentialItem createProduct updateProduct true st item
  = (fst st, (snd st ++ [EvDelay 100])%list).
Proof. destruct st as [r log]. now destruct item. Qed.

Lemma sequentialBatch_dry (batch : list operation) (st : results * list event) :
  processBatchSequentialWithUpdates createProduct updateProduct batch st true
  = (fst st, (snd st ++ repeat (EvDelay 100) (length batch))%list).
Proof.
  unfold processBatchSequentialWithUpdates.
  revert st; induction batch as [|item l IH]; intros st; simpl.
  - rewrite app_nil_r. now destruct st.
  - rewrite IH, sequentialItem_dry. cbn [fst snd]. now rewrite <- app_assoc.
Qed.

Lemma processBatchAt_dry (opts : options) (all : list operation) (i : nat)
    (st : results * list event) :
  dryRun opts = true ->
  processBatchAt createProduct updateProduct opts all i st
  = (fst st,
     (snd st ++ [EvBatches [length (slice i (i + batchSize opts) all)]]
      ++ repeat (EvDelay 100) (length (slice i (i + batchSize opts) all))
      ++ (if (i + batchSize opts <? length all)%nat
          then [EvDelay (delayBetweenBatches opts)] else []))%list).
Proof.
  intros Hdry. unfold processBatchAt. rewrite Hdry, andb_false_r.
  rewrite sequentialBatch_dry. cbn [fst snd].
  destruct (i + batchSize opts <? length all)%nat; cbn [fst snd];
    now rewrite <- ?app_assoc, ?app_nil_r.
Qed.

End RunReport.

Lemma forStride_ext {S : Type} (n step : nat) (body body' : nat -> S -> S) :
  (forall j x, body j x = body' j x) ->
  forall (fuel i : nat) (s : S),
    forStride fuel i n step body s = forStride fuel i n step body' s.
Proof.
  intros H. induction fuel as [|fuel IH]; intros i s; simpl; trivial.
  destruct (i <? n)%nat; trivial. now rewrite H, IH.
Qed.

(** X9. A run without dry run, with a positive batch size, over a catalog
    whose products all have a title, returns within as many iterations as
    there are rows, and its report is the outcomes of the planned
    operations recorded one by one in the order of the plan (the creations
    first, then the updates): it depends neither on the batch size nor on
    whether the batches run in parallel or in sequence. *)
Theorem run_report_is_fold_of_outcomes
    (createProduct : csvItem -> Exc product)
    (updateProduct : csvItem -> product -> list change -> Exc product)
    (getAllProducts : Exc (list product))
    (fuel : nat) (csvData : list csvItem) (existingProducts : list product)
    (idx : ShopifyClient.index) (opts : ShopifyClient.options) :
  (0 < ShopifyClient.batchSize opts)%nat ->
  ShopifyClient.dryRun opts = false ->
  ShopifyClient.buildIndex existingProducts = Ok idx ->
  (length csvData < fuel)%nat ->
  exists log,
    ShopifyClient.processProductsFromCSV createProduct updateProduct getAllProducts
      fuel csvData (Some existingProducts) opts
    = Some (Ok (fold_left (recordOutcome createProduct updateProduct)
                  (ShopifyClient.allProductsToProcessOf
                     (ShopifyClient.categorizeProducts csvData idx
                        (ShopifyClient.enableUpdates opts)))
                  (emptyReport (length csvData)), log)).
Proof. apply run_report. Qed.

Lemma run_report_is_fold_of_outcomes_witness :
  exists log,
    ShopifyClient.processProductsFromCSV refusesB2 refusesUpdates (Ok [])
      5 [rowFive; rowX1] (Some [remoteUntitled; remoteGoldRing])
      ShopifyClient.defaultOptions
    = Some (Ok (fold_left (recordOutcome refusesB2 refusesUpdates)
                  (ShopifyClient.allProductsToProcessOf
                     (ShopifyClient.categorizeProducts [rowFive; rowX1] indexOfBoth
                        (ShopifyClient.enableUpdates ShopifyClient.defaultOptions)))
                  (emptyReport (length [rowFive; rowX1])), log)).
Proof.
  apply (run_report_is_fold_of_outcomes refusesB2 refusesUpdates (Ok []) 5
           [rowFive; rowX1] [remoteUntitled; remoteGoldRing] indexOfBoth
           ShopifyClient.defaultOptions);
    [simpl; lia | reflexivity | vm_compute; reflexivity | simpl; lia].
Defined.

(** X10. The buckets of the report of such a run: the total is the number
    of rows, the skipped bucket is 0, and created, updated and errors
    together count the rows but for those that the plan leaves out (matched
    to a remote record with updates disabled or with no tracked
    difference). *)
Theorem run_buckets
    (createProduct : csvItem -> Exc product)
    (updateProduct : csvItem -> product -> list change -> Exc product)
    (getAllProducts : Exc (list product))
    (fuel : nat) (csvData : list csvItem) (existingProducts : list product)
    (idx : ShopifyClient.index) (opts : ShopifyClient.options) :
  (0 < ShopifyClient.batchSize opts)%nat ->
  ShopifyClient.dryRun opts = false ->
  ShopifyClient.buildIndex existingProducts = Ok idx ->
  (length csvData < fuel)%nat ->
  exists r log,
    ShopifyClient.processProductsFromCSV createProduct updateProduct getAllProducts
      fuel csvData (Some existingProducts) opts = Some (Ok (r, log))
    /\ ShopifyClient.total r = length csvData
    /\ ShopifyClient.skipped r = 0%nat
    /\ (ShopifyClient.created r + ShopifyClient.updated r + ShopifyClient.errors r
        + length (List.filter (isSkippedRow idx (ShopifyClient.enableUpdates opts)) csvData)
        = length csvData)%nat.
Proof.
  intros HB Hdry Hidx Hf.
  destruct (run_report createProduct updateProduct getAllProducts fuel csvData
              existingProducts idx opts HB Hdry Hidx Hf) as [log Hrun].
  eexists _, log. split; [exact Hrun|].
  destruct (run_never_counts_skipped _ _ _ _ _ _ _ _ _ Hrun) as [Hsk Htot].
  pose proof (run_recorded_short_of_total _ _ _ _ _ _ _ _ _ _ HB Hdry Hidx Hrun) as Hrec.
  unfold recorded in Hrec. repeat split; trivial. lia.
Qed.

Lemma run_buckets_witness :
  exists r log,
    ShopifyClient.processProductsFromCSV refusesB2 refusesUpdates (Ok [])
      5 [rowFive; rowX1; rowSame] (Some [remoteUntitled; remoteGoldRing])
      ShopifyClient.defaultOptions = Some (Ok (r, log))
    /\ ShopifyClient.total r = length [rowFive; rowX1; rowSame]
    /\ ShopifyClient.skipped r = 0%nat
    /\ (ShopifyClient.created r + ShopifyClient.updated r + ShopifyClient.errors r
        + length (List.filter
                    (isSkippedRow indexOfBoth
                       (ShopifyClient.enableUpdates ShopifyClient.defaultOptions))
                    [rowFive; rowX1; rowSame])
        = length [rowFive; rowX1; rowSame])%nat.
Proof.
  apply (run_buckets refusesB2 refusesUpdates (Ok []) 5
           [rowFive; rowX1; rowSame] [remoteUntitled; remoteGoldRing] indexOfBoth
           ShopifyClient.defaultOptions);
    [simpl; lia | reflexivity | vm_compute; reflexivity | simpl; lia].
Defined.

(** X11. A dry run makes no remote call and counts nothing: its result is
    the same whatever the remote catalog would answer to a creation or an
    update, and whenever it returns a report, that report has the number
    of rows as total and every bucket and list empty. *)
Theorem dry_run_calls_nothing
    (createProduct createProduct' : csvItem -> Exc product)
    (updateProduct updateProduct' : csvItem -> product -> list change -> Exc product)
    (getAllProducts : Exc (list product))
    (fuel : nat) (csvData : list csvItem) (shopifyProducts : option (list product))
    (opts : ShopifyClient.options) :
  ShopifyClient.dryRun opts = true ->
  ShopifyClient.processProductsFromCSV createProduct updateProduct getAllProducts
    fuel csvData shopifyProducts opts
  = ShopifyClient.processProductsFromCSV createProduct' updateProduct' getAllProducts
      fuel csvData shopifyProducts opts
  /\ (forall r log,
        ShopifyClient.processProductsFromCSV createProduct updateProduct getAllProducts
          fuel csvData shopifyProducts opts = Some (Ok (r, log)) ->
        r = emptyReport (length csvData)).
Proof.
  intros Hdry. split.
  - unfold ShopifyClient.processProductsFromCSV.
    destruct (bindExc _ ShopifyClient.buildIndex) as [idx|m]; [|reflexivity].
    f_equal. apply forStride_ext. intros j x.
    now rewrite !processBatchAt_dry.
  - intros r log. unfold ShopifyClient.processProductsFromCSV.
    destruct (bindExc _ ShopifyClient.buildIndex) as [idx|m]; [|discriminate].
    destruct (forStride _ _ _ _ _ _) as [st|] eqn:Hrun; [|discriminate].
    simpl. intros [= ->].
    change (fst (r, log) = emptyReport (length csvData)).
    eapply (forStride_invariant (fun x => fst x = emptyReport (length csvData)));
      [| |exact Hrun].
    + intros j x Hx. now rewrite processBatchAt_dry.
    + reflexivity.
Qed.

Lemma dry_run_calls_nothing_witness :
  ShopifyClient.processProductsFromCSV refusesB2 refusesUpdates (Ok [])
    5 [rowFive; rowX1] (Some [remoteUntitled; remoteGoldRing])
    (ShopifyClient.mkOptions 10 1000 true true true)
  = ShopifyClient.processProductsFromCSV (fun c => Throw "offline")
      (fun c e ch => Throw "offline") (Ok [])
      5 [rowFive; rowX1] (Some [remoteUntitled; remoteGoldRing])
      (ShopifyClient.mkOptions 10 1000 true true true).
Proof.
  apply (dry_run_calls_nothing refusesB2 (fun c => Throw "offline")
           refusesUpdates (fun c e ch => Throw "offline") (Ok []) 5
           [rowFive; rowX1] (Some [remoteUntitled; remoteGoldRing])
           (ShopifyClient.mkOptions 10 1000 true true true)).
  reflexivity.
Defined.

(* ===================================================================== *)
(** ** The create-only entry point and batches *)
(* ===================================================================== *)

Section CreateOnlyRun.

Import ShopifyClient.

Variable createProduct : csvItem -> Exc product.
Variable updateProduct : csvItem -> product -> list change -> Exc product.

Lemma In_slice {A : Type} (x : A) (i j : nat) (l : list A) :
  In x (slice i j l) -> In x l.
Proof.
  unfold slice. intros H.
  rewrite <- (firstn_skipn i l). apply in_or_app. right.
  rewrite <- (firstn_skipn (j - i) (skipn i l)). apply in_or_app. now left.
Qed.

Lemma recordOutcome_create (r : results) (op : operation) :
  isCreateOp op = true -> nothingUpdated r ->
  nothingUpdated (recordOutcome createProduct updateProduct r op).
Proof.
  unfold nothingUpdated, recordOutcome. destruct op as [c|u]; [|discriminate].
  intros _ H. simpl. now destruct (createProduct c).
Qed.

Lemma sequentialItem_create (dry : bool) (st : results * list event) (op : operation) :
  isCreateOp op = true -> nothingUpdated (fst st) ->
  nothingUpdated (fst (sequentialItem createProduct updateProduct dry st op)).
Proof.
  unfold nothingUpdated, sequentialItem, processItem, processCreateItem.
  destruct st as [r log]. destruct op as [c|u]; [|discriminate].
  intros _ H. destruct dry; simpl; [exact H|].
  now destruct (createProduct c).
Qed.

Lemma fold_left_invariant_in {A S : Type} (P : S -> Prop) (f : S -> A -> S)
    (l : list A) :
  (forall x a, In a l -> P x -> P (f x a)) ->
  forall s : S, P s -> P (fold_left f l s).
Proof.
  induction l as [|a l IH]; intros Hf s Hs; simpl; trivial.
  apply IH.
  - intros x b Hb. apply Hf. now right.
  - apply Hf; [now left | exact Hs].
Qed.

Lemma processBatchAt_creates (opts : options) (all : list operation) (i : nat)
    (st : results * list event) :
  (forall op, In op all -> isCreateOp op = true) ->
  nothingUpdated (fst st) ->
  nothingUpdated (fst (processBatchAt createProduct updateProduct opts all i st)).
Proof.
  intros Hall H. unfold processBatchAt.
  set (batch := slice i (i + batchSize opts) all).
  assert (Hb : forall op, In op batch -> isCreateOp op = true).
  { intros op Hop. apply Hall. eapply In_slice, Hop. }
  assert (Hstep : nothingUpdated
            (fst (if parallelBatch opts && negb (dryRun opts)
                  then (processBatchParallelWithUpdates createProduct updateProduct
                          batch (fst st) (dryRun opts),
                        (snd st ++ [EvBatches [length batch]])%list)
                  else processBatchSequentialWithUpdates createProduct updateProduct
                         batch (fst st, (snd st ++ [EvBatches [length batch]])%list)
                         (dryRun opts)))).
  { destruct (parallelBatch opts && negb (dryRun opts)) eqn:Hp.
    - apply andb_true_iff in Hp. destruct Hp as [_ Hd].
      apply negb_true_iff in Hd. rewrite Hd. cbn [fst].
      rewrite processBatchParallel_itemwise.
      apply fold_left_invariant_in; trivial.
      intros x op Hop. now apply recordOutcome_create, Hb.
    - unfold processBatchSequentialWithUpdates.
      apply (fold_left_invariant_in (fun x => nothingUpdated (fst x))); trivial.
      intros x op Hop. now apply sequentialItem_create, Hb. }
  cbn [fst snd] in *.
  destruct (i + batchSize opts <? length all)%nat; exact Hstep.
Qed.

Lemma createOnly_from (dry : bool) (all l : list csvItem) (index : nat)
    (r : results) (log : list event) :
  forEachFrom (recordCreateOnly all) index
    (allSettled (List.map (createOnlyItem createProduct dry) l)) r
  = fst (fold_left (createOnlyStep createProduct dry) l (r, log)).
Proof.
  revert index r log; induction l as [|c l IH]; intros index r log; simpl; trivial.
  assert (Hc : createOnlyItem createProduct dry c
               = if dry then Ok ItemDryRun
                 else match createProduct c with
                      | Ok p => Ok (ItemCreated p)
                      | Throw message =>
                          Ok (ItemFailure message (JS.orElse (Item c) "Unknown"))
                      end).
  { unfold createOnlyItem. destruct dry; simpl; [reflexivity|].
    now destruct (createProduct c). }
  rewrite Hc. destruct dry; simpl.
  - apply IH.
  - destruct (createProduct c) as [p|m]; simpl; apply IH.
Qed.

Lemma createOnlyStep_counts (dry : bool) (st : results * list event) (c : csvItem) :
  (created (fst (createOnlyStep createProduct dry st c))
   + errors (fst (createOnlyStep createProduct dry st c))
   = Datatypes.S (created (fst st) + errors (fst st)))%nat
  /\ (dry = true ->
      errors (fst (createOnlyStep createProduct dry st c)) = errors (fst st)
      /\ createdProducts (fst (createOnlyStep createProduct dry st c))
         = createdProducts (fst st)).
Proof.
  unfold createOnlyStep. destruct st as [r log]. destruct dry; simpl.
  - split; [lia | now intros _].
  - split; [|discriminate]. destruct (createProduct c); simpl; lia.
Qed.

Lemma createOnlyBatch_counts (dry : bool) (batch : list csvItem)
    (st : results * list event) :
  (created (fst (fold_left (createOnlyStep createProduct dry) batch st))
   + errors (fst (fold_left (createOnlyStep createProduct dry) batch st))
   = created (fst st) + errors (fst st) + length batch)%nat
  /\ (dry = true ->
      errors (fst (fold_left (createOnlyStep createProduct dry) batch st))
      = errors (fst st)
      /\ createdProducts (fst (fold_left (createOnlyStep createProduct dry) batch st))
         = createdProducts (fst st)).
Proof.
  revert st; induction batch as [|c l IH]; intros st; simpl.
  - split; [lia | now intros _].
  - destruct (IH (createOnlyStep createProduct dry st c)) as [H1 H2].
    destruct (createOnlyStep_counts dry st c) as [H3 H4].
    split; [lia|]. intros Hd. destruct (H2 Hd) as [-> ->]. now apply H4.
Qed.

End CreateOnlyRun.

(** X12. [createProductsFromCSV] never updates, whatever the options say
    about updates: every report it returns has 0 in the updated bucket and
    an empty list of updated products. *)
Theorem createProductsFromCSV_never_updates
    (createProduct : csvItem -> Exc product)
    (updateProduct : csvItem -> product -> list change -> Exc product)
    (getAllProducts : Exc (list product))
    (fuel : nat) (csvData : list csvItem) (shopifyProducts : option (list product))
    (opts : ShopifyClient.options) (r : ShopifyClient.results) (log : list event) :
  ShopifyClient.createProductsFromCSV createProduct updateProduct getAllProducts
    fuel csvData shopifyProducts opts = Some (Ok (r, log)) ->
  ShopifyClient.updated r = 0%nat /\ ShopifyClient.updatedProducts r = [].
Proof.
  unfold ShopifyClient.createProductsFromCSV, ShopifyClient.processProductsFromCSV.
  destruct (bindExc _ ShopifyClient.buildIndex) as [idx|m]; [|discriminate].
  destruct (forStride _ _ _ _ _ _) as [st|] eqn:Hrun; [|discriminate].
  simpl. intros [= ->].
  change (nothingUpdated (fst (r, log))).
  eapply (forStride_invariant (fun x => nothingUpdated (fst x))); [| |exact Hrun].
  - intros j x Hx. apply processBatchAt_creates; trivial.
    intros op Hop. unfold ShopifyClient.allProductsToProcessOf in Hop.
    cbn [ShopifyClient.enableUpdates] in Hop.
    unfold ShopifyClient.categorizeProducts in Hop.
    rewrite categorize_update_disabled in Hop. simpl in Hop.
    rewrite app_nil_r in Hop. apply in_map_iff in Hop.
    now destruct Hop as (c & <- & _).
  - split; reflexivity.
Qed.

Lemma createProductsFromCSV_never_updates_witness :
  exists r log,
    ShopifyClient.createProductsFromCSV refusesB2 refusesUpdates (Ok [])
      5 [rowFive; rowX1] (Some [remoteUntitled; remoteGoldRing])
      ShopifyClient.defaultOptions = Some (Ok (r, log))
    /\ ShopifyClient.updated r = 0%nat /\ ShopifyClient.updatedProducts r = [].
Proof.
  eexists _, _. split; [vm_compute; reflexivity|].
  eapply (createProductsFromCSV_never_updates refusesB2 refusesUpdates (Ok []) 5
            [rowFive; rowX1] (Some [remoteUntitled; remoteGoldRing])
            ShopifyClient.defaultOptions).
  vm_compute. reflexivity.
Defined.

(** X13. The two create-only batch routines leave the same report, with
    and without dry run, and each row of the batch lands in the created or
    in the errors bucket; in a dry run every row is counted as created
    although nothing is created: no error is recorded and no product is
    added to the list of created products. *)
Theorem create_only_batches_agree
    (createProduct : csvItem -> Exc product)
    (batch : list csvItem) (r : ShopifyClient.results) (log : list event)
    (dryRun0 : bool) :
  ShopifyClient.processBatchParallel createProduct batch r dryRun0
  = fst (ShopifyClient.processBatchSequential createProduct batch (r, log) dryRun0)
  /\ (ShopifyClient.created
        (ShopifyClient.processBatchParallel createProduct batch r dryRun0)
      + ShopifyClient.errors
          (ShopifyClient.processBatchParallel createProduct batch r dryRun0)
      = ShopifyClient.created r + ShopifyClient.errors r + length batch)%nat
  /\ (dryRun0 = true ->
      ShopifyClient.created
        (ShopifyClient.processBatchParallel createProduct batch r dryRun0)
      = (ShopifyClient.created r + length batch)%nat
      /\ ShopifyClient.errors
           (ShopifyClient.processBatchParallel createProduct batch r dryRun0)
         = ShopifyClient.errors r
      /\ ShopifyClient.createdProducts
           (ShopifyClient.processBatchParallel createProduct batch r dryRun0)
         = ShopifyClient.createdProducts r).
Proof.
  assert (He : ShopifyClient.processBatchParallel createProduct batch r dryRun0
               = fst (fold_left (ShopifyClient.createOnlyStep createProduct dryRun0)
                        batch (r, log))).
  { unfold ShopifyClient.processBatchParallel, ShopifyClient.forEach.
    apply createOnly_from. }
  rewrite He. unfold ShopifyClient.processBatchSequential.
  destruct (createOnlyBatch_counts createProduct dryRun0 batch (r, log)) as [H1 H2].
  cbn [fst] in H1, H2.
  split; [reflexivity|]. split; [exact H1|].
  intros Hd. destruct (H2 Hd) as [H3 H4]. repeat split; trivial. lia.
Qed.

Lemma create_only_batches_agree_witness :
  ShopifyClient.created
    (ShopifyClient.processBatchParallel refusesB2 [row "A-1"; row "B-2"]
       (emptyReport 2) true)
  = (ShopifyClient.created (emptyReport 2) + length [row "A-1"; row "B-2"])%nat.
Proof.
  apply (create_only_batches_agree refusesB2 [row "A-1"; row "B-2"] (emptyReport 2)
           [] true).
  reflexivity.
Defined.

(* ===================================================================== *)
(** ** The report of the batch scheduler *)
(* ===================================================================== *)

Section SchedulerReport.

Import ProductProcessor.

Variable createProduct : csvItem -> Exc product.
Variable bc : batchConfig.

(** The result of a batch, row by row. *)
Lemma processSingleBatch_itemwise (batch : list csvItem) (batchIndex totalBatches : nat) :
  processSingleBatch createProduct batch batchIndex totalBatches
  = mkBatchResult (length batch)
      (length (List.filter (succeeds createProduct) batch))
      (length (List.filter (fun c => negb (succeeds createProduct c)) batch))
      (flat_map (directError createProduct) batch).
Proof.
  unfold processSingleBatch. now rewrite processBatchDirect_itemwise.
Qed.

Lemma batchPromise_itemwise (i total : nat) (batch : list csvItem) (batchIndex : nat) :
  batchPromise createProduct i total batch batchIndex
  = Ok (mkBatchResult (length batch)
          (length (List.filter (succeeds createProduct) batch))
          (length (List.filter (fun c => negb (succeeds createProduct c)) batch))
          (flat_map (directError createProduct) batch)).
Proof.
  unfold batchPromise. now rewrite processSingleBatch_itemwise.
Qed.

Lemma window_report (i total : nat) (cbs : list (list csvItem)) :
  forall (k index : nat) (r : batchedResults),
    ShopifyClient.forEachFrom (aggregate bc i) index
      (allSettled (mapIndexedFrom (batchPromise createProduct i total) k cbs)) r
    = mkBatched
        (totalProcessed r + length (concat cbs))
        (created r + length (List.filter (succeeds createProduct) (concat cbs)))
        (errors r
         + length (List.filter (fun c => negb (succeeds createProduct c)) (concat cbs)))
        (errorDetails r ++ flat_map (directError createProduct) (concat cbs)).
Proof.
  unfold allSettled.
  induction cbs as [|batch cbs IH]; intros k index r.
  - simpl. destruct r; simpl. now rewrite !Nat.add_0_r, app_nil_r.
  - cbn [mapIndexedFrom]. rewrite batchPromise_itemwise.
    cbn [List.map ShopifyClient.forEachFrom aggregate concat].
    rewrite IH.
    cbn [totalProcessed created errors errorDetails processed b_created b_errors
         b_errorDetails].
    rewrite !List.filter_app, flat_map_app, !length_app, <- !app_assoc.
    f_equal; lia.
Qed.

Lemma processWindowAt_report (batches : list (list csvItem)) (i : nat)
    (st : batchedResults * list event) :
  fst (processWindowAt createProduct bc batches i st)
  = let rows := concat (slice i (i + maxConcurrentBatches bc) batches) in
    mkBatched
      (totalProcessed (fst st) + length rows)
      (created (fst st) + length (List.filter (succeeds createProduct) rows))
      (errors (fst st)
       + length (List.filter (fun c => negb (succeeds createProduct c)) rows))
      (errorDetails (fst st) ++ flat_map (directError createProduct) rows).
Proof.
  unfold processWindowAt, ShopifyClient.forEach. rewrite window_report.
  now destruct (i + maxConcurrentBatches bc <? length batches)%nat.
Qed.

Lemma windows_report (batches : list (list csvItem)) (l : list nat)
    (st : batchedResults * list event) :
  fst (fold_left (fun x j => processWindowAt createProduct bc batches j x) l st)
  = let rows :=
      concat (concat (List.map (fun j => slice j (j + maxConcurrentBatches bc) batches) l)) in
    mkBatched
      (totalProcessed (fst st) + length rows)
      (created (fst st) + length (List.filter (succeeds createProduct) rows))
      (errors (fst st)
       + length (List.filter (fun c => negb (succeeds createProduct c)) rows))
      (errorDetails (fst st) ++ flat_map (directError createProduct) rows).
Proof.
  revert st; induction l as [|j l IH]; intros st.
  - simpl. destruct (fst st); simpl. now rewrite !Nat.add_0_r, app_nil_r.
  - cbn [fold_left List.map concat]. rewrite IH, processWindowAt_report.
    cbv zeta. cbn [totalProcessed created errors errorDetails].
    rewrite concat_app, !List.filter_app, flat_map_app, !length_app, <- !app_assoc.
    f_equal; lia.
Qed.

Lemma batched_report (fuel : nat) (products : list csvItem) :
  (0 < batchSize bc)%nat ->
  (0 < maxConcurrentBatches bc)%nat ->
  (length products < fuel)%nat ->
  exists log,
    processBatchedProducts createProduct fuel bc products
    = Some (mkBatched (length products)
              (length (List.filter (succeeds createProduct) products))
              (length (List.filter (fun c => negb (succeeds createProduct c)) products))
              (flat_map (directError createProduct) products), log).
Proof.
  intros HB HM Hf.
  rewrite (processBatchedProducts_run createProduct bc HB HM fuel products Hf).
  cbv zeta.
  set (batches := List.map _ (strideIndices (ceilDiv (length products) (batchSize bc)) 0 _)).
  set (run := fold_left _ _ _).
  exists (snd run). f_equal. rewrite (surjective_pairing run) at 1. f_equal.
  unfold run. rewrite windows_report. cbv zeta. cbn [fst totalProcessed created errors
    errorDetails Nat.add app].
  assert (Hrows : concat (concat (List.map
                    (fun j => slice j (j + maxConcurrentBatches bc) batches)
                    (strideIndices (ceilDiv (length batches) (maxConcurrentBatches bc))
                       0 (maxConcurrentBatches bc)))) = products).
  { rewrite (concat_slices _ batches HM)
      by (unfold strideCount; now rewrite Nat.sub_0_r).
    rewrite skipn_O. unfold batches.
    rewrite (concat_slices _ products HB)
      by (unfold strideCount; now rewrite Nat.sub_0_r).
    now rewrite skipn_O. }
  now rewrite Hrows.
Qed.

End SchedulerReport.

(** X14. With a positive batch size, a positive number of concurrent
    batches and more fuel than rows, [processBatchedProducts] (for an
    initialized client) returns, and its report is that of the rows taken
    one by one in their order: as many processed as there are rows, the
    rows whose own creation succeeded in the created bucket, the others
    in the errors bucket with one item entry each, and no entry for a
    batch as a whole. The report depends neither on the batch size nor
    on the number of concurrent batches. *)
Theorem processBatchedProducts_report
    (createProduct : csvItem -> Exc product) (bc : ProductProcessor.batchConfig)
    (fuel : nat) (products : list csvItem) :
  (0 < ProductProcessor.batchSize bc)%nat ->
  (0 < ProductProcessor.maxConcurrentBatches bc)%nat ->
  (length products < fuel)%nat ->
  exists r log,
    ProductProcessor.processBatchedProducts createProduct fuel bc products = Some (r, log)
    /\ r = ProductProcessor.mkBatched (length products)
             (length (List.filter (succeeds createProduct) products))
             (length (List.filter (fun c => negb (succeeds createProduct c)) products))
             (flat_map (directError createProduct) products)
    /\ (ProductProcessor.created r + ProductProcessor.errors r
        = ProductProcessor.totalProcessed r)%nat.
Proof.
  intros HB HM Hf.
  destruct (batched_report createProduct bc fuel products HB HM Hf) as [log Hrun].
  eexists _, log. split; [exact Hrun|]. split; [reflexivity|].
  cbn [ProductProcessor.created ProductProcessor.errors ProductProcessor.totalProcessed].
  apply filter_partition_length.
Qed.

Lemma processBatchedProducts_report_witness :
  exists r log,
    ProductProcessor.processBatchedProducts refusesB2 5
      (ProductProcessor.mkBatchConfig 2 1 2000) [row "A-1"; row "B-2"; row "C-3"]
    = Some (r, log)
    /\ r = ProductProcessor.mkBatched (length [row "A-1"; row "B-2"; row "C-3"])
             (length (List.filter (succeeds refusesB2) [row "A-1"; row "B-2"; row "C-3"]))
             (length (List.filter (fun c => negb (succeeds refusesB2 c))
                        [row "A-1"; row "B-2"; row "C-3"]))
             (flat_map (directError refusesB2) [row "A-1"; row "B-2"; row "C-3"])
    /\ (ProductProcessor.created r + ProductProcessor.errors r
        = ProductProcessor.totalProcessed r)%nat.
Proof.
  apply (processBatchedProducts_report refusesB2
           (ProductProcessor.mkBatchConfig 2 1 2000) 5
           [row "A-1"; row "B-2"; row "C-3"]); simpl; lia.
Defined.

Example batched_run_of_three_rows :
  option_map fst
    (ProductProcessor.processBatchedProducts refusesB2 5
       (ProductProcessor.mkBatchConfig 2 1 2000) [row "A-1"; row "B-2"; row "C-3"])
  = Some (ProductProcessor.mkBatched 3 2 1
            [ShopifyClient.ItemError "B-2" "422 Unprocessable"]).
Proof. vm_compute. reflexivity. Qed.

(* ===================================================================== *)
(** ** The two eligibility filters *)
(* ===================================================================== *)

Section Filters.

Lemma filter_filter_impl {A : Type} (f g : A -> bool) (l : list A) :
  (forall a, f a = true -> g a = true) ->
  List.filter f l = List.filter f (List.filter g l).
Proof.
  intros H. induction l as [|a l IH]; simpl; trivial.
  destruct (f a) eqn:Hf.
  - rewrite (H a Hf). simpl. now rewrite Hf, IH.
  - destruct (g a); simpl; [now rewrite Hf|exact IH].
Qed.

Lemma filter_length_le {A : Type} (f : A -> bool) (l : list A) :
  (length (List.filter f l) <= length l)%nat.
Proof. induction l as [|a l IH]; simpl; [lia|]. destruct (f a); simpl; lia. Qed.

(** With the same criteria, what the filter of the processor keeps, the
    filter of the analyzer keeps. *)
Lemma processor_keeps_analyzer_keeps (fc : filterCriteria) (product : csvItem) :
  ProductProcessor.keeps fc product = true -> ProductAnalyzer.keeps fc product = true.
Proof.
  unfold ProductProcessor.keeps, ProductAnalyzer.keeps,
    ProductProcessor.rejectedBy, ProductAnalyzer.rejectedBy,
    ProductAnalyzer.hasMatchingProductLine, ProductAnalyzer.productLineOf,
    ProductProcessor.hasMatchingProductLine, ProductProcessor.productLineOf.
  cbv zeta.
  destruct (String.eqb (ProductProcessor.statusOf product) "discontinued");
    [discriminate|].
  destruct (JS.isNaN _ || JS.lt _ _ || JS.gt _ _); [discriminate|].
  destruct (negb (existsb _ _)); [discriminate|].
  destruct (JS.includes _ "finding" || JS.includes _ "mounting"); [discriminate|].
  destruct (JS.includes _ "finding" || JS.includes _ "mounting"); [discriminate|].
  destruct (JS.includes _ "engraveable"); [discriminate|].
  destruct (JS.includes _ "personalized"); [discriminate|].
  destruct (JS.includes _ "personalized"); [discriminate|].
  destruct (negb (JS.truthy (Item product)) || negb (JS.truthy (Description product)));
    [discriminate | reflexivity].
Qed.

(** What the filter of the processor keeps has a contract price within the
    bounds, both included, an identifier and a description. *)
Lemma processor_keeps_facts (fc : filterCriteria) (product : csvItem) :
  ProductProcessor.keeps fc product = true ->
  (exists s q,
     ContractPrice product = Some s /\ JS.parseFloat s = JS.Fin q
     /\ (msrpMin fc <= q)%Q /\ (q <= msrpMax fc)%Q)
  /\ JS.truthy (Item product) = true
  /\ JS.truthy (Description product) = true
  /\ ProductProcessor.statusOf product <> "discontinued".
Proof.
  intros H. pose proof (processor_keeps_analyzer_keeps fc product H) as HA.
  unfold ProductAnalyzer.keeps, ProductAnalyzer.rejectedBy in HA. cbv zeta in HA.
  destruct (JS.isNaN _ || JS.lt _ _ || JS.gt _ _) eqn:Hp; [discriminate|].
  destruct (negb (ProductAnalyzer.hasMatchingProductLine _ _)); [discriminate|].
  destruct (negb (JS.truthy (Item product)) || negb (JS.truthy (Description product)))
    eqn:Hq; [discriminate|].
  apply orb_false_iff in Hq. destruct Hq as [Hi Hd].
  apply negb_false_iff in Hi, Hd.
  apply orb_false_iff in Hp. destruct Hp as [Hp Hgt].
  apply orb_false_iff in Hp. destruct Hp as [Hnan Hlt].
  repeat split; trivial.
  - unfold JS.parseFloatOpt in *.
    destruct (ContractPrice product) as [s|]; [|discriminate].
    destruct (JS.parseFloat s) as [|q|n] eqn:Hs; [discriminate| |].
    + exists s, q. unfold JS.gt, JS.lt in *.
      apply negb_false_iff in Hlt, Hgt. apply Qle_bool_iff in Hlt, Hgt.
      repeat split; trivial.
    + unfold JS.gt, JS.lt in *. destruct n; discriminate.
  - intros Hs. unfold ProductProcessor.keeps, ProductProcessor.rejectedBy in H.
    cbv zeta in H. rewrite Hs in H. discriminate.
Qed.

End Filters.

(** X15. With the same criteria the filter of the product analyzer keeps
    every row that the filter of the processor keeps: what the processor
    keeps is what it keeps of the rows kept by the analyzer, so the count
    of the analyzer is never below that of the processor. The converse
    fails: a discontinued row can pass the analyzer. *)
Theorem processor_filter_within_analyzer_filter
    (fc : filterCriteria) (products : list csvItem) :
  ProductProcessor.filterProducts fc products
  = List.filter (ProductProcessor.keeps fc) (ProductAnalyzer.filterProducts fc products)
  /\ (length (ProductProcessor.filterProducts fc products)
      <= length (ProductAnalyzer.filterProducts fc products))%nat
  /\ ProductAnalyzer.keeps pearlsOnly discontinuedRing = true
  /\ ProductProcessor.keeps pearlsOnly discontinuedRing = false.
Proof.
  assert (He : ProductProcessor.filterProducts fc products
               = List.filter (ProductProcessor.keeps fc)
                   (ProductAnalyzer.filterProducts fc products)).
  { unfold ProductProcessor.filterProducts, ProductAnalyzer.filterProducts.
    apply filter_filter_impl, processor_keeps_analyzer_keeps. }
  split; [exact He|]. split; [|split; vm_compute; reflexivity].
  rewrite He. apply filter_length_le.
Qed.

(** X16. Every row that [filterProducts] of the processor returns is a row
    of the input whose contract price reads as a number within the
    bounds of the criteria, both bounds included, whose identifier and
    description are not empty and whose status is not "discontinued". *)
Theorem filtered_rows_are_eligible
    (fc : filterCriteria) (products : list csvItem) (product : csvItem) :
  In product (ProductProcessor.filterProducts fc products) ->
  In product products
  /\ (exists s q,
        ContractPrice product = Some s /\ JS.parseFloat s = JS.Fin q
        /\ (msrpMin fc <= q)%Q /\ (q <= msrpMax fc)%Q)
  /\ JS.truthy (Item product) = true
  /\ JS.truthy (Description product) = true
  /\ ProductProcessor.statusOf product <> "discontinued".
Proof.
  unfold ProductProcessor.filterProducts. intros H. apply filter_In in H.
  destruct H as [Hin Hk]. split; [exact Hin|].
  now apply processor_keeps_facts.
Qed.

Lemma filtered_rows_are_eligible_witness :
  In pearlStrand [discontinuedRing; pearlStrand]
  /\ (exists s q,
        ContractPrice pearlStrand = Some s /\ JS.parseFloat s = JS.Fin q
        /\ (msrpMin pearlsOnly <= q)%Q /\ (q <= msrpMax pearlsOnly)%Q)
  /\ JS.truthy (Item pearlStrand) = true
  /\ JS.truthy (Description pearlStrand) = true
  /\ ProductProcessor.statusOf pearlStrand <> "discontinued".
Proof.
  apply (filtered_rows_are_eligible pearlsOnly [discontinuedRing; pearlStrand] pearlStrand).
  vm_compute. left. reflexivity.
Defined.

(* ===================================================================== *)
(** ** The reconciliation index: titles *)
(* ===================================================================== *)

Section IndexTitles.

Import ShopifyClient.

Lemma buildIndexFrom_throws (ps : list product) (idx : index) :
  (exists p, In p ps /\ title p = None) <->
  buildIndexFrom idx ps = Throw noTitleMessage.
Proof.
  revert idx; induction ps as [|p ps IH]; intros idx; simpl.
  - split; [intros (p & [] & _) | discriminate].
  - unfold indexProduct. destruct (title p) as [t|] eqn:Ht; simpl.
    + rewrite <- IH. split.
      * intros (q & [<-|Hin] & Hq); [congruence | eauto].
      * intros (q & Hin & Hq). eauto.
    + split; [reflexivity | eauto].
Qed.

Lemma buildIndexFrom_total (ps : list product) (idx : index) :
  (exists idx', buildIndexFrom idx ps = Ok idx')
  \/ buildIndexFrom idx ps = Throw noTitleMessage.
Proof.
  revert idx; induction ps as [|p ps IH]; intros idx; simpl; [eauto|].
  unfold indexProduct. destruct (title p); simpl; [apply IH | now right].
Qed.

(** One step of the build on the title map. *)
Lemma indexProduct_byTitle (idx idx' : index) (p : product) (x : string) :
  indexProduct idx p = Ok idx' ->
  byTitle idx' !! x = Some p /\ hasName x p
  \/ byTitle idx' !! x = byTitle idx !! x /\ ~ hasName x p.
Proof.
  unfold indexProduct, hasName. destruct (title p) as [t|]; [|discriminate].
  intros [= <-]. simpl.
  destruct (decide (JS.toLowerCase t = x)) as [<-|Hne].
  - left. split; [apply lookup_insert_eq | eauto].
  - right. split; [now apply lookup_insert_ne|].
    intros (t' & [= <-] & H). contradiction.
Qed.

(** The title map of a built index: what a name points to is the last
    remote record, in the order of the catalog, with that name. *)
Lemma buildIndexFrom_byTitle (ps : list product) (idx idx' : index) (x : string) :
  buildIndexFrom idx ps = Ok idx' ->
  ((exists p, In p ps /\ hasName x p) \/ is_Some (byTitle idx !! x) ->
     is_Some (byTitle idx' !! x))
  /\ (forall q, byTitle idx' !! x = Some q ->
        (exists before after,
           ps = (before ++ q :: after)%list /\ hasName x q
           /\ forall p, In p after -> ~ hasName x p)
        \/ (byTitle idx !! x = Some q /\ forall p, In p ps -> ~ hasName x p)).
Proof.
  revert idx; induction ps as [|p ps IH]; intros idx; simpl.
  - intros [= <-]. split.
    + intros [(p & [] & _) | H]; exact H.
    + intros q H. right. split; trivial. intros p [].
  - destruct (indexProduct idx p) as [idx1|] eqn:H1; simpl; [|discriminate].
    intros H. destruct (IH idx1 H) as [IHa IHb].
    pose proof (indexProduct_byTitle idx idx1 p x H1) as Hstep. split.
    + intros Hpre. apply IHa.
      destruct Hstep as [[Hs _] | [Hs Hn]].
      * right. rewrite Hs. eauto.
      * destruct Hpre as [(p' & [<-|Hin] & Hk) | Hsome].
        -- contradiction.
        -- left. eauto.
        -- right. now rewrite Hs.
    + intros q Hq.
      destruct (IHb q Hq) as [(before & after & -> & Hk & Hafter) | [Hq1 Hnone]].
      * left. exists (p :: before), after. repeat split; trivial.
      * destruct Hstep as [[Hs Hk] | [Hs Hn]].
        -- left. rewrite Hs in Hq1. injection Hq1 as <-.
           exists [], ps. repeat split; trivial.
        -- right. split; [now rewrite <- Hs|].
           intros p' [<-|Hin]; [exact Hn | now apply Hnone].
Qed.

Lemma findExisting_empty (csvItem0 : csvItem) :
  findExisting emptyIndex csvItem0 = None.
Proof.
  rewrite findExisting_policy. unfold identifierLookup, displayNameLookup.
  cbn [bySku byTitle emptyIndex]. rewrite !lookup_empty.
  destruct (skuOf csvItem0) as [s|]; [destruct (JS.isEmpty s)|];
    now destruct (JS.isEmpty (titleOf csvItem0)).
Qed.

Lemma categorize_empty (enable : bool) (csvData : list csvItem) (acc : categorized) :
  fold_left (categorizeItem emptyIndex enable) csvData acc
  = mkCategorized (productsToCreate acc ++ csvData)%list (productsToUpdate acc).
Proof.
  revert acc; induction csvData as [|c l IH]; intros acc; simpl.
  - rewrite app_nil_r. now destruct acc.
  - rewrite IH. unfold categorizeItem. rewrite findExisting_empty.
    cbn [productsToCreate productsToUpdate]. now rewrite <- app_assoc.
Qed.

End IndexTitles.

(** X17. Building the index fails exactly when some remote record has no
    title, with the TypeError of reading [toLowerCase] of [undefined]; it
    succeeds otherwise. A run over a catalog with such a record fails with
    that error before any row is planned, whatever the rows and the
    options, and also in a dry run. *)
Theorem untitled_record_aborts_run
    (createProduct : csvItem -> Exc product)
    (updateProduct : csvItem -> product -> list change -> Exc product)
    (getAllProducts : Exc (list product))
    (fuel : nat) (csvData : list csvItem) (existingProducts : list product)
    (opts : ShopifyClient.options) :
  ((exists p, In p existingProducts /\ title p = None) <->
   ShopifyClient.buildIndex existingProducts = Throw noTitleMessage)
  /\ ((forall p, In p existingProducts -> title p <> None) <->
      exists idx, ShopifyClient.buildIndex existingProducts = Ok idx)
  /\ ((exists p, In p existingProducts /\ title p = None) ->
      ShopifyClient.processProductsFromCSV createProduct updateProduct getAllProducts
        fuel csvData (Some existingProducts) opts = Some (Throw noTitleMessage)).
Proof.
  pose proof (buildIndexFrom_throws existingProducts ShopifyClient.emptyIndex) as Ht.
  split; [exact Ht|]. split.
  - split.
    + intros Hall.
      destruct (buildIndexFrom_total existingProducts ShopifyClient.emptyIndex)
        as [H|H]; [exact H|].
      apply Ht in H. destruct H as (p & Hin & Hp). now destruct (Hall p Hin).
    + intros [idx Hidx] p Hin Hp.
      assert (H : ShopifyClient.buildIndex existingProducts = Throw noTitleMessage)
        by (apply Ht; eauto).
      congruence.
  - intros H. apply Ht in H.
    unfold ShopifyClient.processProductsFromCSV. cbn [bindExc].
    unfold ShopifyClient.buildIndex in H |- *. now rewrite H.
Qed.

Lemma untitled_record_aborts_run_witness :
  ShopifyClient.processProductsFromCSV refusesB2 refusesUpdates (Ok [])
    0 [rowFive] (Some [remoteGoldRing; remoteNoTitle; remoteUntitled])
    ShopifyClient.defaultOptions = Some (Throw noTitleMessage).
Proof.
  apply (untitled_record_aborts_run refusesB2 refusesUpdates (Ok []) 0 [rowFive]
           [remoteGoldRing; remoteNoTitle; remoteUntitled] ShopifyClient.defaultOptions).
  exists remoteNoTitle. split; [right; now left | reflexivity].
Defined.

(** X18. Against an empty catalog every row is planned as a creation, in
    the order of the feed, and nothing as an update. So a run that
    fetches the catalog itself and gets the empty list -- which is what
    [getAllProducts] answers when the remote side limits the rate --
    creates every row: its report is the outcomes of creating the rows
    one by one in their order. *)
Theorem empty_catalog_creates_every_row
    (createProduct : csvItem -> Exc product)
    (updateProduct : csvItem -> product -> list change -> Exc product)
    (fuel : nat) (csvData : list csvItem) (opts : ShopifyClient.options) :
  (0 < ShopifyClient.batchSize opts)%nat ->
  ShopifyClient.dryRun opts = false ->
  (length csvData < fuel)%nat ->
  ShopifyClient.categorizeProducts csvData ShopifyClient.emptyIndex
    (ShopifyClient.enableUpdates opts)
  = ShopifyClient.mkCategorized csvData []
  /\ exists log,
       ShopifyClient.processProductsFromCSV createProduct updateProduct (Ok [])
         fuel csvData None opts
       = Some (Ok (fold_left (recordOutcome createProduct updateProduct)
                     (List.map ShopifyClient.create_op csvData)
                     (emptyReport (length csvData)), log)).
Proof.
  intros HB Hdry Hf.
  assert (Hc : ShopifyClient.categorizeProducts csvData ShopifyClient.emptyIndex
                 (ShopifyClient.enableUpdates opts)
               = ShopifyClient.mkCategorized csvData []).
  { unfold ShopifyClient.categorizeProducts. now rewrite categorize_empty. }
  split; [exact Hc|].
  destruct (run_report createProduct updateProduct (Ok []) fuel csvData []
              ShopifyClient.emptyIndex opts HB Hdry eq_refl Hf) as [log Hrun].
  exists log.
  change (ShopifyClient.processProductsFromCSV createProduct updateProduct (Ok [])
            fuel csvData None opts)
    with (ShopifyClient.processProductsFromCSV createProduct updateProduct (Ok [])
            fuel csvData (Some []) opts).
  rewrite Hrun, Hc. unfold ShopifyClient.allProductsToProcessOf.
  cbn [ShopifyClient.productsToCreate ShopifyClient.productsToUpdate List.map].
  now rewrite app_nil_r.
Qed.

Lemma empty_catalog_creates_every_row_witness :
  ShopifyClient.categorizeProducts [rowSame; rowX1] ShopifyClient.emptyIndex
    (ShopifyClient.enableUpdates ShopifyClient.defaultOptions)
  = ShopifyClient.mkCategorized [rowSame; rowX1] []
  /\ exists log,
       ShopifyClient.processProductsFromCSV refusesB2 refusesUpdates (Ok [])
         5 [rowSame; rowX1] None ShopifyClient.defaultOptions
       = Some (Ok (fold_left (recordOutcome refusesB2 refusesUpdates)
                     (List.map ShopifyClient.create_op [rowSame; rowX1])
                     (emptyReport (length [rowSame; rowX1])), log)).
Proof.
  apply (empty_catalog_creates_every_row refusesB2 refusesUpdates 5 [rowSame; rowX1]
           ShopifyClient.defaultOptions); [simpl; lia | reflexivity | simpl; lia].
Defined.

(* ===================================================================== *)
(** ** The scan and the index *)
(* ===================================================================== *)

Section Scan.

Import ShopifyClient.

Lemma hasKey_nonempty (x : string) (p : product) : hasKey x p -> JS.isEmpty x = false.
Proof.
  intros (vs & v & k & _ & _ & _ & Hne & <-).
  rewrite toLowerCase_isEmpty. destruct k; [contradiction | reflexivity].
Qed.

Lemma skuMatch_hasKey (csvItem0 : csvItem) (p : product) :
  match variants p with
  | Some vs => existsb (variantSkuMatches (Item csvItem0)) vs
  | None => false
  end = true
  <-> exists s, Item csvItem0 = Some s /\ hasKey (JS.toLowerCase s) p.
Proof.
  unfold hasKey. destruct (variants p) as [vs|].
  - rewrite existsb_exists. unfold variantSkuMatches. split.
    + intros (v & Hin & Hm). destruct (sku v) as [k|] eqn:Hk; [|discriminate].
      destruct (Item csvItem0) as [s|]; [|discriminate].
      apply andb_true_iff in Hm. destruct Hm as [Hne Heq].
      apply String.eqb_eq in Heq. exists s. split; trivial.
      exists vs, v, k. repeat split; trivial.
      intros ->. discriminate.
    + intros (s & Hs & vs' & v & k & [= <-] & Hin & Hk & Hne & Heq).
      exists v. split; trivial. rewrite Hk, Hs.
      apply andb_true_iff. split.
      * destruct k; [contradiction | reflexivity].
      * now apply String.eqb_eq.
  - split; [discriminate|]. intros (s & _ & vs & v & k & H & _). discriminate.
Qed.

(** The scan over a catalog whose records all have a title. *)
Lemma productExists_titled (csvItem0 : csvItem) (ps : list product) :
  (forall p, In p ps -> title p <> None) ->
  exists b,
    productExists csvItem0 ps = Ok b
    /\ (b = true <->
        exists p, In p ps
          /\ ((exists s, Item csvItem0 = Some s /\ hasKey (JS.toLowerCase s) p)
              \/ (exists d, Description csvItem0 = Some d
                            /\ hasName (JS.toLowerCase d) p))).
Proof.
  induction ps as [|p ps IH]; intros Hall.
  - exists false. split; [reflexivity|]. split; [discriminate|].
    intros (p & [] & _).
  - cbn [productExists].
    destruct (title p) as [t|] eqn:Ht; [|now destruct (Hall p (or_introl eq_refl))].
    pose proof (skuMatch_hasKey csvItem0 p) as Hsku.
    destruct (match variants p with
              | Some vs => existsb (variantSkuMatches (Item csvItem0)) vs
              | None => false
              end) eqn:Hs.
    + exists true. split; [reflexivity|]. split; [|reflexivity]. intros _.
      exists p. split; [now left|]. left. now apply Hsku.
    + cbn [orb].
      assert (Htitle :
                match Description csvItem0 with
                | Some d => String.eqb (JS.toLowerCase t) (JS.toLowerCase d)
                | None => false
                end = true
                <-> exists d, Description csvItem0 = Some d
                              /\ hasName (JS.toLowerCase d) p).
      { unfold hasName. destruct (Description csvItem0) as [d|].
        - rewrite String.eqb_eq. split.
          + intros H. exists d. split; trivial. now exists t.
          + intros (d' & [= <-] & t' & Ht' & H). congruence.
        - split; [discriminate | now intros (d & H & _)]. }
      destruct (match Description csvItem0 with
                | Some d => String.eqb (JS.toLowerCase t) (JS.toLowerCase d)
                | None => false
                end) eqn:Hd.
      * exists true. split; [reflexivity|]. split; [|reflexivity]. intros _.
        exists p. split; [now left|]. right. now apply Htitle.
      * destruct IH as (b & Hb & Hiff); [intros q Hq; apply Hall; now right|].
        exists b. split; [exact Hb|]. rewrite Hiff. split.
        -- intros (q & Hin & Hq). exists q. split; [now right | exact Hq].
        -- intros (q & [<-|Hin] & Hq); [|eauto].
           destruct Hq as [Hq|Hq]; [apply Hsku in Hq | apply Htitle in Hq];
             discriminate.
Qed.

Lemma bySku_present (ps : list product) (idx : index) (x : string) :
  buildIndex ps = Ok idx ->
  is_Some (bySku idx !! x) <-> exists p, In p ps /\ hasKey x p.
Proof.
  intros Hb. destruct (buildIndexFrom_bySku ps emptyIndex idx x Hb) as [Ha Hc]. split.
  - intros [q Hq]. destruct (Hc q Hq) as [[Hin Hk]|H]; [eauto|].
    simpl in H. rewrite lookup_empty in H. discriminate.
  - intros H. apply Ha. now left.
Qed.

Lemma byTitle_present (ps : list product) (idx : index) (x : string) :
  buildIndex ps = Ok idx ->
  is_Some (byTitle idx !! x) <-> exists p, In p ps /\ hasName x p.
Proof.
  intros Hb. destruct (buildIndexFrom_byTitle ps emptyIndex idx x Hb) as [Ha Hc]. split.
  - intros [q Hq].
    destruct (Hc q Hq) as [(before & after & -> & Hk & _) | [H _]].
    + exists q. split; [apply in_or_app; right; now left | exact Hk].
    + simpl in H. rewrite lookup_empty in H. discriminate.
  - intros H. apply Ha. now left.
Qed.

Lemma findExisting_is_Some (idx : index) (csvItem0 : csvItem) :
  is_Some (findExisting idx csvItem0) <->
  (exists s, Item csvItem0 = Some s /\ JS.isEmpty (JS.toLowerCase s) = false
             /\ is_Some (bySku idx !! JS.toLowerCase s))
  \/ (JS.isEmpty (titleOf csvItem0) = false
      /\ is_Some (byTitle idx !! titleOf csvItem0)).
Proof.
  rewrite findExisting_policy. unfold identifierLookup, displayNameLookup, skuOf.
  destruct (Item csvItem0) as [s|]; simpl.
  - destruct (JS.isEmpty (JS.toLowerCase s)) eqn:He.
    + destruct (JS.isEmpty (titleOf csvItem0)).
      * split; [intros [q Hq]; discriminate|].
        intros [(s' & [= <-] & H & _) | [H _]]; congruence.
      * split; [intros H; right; now split|].
        intros [(s' & [= <-] & H & _) | [_ H]]; [congruence | exact H].
    + destruct (bySku idx !! JS.toLowerCase s) as [q|] eqn:Hq.
      * split; [|eauto]. intros _. left. exists s.
        repeat split; trivial; rewrite ?Hq; eauto.
      * destruct (JS.isEmpty (titleOf csvItem0)).
        -- split; [intros [q Hq']; discriminate|].
           intros [(s' & [= <-] & _ & [q Hq']) | [H _]]; congruence.
        -- split; [intros H; right; now split|].
           intros [(s' & [= <-] & _ & [q Hq']) | [_ H]]; [congruence | exact H].
  - destruct (JS.isEmpty (titleOf csvItem0)).
    + split; [intros [q Hq]; discriminate|].
      intros [(s' & H & _) | [H _]]; discriminate.
    + split; [intros H; right; now split|].
      intros [(s' & H & _) | [_ H]]; [discriminate | exact H].
Qed.

Lemma scan_index (ps : list product) (idx : index) (csvItem0 : csvItem) :
  buildIndex ps = Ok idx ->
  JS.truthy (Description csvItem0) = true ->
  productExists csvItem0 ps = Ok (negb (unmatched idx csvItem0)).
Proof.
  intros Hb Hd.
  assert (Hall : forall p, In p ps -> title p <> None).
  { intros p Hin Hp.
    assert (H : buildIndex ps = Throw noTitleMessage)
      by (apply buildIndexFrom_throws; eauto).
    congruence. }
  destruct (productExists_titled csvItem0 ps Hall) as (b & Hrun & Hiff).
  rewrite Hrun. f_equal.
  destruct (Description csvItem0) as [d|] eqn:Hdesc; [|discriminate].
  simpl in Hd. apply negb_true_iff in Hd.
  assert (Ht : titleOf csvItem0 = JS.toLowerCase d).
  { unfold titleOf, JS.orOpt, JS.truthy. rewrite Hdesc, Hd. simpl. now rewrite Hd. }
  assert (Hne : JS.isEmpty (JS.toLowerCase d) = false)
    by now rewrite toLowerCase_isEmpty.
  assert (Hfound : is_Some (findExisting idx csvItem0) <-> b = true).
  { rewrite findExisting_is_Some, Hiff, Ht. split.
    - intros [(s & Hs & _ & Hk) | [_ Hn]].
      + apply (bySku_present ps idx _ Hb) in Hk. destruct Hk as (p & Hin & Hk).
        exists p. split; trivial. left. eauto.
      + apply (byTitle_present ps idx _ Hb) in Hn. destruct Hn as (p & Hin & Hn).
        exists p. split; trivial. right. eauto.
    - intros (p & Hin & [(s & Hs & Hk) | (d' & [= <-] & Hn)]).
      + left. exists s. repeat split; trivial.
        * eapply hasKey_nonempty, Hk.
        * apply (bySku_present ps idx _ Hb). eauto.
      + right. split; trivial. apply (byTitle_present ps idx _ Hb). eauto. }
  unfold unmatched. destruct (findExisting idx csvItem0) as [q|].
  - destruct Hfound as [H _]. rewrite H; [reflexivity | eauto].
  - destruct b; trivial. destruct Hfound as [_ H]. destruct (H eq_refl). discriminate.
Qed.

End Scan.

(** X19. When the identifier lookup misses, what the lookup finds is the
    last remote record, in the order of the catalog, whose title equals
    the display name of the row up to case; and a record with that name
    is found whenever the display name is not empty. *)
Theorem display_name_match_is_last (existingProducts : list product)
    (idx : ShopifyClient.index) (csvItem0 : csvItem) :
  ShopifyClient.buildIndex existingProducts = Ok idx ->
  identifierLookup idx csvItem0 = None ->
  (forall q,
     ShopifyClient.findExisting idx csvItem0 = Some q ->
     exists before after,
       existingProducts = (before ++ q :: after)%list
       /\ hasName (ShopifyClient.titleOf csvItem0) q
       /\ forall p, In p after -> ~ hasName (ShopifyClient.titleOf csvItem0) p)
  /\ (ShopifyClient.titleOf csvItem0 <> "" ->
      (exists p, In p existingProducts /\ hasName (ShopifyClient.titleOf csvItem0) p) ->
      is_Some (ShopifyClient.findExisting idx csvItem0)).
Proof.
  intros Hb Hid. rewrite findExisting_policy, Hid. unfold displayNameLookup.
  destruct (buildIndexFrom_byTitle existingProducts ShopifyClient.emptyIndex idx
              (ShopifyClient.titleOf csvItem0) Hb) as [Ha Hc].
  split.
  - intros q Hq. destruct (JS.isEmpty (ShopifyClient.titleOf csvItem0)); [discriminate|].
    destruct (Hc q Hq) as [H | [H _]]; [exact H|].
    simpl in H. rewrite lookup_empty in H. discriminate.
  - intros Hne Hp.
    destruct (JS.isEmpty (ShopifyClient.titleOf csvItem0)) eqn:He.
    + apply isEmpty_true in He. contradiction.
    + apply Ha. now left.
Qed.

Lemma display_name_match_is_last_witness :
  exists before after,
    [remoteUntitled; remoteGoldRing] = (before ++ remoteGoldRing :: after)%list
    /\ hasName (ShopifyClient.titleOf (row "Gold Ring")) remoteGoldRing
    /\ forall p, In p after -> ~ hasName (ShopifyClient.titleOf (row "Gold Ring")) p.
Proof.
  destruct (display_name_match_is_last [remoteUntitled; remoteGoldRing] indexOfBoth
              (row "Gold Ring")) as [H _]; [vm_compute; reflexivity ..|].
  apply (H remoteGoldRing). vm_compute. reflexivity.
Defined.

(** X20. Over a catalog whose records all have a title, and for a row with
    a description, the scan of [productExists] answers that the row
    exists exactly when the lookup of [categorizeProducts] against the
    index built from that catalog finds a record; the scan does not
    throw. *)
Theorem scan_agrees_with_index (existingProducts : list product)
    (idx : ShopifyClient.index) (csvItem0 : csvItem) :
  ShopifyClient.buildIndex existingProducts = Ok idx ->
  JS.truthy (Description csvItem0) = true ->
  ShopifyClient.productExists csvItem0 existingProducts
  = Ok (negb (unmatched idx csvItem0)).
Proof. apply scan_index. Qed.

Lemma scan_agrees_with_index_witness :
  ShopifyClient.productExists rowX1 [remoteUntitled; remoteGoldRing]
  = Ok (negb (unmatched indexOfBoth rowX1)).
Proof.
  apply (scan_agrees_with_index [remoteUntitled; remoteGoldRing] indexOfBoth rowX1);
    vm_compute; reflexivity.
Defined.

(* ===================================================================== *)
(** ** The payload of a row *)
(* ===================================================================== *)

Section Payload.

Import ShopifyClient.

Lemma substring0_length (n : nat) (s : string) :
  (String.length (JS.substring0 n s) <= n)%nat.
Proof.
  unfold JS.substring0. revert s; induction n as [|n IH]; intros s.
  - destruct s; simpl; lia.
  - destruct s as [|c r]; simpl; [lia|]. specialize (IH r). lia.
Qed.

Lemma orElse_nonempty (o : option string) (d : string) :
  d <> "" -> JS.orElse o d <> "".
Proof.
  intros Hd. unfold JS.orElse. destruct o as [s|]; trivial.
  destruct (JS.isEmpty s) eqn:He; trivial.
  intros ->. discriminate.
Qed.

Lemma getCategoryId_In (csvItem0 : csvItem) :
  In (getCategoryId csvItem0) (List.map snd categoryMap).
Proof.
  unfold getCategoryId.
  destruct (negb (JS.truthy (Categories csvItem0))); [apply default_In|].
  destruct (firstCategory _) as [id|] eqn:Hc.
  - eapply firstCategory_In, Hc.
  - apply default_In.
Qed.

Lemma generateProductDescription_nonempty (csvItem0 : csvItem) (more : csvColumns) :
  generateProductDescription csvItem0 more <> "".
Proof.
  unfold generateProductDescription. cbv zeta.
  match goal with
  | |- (if JS.isEmpty ?d then _ else _) <> _ => destruct d eqn:Hd
  end; simpl; discriminate.
Qed.

(** Removing the first x of [l ++ "x" ++ w] removes the separator when
    [l] has no x. *)
Lemma removeFirst_separator (l w : string) :
  allChars (fun c => negb (isLetterX c)) l = true ->
  JS.removeFirst isLetterX (l ++ "x" ++ w) = l ++ w.
Proof.
  rewrite (append_cons "x"), append_nil_l.
  induction l as [|c l IH]; intros H.
  - now rewrite !append_nil_l.
  - simpl in H. apply andb_true_iff in H. destruct H as [Hc Hl].
    apply negb_true_iff in Hc. rewrite !(append_cons c). simpl.
    now rewrite Hc, IH.
Qed.

End Payload.

(** X21. The payload that [mapCSVToShopifyProduct] builds for any row: the
    title and the description text are never empty; the handle is made of
    lower-case letters, digits and hyphens and has at most 100 characters;
    the status is "active" for a row whose status is exactly "Active" and
    "draft" otherwise, and the payload is published exactly when it is
    active; there is one variant; the category is an identifier of the
    taxonomy vocabulary; the SEO fields are present exactly when the row
    has a description, the SEO title within 70 and the SEO description
    within 160 characters. *)
Theorem payload_wellformed (csvItem0 : csvItem) (more : ShopifyClient.csvColumns) :
  let pd := ShopifyClient.mapCSVToShopifyProduct csvItem0 more in
  ShopifyClient.pd_title pd <> ""
  /\ ShopifyClient.pd_body_html pd <> ""
  /\ allChars isHandleChar (ShopifyClient.pd_handle pd) = true
  /\ (String.length (ShopifyClient.pd_handle pd) <= 100)%nat
  /\ ShopifyClient.pd_status pd
     = (if bool_decide (Status csvItem0 = Some "Active") then "active" else "draft")
  /\ ShopifyClient.pd_published pd = bool_decide (ShopifyClient.pd_status pd = "active")
  /\ length (ShopifyClient.pd_variants pd) = 1%nat
  /\ In (ShopifyClient.pd_category pd) (List.map snd ShopifyClient.categoryMap)
  /\ (is_Some (ShopifyClient.pd_seo_title pd) <-> JS.truthy (Description csvItem0) = true)
  /\ (is_Some (ShopifyClient.pd_seo_description pd)
      <-> JS.truthy (Description csvItem0) = true)
  /\ (forall t, ShopifyClient.pd_seo_title pd = Some t -> (String.length t <= 70)%nat)
  /\ (forall d, ShopifyClient.pd_seo_description pd = Some d ->
        (String.length d <= 160)%nat).
Proof.
  intros pd. subst pd. unfold ShopifyClient.mapCSVToShopifyProduct.
  cbn [ShopifyClient.pd_title ShopifyClient.pd_body_html ShopifyClient.pd_handle
       ShopifyClient.pd_status ShopifyClient.pd_published ShopifyClient.pd_variants
       ShopifyClient.pd_category ShopifyClient.pd_seo_title
       ShopifyClient.pd_seo_description].
  destruct (generateHandle_facts (JS.orOpt (Description csvItem0) (Item csvItem0)))
    as (Hh1 & _ & _ & Hh2).
  split; [apply orElse_nonempty; discriminate|].
  split; [apply generateProductDescription_nonempty|].
  split; [exact Hh1|]. split; [exact Hh2|].
  split.
  { unfold ShopifyClient.csvStatusOf. destruct (Status csvItem0) as [s|].
    - destruct (String.eqb s "Active") eqn:He.
      + apply String.eqb_eq in He. subst s. now rewrite bool_decide_eq_true_2.
      + apply String.eqb_neq in He. rewrite bool_decide_eq_false_2; [reflexivity|].
        congruence.
    - now rewrite bool_decide_eq_false_2. }
  split.
  { unfold ShopifyClient.csvStatusOf. destruct (Status csvItem0) as [s|].
    - destruct (String.eqb s "Active"); reflexivity.
    - reflexivity. }
  split; [reflexivity|].
  split; [apply getCategoryId_In|].
  destruct (JS.truthy (Description csvItem0)).
  - repeat split; eauto.
    + intros t [= <-]. apply substring0_length.
    + intros d [= <-]. unfold ShopifyClient.generateSEODescription.
      apply substring0_length.
  - repeat split; try discriminate; intros [x Hx]; discriminate.
Qed.

Lemma payload_wellformed_witness :
  (String.length (JS.substring0 70 "Silver Chain") <= 70)%nat.
Proof.
  destruct (payload_wellformed rowFive noColumns)
    as (_ & _ & _ & _ & _ & _ & _ & _ & _ & _ & H & _).
  apply H. reflexivity.
Defined.

(** X22. The option of the variant of a row without a size: the text is
    built as length, the letter x, width, and then the first x of that
    text is removed; so when the length holds no x the separator itself is
    removed and the option is the length followed at once by the width.
    A row with a size has the size as its option, and a row with none of
    the three has no option. *)
Theorem variant_option_drops_separator
    (csvItem0 : csvItem) (more : ShopifyClient.csvColumns) :
  JS.truthy (ShopifyClient.Size more) = false ->
  JS.truthy (ShopifyClient.Length more) || JS.truthy (ShopifyClient.Width more) = true ->
  allChars (fun c => negb (ShopifyClient.isLetterX c))
    (JS.orElse (ShopifyClient.Length more) "") = true ->
  ShopifyClient.vd_option1 (ShopifyClient.createVariant csvItem0 more)
  = Some (JS.orElse (ShopifyClient.Length more) ""
          ++ JS.orElse (ShopifyClient.Width more) "").
Proof.
  intros Hs Hlw Hx. unfold ShopifyClient.createVariant.
  cbn [ShopifyClient.vd_option1]. rewrite Hs. cbn [orb]. rewrite Hlw.
  now rewrite removeFirst_separator.
Qed.

Lemma variant_option_drops_separator_witness :
  ShopifyClient.vd_option1 (ShopifyClient.createVariant rowFive columns18by2)
  = Some (JS.orElse (ShopifyClient.Length columns18by2) ""
          ++ JS.orElse (ShopifyClient.Width columns18by2) "").
Proof.
  apply (variant_option_drops_separator rowFive columns18by2); reflexivity.
Defined.

Example variant_option_18_by_2 :
  ShopifyClient.vd_option1 (ShopifyClient.createVariant rowFive columns18by2)
  = Some "182".
Proof. vm_compute. reflexivity. Qed.

(* ===================================================================== *)
(** ** Payload: images and metafields *)
(* ===================================================================== *)

Section Lists.

Import ShopifyClient.


Lemma truthy_orElse (o : option string) : JS.truthy o = true -> JS.orElse o "" <> "".
Proof.
  destruct o as [s|]; simpl; [|discriminate].
  destruct (JS.isEmpty s) eqn:He; [discriminate|].
  intros _ ->. discriminate.
Qed.


End Lists.



(** X24. The metafields of a payload: at most four, all in the namespace
    "custom", with pairwise distinct keys and no empty value; the item
    number is among them exactly when the row has an identifier. *)
Theorem createMetafields_facts (csvItem0 : csvItem) (more : ShopifyClient.csvColumns) :
  (length (ShopifyClient.createMetafields csvItem0 more) <= 4)%nat
  /\ List.NoDup (List.map ShopifyClient.mf_key
                   (ShopifyClient.createMetafields csvItem0 more))
  /\ (forall m, In m (ShopifyClient.createMetafields csvItem0 more) ->
        ShopifyClient.mf_namespace m = "custom" /\ ShopifyClient.mf_value m <> "")
  /\ (In "item_number"
        (List.map ShopifyClient.mf_key (ShopifyClient.createMetafields csvItem0 more))
      <-> JS.truthy (Item csvItem0) = true).
Proof.
  unfold ShopifyClient.createMetafields, ShopifyClient.metafieldIf.
  pose proof (truthy_orElse (Item csvItem0)) as H1.
  pose proof (truthy_orElse (ShopifyClient.ListOfSpecs more)) as H2.
  pose proof (truthy_orElse (ShopifyClient.Metal_Desc more)) as H3.
  pose proof (truthy_orElse (ShopifyClient.Country_Of_Origin more)) as H4.
  destruct (JS.truthy (Item csvItem0)),
           (JS.truthy (ShopifyClient.ListOfSpecs more)),
           (JS.truthy (ShopifyClient.Metal_Desc more)),
           (JS.truthy (ShopifyClient.Country_Of_Origin more));
    cbn [app length List.map ShopifyClient.mf_key];
    (split; [lia|]);
    (split; [repeat constructor; simpl; intuition discriminate|]);
    (split;
     [intros m Hm; simpl in Hm;
      repeat (destruct Hm as [<-|Hm]; [split; [reflexivity | auto]|]);
      destruct Hm
     | simpl; intuition discriminate]).
Qed.

Lemma createMetafields_facts_witness :
  In "item_number"
    (List.map ShopifyClient.mf_key (ShopifyClient.createMetafields rowFive noColumns)).
Proof.
  apply (createMetafields_facts rowFive noColumns). reflexivity.
Defined.

(* ===================================================================== *)
(** ** The flow of the processor *)
(* ===================================================================== *)

Lemma succeeds_agree (cp cp' : csvItem -> Exc product) (l : list csvItem) :
  (forall c, In c l -> cp c = cp' c) ->
  List.filter (succeeds cp) l = List.filter (succeeds cp') l
  /\ List.filter (fun c => negb (succeeds cp c)) l
     = List.filter (fun c => negb (succeeds cp' c)) l
  /\ flat_map (directError cp) l = flat_map (directError cp') l.
Proof.
  intros H. induction l as [|c l IH]; [repeat split|].
  destruct IH as (I1 & I2 & I3); [intros x Hx; apply H; now right|].
  cbn [List.filter flat_map]. unfold succeeds, directError in *.
  rewrite (H c (or_introl eq_refl)), I1, I2, I3. repeat split.
Qed.

(** A dry run of a direct batch counts every row as created and calls
    nothing. *)
Lemma processBatchDirect_dry_from (createProduct : csvItem -> Exc product)
    (all l : list csvItem) (index : nat) (r : ShopifyClient.directResults) :
  ShopifyClient.forEachFrom (ShopifyClient.recordDirect all) index
    (allSettled (List.map (ShopifyClient.directItem createProduct true) l)) r
  = ShopifyClient.mkDirect (ShopifyClient.d_total r)
      (ShopifyClient.d_created r + length l) (ShopifyClient.d_errors r)
      (ShopifyClient.d_errorDetails r).
Proof.
  revert index r; induction l as [|c l IH]; intros index r; simpl.
  - destruct r; simpl. now rewrite Nat.add_0_r.
  - rewrite IH. simpl. f_equal. lia.
Qed.

Section Flow.

Import ProductProcessor.

Variable bc : batchConfig.
Hypothesis batchSize_pos : (0 < batchSize bc)%nat.
Hypothesis maxConcurrent_pos : (0 < maxConcurrentBatches bc)%nat.

(** The run of the scheduler, in full: its report and its log. *)
Lemma batched_run (createProduct : csvItem -> Exc product) (fuel : nat)
    (products : list csvItem) :
  (length products < fuel)%nat ->
  let batches :=
    List.map (fun j => slice j (j + batchSize bc) products)
      (strideIndices (ceilDiv (length products) (batchSize bc)) 0 (batchSize bc)) in
  processBatchedProducts createProduct fuel bc products
  = Some (mkBatched (length products)
            (length (List.filter (succeeds createProduct) products))
            (length (List.filter (fun c => negb (succeeds createProduct c)) products))
            (flat_map (directError createProduct) products),
          flat_map (windowEvents bc batches)
            (strideIndices (ceilDiv (length batches) (maxConcurrentBatches bc)) 0
               (maxConcurrentBatches bc))).
Proof using batchSize_pos maxConcurrent_pos.
  intros Hf batches.
  destruct (batched_report createProduct bc fuel products batchSize_pos
              maxConcurrent_pos Hf) as [log Hrun].
  destruct (processBatchedProducts_log createProduct bc batchSize_pos
              maxConcurrent_pos fuel products Hf) as [r Hlog].
  fold batches in Hlog. rewrite Hrun in Hlog |- *. now injection Hlog as _ ->.
Qed.

End Flow.

(** X25. [processFilteredProductsBatch], with a positive batch size, a
    positive number of concurrent batches and more fuel than rows: a feed
    without an eligible row is answered at once, without a batch; otherwise
    the report counts the eligible rows alone, each with the outcome of
    its own creation. A row that the filter rejects is never created: the
    result is the same for any two remote sides that agree on the
    eligible rows. *)
Theorem flow_creates_only_eligible_rows
    (createProduct createProduct' : csvItem -> Exc product)
    (fc : filterCriteria) (bc : ProductProcessor.batchConfig)
    (fuel : nat) (data : list csvItem) :
  (0 < ProductProcessor.batchSize bc)%nat ->
  (0 < ProductProcessor.maxConcurrentBatches bc)%nat ->
  (length data < fuel)%nat ->
  (ProductProcessor.filterProducts fc data = [] ->
   ProductProcessor.processFilteredProductsBatch createProduct fuel fc bc data
   = Some (ProductProcessor.NoMatchingProducts, []))
  /\ (ProductProcessor.filterProducts fc data <> [] ->
      exists log,
        ProductProcessor.processFilteredProductsBatch createProduct fuel fc bc data
        = Some (ProductProcessor.BatchResults
                  (ProductProcessor.mkBatched
                     (length (ProductProcessor.filterProducts fc data))
                     (length (List.filter (succeeds createProduct)
                                (ProductProcessor.filterProducts fc data)))
                     (length (List.filter (fun c => negb (succeeds createProduct c))
                                (ProductProcessor.filterProducts fc data)))
                     (flat_map (directError createProduct)
                        (ProductProcessor.filterProducts fc data))), log))
  /\ ((forall c, In c data -> ProductProcessor.keeps fc c = true ->
         createProduct c = createProduct' c) ->
      ProductProcessor.processFilteredProductsBatch createProduct fuel fc bc data
      = ProductProcessor.processFilteredProductsBatch createProduct' fuel fc bc data).
Proof.
  intros HB HM Hf.
  assert (Hlen : (length (ProductProcessor.filterProducts fc data) < fuel)%nat).
  { pose proof (filter_length_le (ProductProcessor.keeps fc) data).
    unfold ProductProcessor.filterProducts. lia. }
  unfold ProductProcessor.processFilteredProductsBatch.
  split; [|split].
  - intros ->. reflexivity.
  - intros Hne.
    destruct (ProductProcessor.filterProducts fc data) as [|c l] eqn:Hfilt;
      [contradiction|].
    cbn [length Nat.eqb].
    rewrite (batched_run bc HB HM createProduct fuel (c :: l) Hlen).
    eexists. reflexivity.
  - intros Hagree.
    destruct (length (ProductProcessor.filterProducts fc data) =? 0)%nat;
      [reflexivity|].
    rewrite (batched_run bc HB HM createProduct fuel _ Hlen),
            (batched_run bc HB HM createProduct' fuel _ Hlen).
    destruct (succeeds_agree createProduct createProduct'
                (ProductProcessor.filterProducts fc data)) as (H1 & H2 & H3).
    { intros c Hc. unfold ProductProcessor.filterProducts in Hc.
      apply filter_In in Hc. now apply Hagree. }
    now rewrite H1, H2, H3.
Qed.

Lemma flow_creates_only_eligible_rows_witness :
  ProductProcessor.processFilteredProductsBatch refusesB2 5 pearlsOnly
    ProductProcessor.batchConfig0 [discontinuedRing; pearlItem]
  = Some (ProductProcessor.NoMatchingProducts, []).
Proof.
  destruct (flow_creates_only_eligible_rows refusesB2 refusesB2 pearlsOnly
              ProductProcessor.batchConfig0 5 [discontinuedRing; pearlItem])
    as (H & _); [cbn; lia | cbn; lia | cbn; lia |].
  apply H. vm_compute. reflexivity.
Defined.

(** X26. A dry run of [processBatchDirect] counts every row of the batch
    as created and none as failed, records no error entry and does not
    depend on the remote side; so [testRun] answers nothing for a feed
    without an eligible row, and otherwise reports as created the first
    eligible rows, three at most. *)
Theorem dry_direct_batch_counts_all
    (createProduct : csvItem -> Exc product) (fc : filterCriteria)
    (csvItems data : list csvItem) :
  ShopifyClient.processBatchDirect createProduct csvItems true
  = ShopifyClient.mkDirect (length csvItems) (length csvItems) 0 []
  /\ ProductProcessor.testRun createProduct fc data
     = match ProductProcessor.filterProducts fc data with
       | [] => None
       | _ :: _ =>
           let k := Nat.min 3 (length (ProductProcessor.filterProducts fc data)) in
           Some (ShopifyClient.mkDirect k k 0 [])
       end.
Proof.
  assert (Hd : forall l, ShopifyClient.processBatchDirect createProduct l true
                         = ShopifyClient.mkDirect (length l) (length l) 0 []).
  { intros l. unfold ShopifyClient.processBatchDirect, ShopifyClient.forEach.
    now rewrite processBatchDirect_dry_from. }
  split; [apply Hd|].
  unfold ProductProcessor.testRun.
  destruct (ProductProcessor.filterProducts fc data) as [|c l]; [reflexivity|].
  cbn [length Nat.eqb]. rewrite Hd. cbv zeta. rewrite slice_length.
  now rewrite !Nat.sub_0_r.
Qed.

(* ===================================================================== *)
(** ** Creating one product *)
(* ===================================================================== *)

Section CreateOne.

Import ShopifyClient.

Lemma vocabulary_nonempty (id : string) :
  In id (List.map snd categoryMap) -> JS.isEmpty id = false.
Proof.
  assert (H : forallb (fun x => negb (JS.isEmpty x)) (List.map snd categoryMap) = true)
    by (vm_compute; reflexivity).
  rewrite forallb_forall in H. intros Hin. apply negb_true_iff. now apply H.
Qed.

End CreateOne.

(** X27. Creating the product of a row, for an initialized client: the
    payload is posted, and when the post succeeds the category of the
    payload is set in a second call -- always, since the category of a
    payload is never empty; the outcome is that of the post alone, so a
    failed category update does not fail the creation. And
    [processSingleProductFromCSV] never throws: it answers with the
    failure of the post as [{ success: false, error }]. *)
Theorem createProduct_outcome
    (post : ShopifyClient.productData -> Exc product)
    (updateProductCategory : Z -> string -> Exc unit)
    (csvItem0 : csvItem) (more : ShopifyClient.csvColumns) :
  let pd := ShopifyClient.mapCSVToShopifyProduct csvItem0 more in
  fst (ShopifyClient.createProduct post updateProductCategory pd) = post pd
  /\ snd (ShopifyClient.createProduct post updateProductCategory pd)
     = ShopifyClient.CallPost pd
       :: match post pd with
          | Ok p =>
              [ShopifyClient.CallCategory (product_id p)
                 (ShopifyClient.getCategoryId csvItem0)]
          | Throw _ => []
          end
  /\ ShopifyClient.processSingleProductFromCSV post updateProductCategory
       csvItem0 more false
     = Ok match post pd with
          | Ok p => ShopifyClient.SingleSuccess (ShopifyClient.ItemCreated p)
          | Throw message => ShopifyClient.SingleFailure message
          end
  /\ ShopifyClient.processSingleProductFromCSV post updateProductCategory
       csvItem0 more true
     = Ok (ShopifyClient.SingleDryRun pd).
Proof.
  intros pd.
  assert (Hc : JS.isEmpty (ShopifyClient.pd_category pd) = false).
  { apply vocabulary_nonempty. subst pd. cbn [ShopifyClient.mapCSVToShopifyProduct
      ShopifyClient.pd_category]. apply getCategoryId_In. }
  assert (H1 : fst (ShopifyClient.createProduct post updateProductCategory pd) = post pd).
  { unfold ShopifyClient.createProduct. destruct (post pd) as [p|m]; [|reflexivity].
    rewrite Hc. cbn [negb fst].
    now destruct (updateProductCategory (product_id p) (ShopifyClient.pd_category pd)). }
  split; [exact H1|]. split; [|split].
  - unfold ShopifyClient.createProduct. destruct (post pd) as [p|m]; [|reflexivity].
    rewrite Hc. reflexivity.
  - unfold ShopifyClient.processSingleProductFromCSV, ShopifyClient.processCreateItem.
    fold pd. rewrite H1. now destruct (post pd).
  - reflexivity.
Qed.

(* ===================================================================== *)
(** ** The deletion script *)
(* ===================================================================== *)

Section Deletion.

Import ProductDeleter.

Variable getAllProducts : Exc (list product).
Variable deleteProduct : Z -> Exc unit.

(** The promise of a product of a batch is always fulfilled: with the
    deletion, or with the failure of that product. *)
Lemma deletionItem_settles (p : product) :
  deletionItem deleteProduct false p =
  match deleteProduct (product_id p) with
  | Ok _ => Ok (Deleted p)
  | Throw message => Ok (DeletionFailure message p)
  end.
Proof. unfold deletionItem. simpl. now destruct (deleteProduct (product_id p)). Qed.

Lemma processBatchDeletion_from (all l : list product) (index : nat)
    (r : deletionResults) :
  ShopifyClient.forEachFrom (recordDeletion all) index
    (allSettled (List.map (deletionItem deleteProduct false) l)) r
  = mkDeletion (total r)
      (deleted r + length (List.filter (deletes deleteProduct) l))
      (errors r + length (List.filter (fun p => negb (deletes deleteProduct p)) l))
      (skipped r)
      (errorDetails r ++ flat_map (deletionErrorOf deleteProduct) l).
Proof.
  revert index r; induction l as [|p l IH]; intros index r; simpl.
  - destruct r; simpl. now rewrite !Nat.add_0_r, app_nil_r.
  - rewrite deletionItem_settles. cbn [List.filter flat_map].
    assert (Hs : deletes deleteProduct p
                 = match deleteProduct (product_id p) with
                   | Ok _ => true
                   | Throw _ => false
                   end) by reflexivity.
    assert (He : deletionErrorOf deleteProduct p
                 = match deleteProduct (product_id p) with
                   | Ok _ => []
                   | Throw message =>
                       [DeletionError (Some (product_id p)) (title p) message]
                   end) by reflexivity.
    rewrite Hs, He. clear Hs He.
    destruct (deleteProduct (product_id p)) as [u|m];
      cbn [allSettled ShopifyClient.forEachFrom recordDeletion negb];
      rewrite IH; cbn [total deleted errors skipped errorDetails length app];
      f_equal; try lia.
    now rewrite <- app_assoc.
Qed.

Lemma processDeletionsAt_report (opts : options) (products : list product) (i : nat)
    (st : deletionResults * list event) :
  dryRun opts = false ->
  fst (processDeletionsAt deleteProduct opts products i st)
  = let batch := slice i (i + batchSize opts) products in
    mkDeletion (total (fst st))
      (deleted (fst st) + length (List.filter (deletes deleteProduct) batch))
      (errors (fst st)
       + length (List.filter (fun p => negb (deletes deleteProduct p)) batch))
      (skipped (fst st))
      (errorDetails (fst st) ++ flat_map (deletionErrorOf deleteProduct) batch).
Proof.
  intros Hdry. unfold processDeletionsAt. rewrite Hdry. cbn [tryCatch].
  unfold processBatchDeletion, ShopifyClient.forEach.
  rewrite processBatchDeletion_from.
  now destruct (i + batchSize opts <? length products)%nat.
Qed.

Lemma deletions_report (opts : options) (products : list product) (l : list nat)
    (st : deletionResults * list event) :
  dryRun opts = false ->
  fst (fold_left (fun x j => processDeletionsAt deleteProduct opts products j x) l st)
  = let rows := concat (List.map (fun j => slice j (j + batchSize opts) products) l) in
    mkDeletion (total (fst st))
      (deleted (fst st) + length (List.filter (deletes deleteProduct) rows))
      (errors (fst st)
       + length (List.filter (fun p => negb (deletes deleteProduct p)) rows))
      (skipped (fst st))
      (errorDetails (fst st) ++ flat_map (deletionErrorOf deleteProduct) rows).
Proof.
  intros Hdry. revert st; induction l as [|j l IH]; intros st.
  - simpl. destruct (fst st); simpl. now rewrite !Nat.add_0_r, app_nil_r.
  - cbn [fold_left List.map concat]. rewrite IH, processDeletionsAt_report by assumption.
    cbv zeta. cbn [total deleted errors skipped errorDetails].
    rewrite !List.filter_app, flat_map_app, !length_app, <- !app_assoc.
    f_equal; lia.
Qed.

(** The deletion of a non-empty catalog, whatever the target date. *)
Lemma deletion_run (fuel : nat) (allProducts : list product) (opts : options) :
  getAllProducts = Ok allProducts ->
  allProducts <> [] ->
  (0 < batchSize opts)%nat ->
  dryRun opts = false ->
  (length allProducts < fuel)%nat ->
  exists log, forall targetDate,
    deleteProductsByDate getAllProducts deleteProduct fuel targetDate opts
    = Some (Ok (mkDeletion (length allProducts)
                  (length (List.filter (deletes deleteProduct) allProducts))
                  (length (List.filter (fun p => negb (deletes deleteProduct p))
                             allProducts))
                  0
                  (flat_map (deletionErrorOf deleteProduct) allProducts), log)).
Proof.
  intros Hg Hne HB Hdry Hf.
  unfold deleteProductsByDate, filterProductsByDate. rewrite Hg.
  destruct allProducts as [|p ps] eqn:Hall; [contradiction|]. rewrite <- Hall in *.
  assert (Hz : (length allProducts =? 0)%nat = false)
    by (rewrite Hall; reflexivity).
  rewrite Hz. unfold confirmDeletion.
  assert (Hrun : processProductDeletions deleteProduct fuel allProducts opts
                 = Some (fold_left
                           (fun x j => processDeletionsAt deleteProduct opts allProducts j x)
                           (strideIndices
                              (strideCount 0 (length allProducts) (batchSize opts)) 0
                              (batchSize opts))
                           (mkDeletion (length allProducts) 0 0 0 [], []))).
  { unfold processProductDeletions. apply forStride_fold; trivial.
    pose proof (strideCount_le 0 (length allProducts) (batchSize opts) HB). lia. }
  rewrite Hrun. set (run := fold_left _ _ _).
  assert (Hfst : fst run
                 = mkDeletion (length allProducts)
                     (length (List.filter (deletes deleteProduct) allProducts))
                     (length (List.filter (fun p => negb (deletes deleteProduct p))
                                allProducts))
                     0
                     (flat_map (deletionErrorOf deleteProduct) allProducts)).
  { unfold run. rewrite deletions_report by assumption. cbv zeta.
    rewrite (concat_slices _ allProducts HB) by reflexivity.
    now rewrite skipn_O. }
  destruct (confirmBeforeDelete opts && negb (dryRun opts)); cbn [negb option_map];
    rewrite Hfst; eexists; intros targetDate; reflexivity.
Qed.

Lemma indexOfFrom_app (x : string) (before rest : list string) (i : nat) :
  ~ In x before ->
  indexOfFrom x i (before ++ x :: rest) = Some (i + length before)%nat.
Proof.
  revert i; induction before as [|a before IH]; intros i Hn; simpl.
  - rewrite String.eqb_refl. f_equal. lia.
  - destruct (String.eqb a x) eqn:He.
    + apply String.eqb_eq in He. subst a. destruct Hn. now left.
    + rewrite IH; [f_equal; lia|]. intros H. apply Hn. now right.
Qed.

End Deletion.

(** X28. The deletion script takes the whole catalog, whatever the target
    date: [filterProductsByDate] returns its input, since its body starts
    with [return products]. So for a non-empty catalog, a positive batch
    size and more fuel than products, a run without dry run attempts the
    deletion of every product of the catalog: the report has the size of
    the catalog as total, the products whose own deletion succeeded as
    deleted, the others as errors with one entry each, nothing skipped
    -- the buckets sum to the total -- and it is the same for every
    target date. *)
Theorem deletion_takes_whole_catalog
    (getAllProducts : Exc (list product)) (deleteProduct : Z -> Exc unit)
    (fuel : nat) (allProducts : list product) (opts : ProductDeleter.options) :
  getAllProducts = Ok allProducts ->
  allProducts <> [] ->
  (0 < ProductDeleter.batchSize opts)%nat ->
  ProductDeleter.dryRun opts = false ->
  (length allProducts < fuel)%nat ->
  (forall targetDate,
     ProductDeleter.filterProductsByDate allProducts targetDate = allProducts)
  /\ exists r log,
       (forall targetDate,
          ProductDeleter.deleteProductsByDate getAllProducts deleteProduct fuel
            targetDate opts = Some (Ok (r, log)))
       /\ r = ProductDeleter.mkDeletion (length allProducts)
                (length (List.filter (deletes deleteProduct) allProducts))
                (length (List.filter (fun p => negb (deletes deleteProduct p))
                           allProducts))
                0
                (flat_map (deletionErrorOf deleteProduct) allProducts)
       /\ (ProductDeleter.deleted r + ProductDeleter.errors r + ProductDeleter.skipped r
           = ProductDeleter.total r)%nat.
Proof.
  intros Hg Hne HB Hdry Hf. split; [reflexivity|].
  destruct (deletion_run getAllProducts deleteProduct fuel allProducts opts
              Hg Hne HB Hdry Hf) as [log Hrun].
  eexists _, log. split; [exact Hrun|]. split; [reflexivity|].
  cbn [ProductDeleter.deleted ProductDeleter.errors ProductDeleter.skipped
       ProductDeleter.total].
  pose proof (filter_partition_length (deletes deleteProduct) allProducts). lia.
Qed.

Lemma deletion_takes_whole_catalog_witness :
  exists r log,
    (forall targetDate,
       ProductDeleter.deleteProductsByDate (Ok [remoteUntitled; remoteGoldRing])
         refusesToDelete2 5 targetDate (ProductDeleter.mkOptions false 5 2000 true)
       = Some (Ok (r, log)))
    /\ r = ProductDeleter.mkDeletion (length [remoteUntitled; remoteGoldRing])
             (length (List.filter (deletes refusesToDelete2)
                        [remoteUntitled; remoteGoldRing]))
             (length (List.filter (fun p => negb (deletes refusesToDelete2 p))
                        [remoteUntitled; remoteGoldRing]))
             0
             (flat_map (deletionErrorOf refusesToDelete2)
                [remoteUntitled; remoteGoldRing])
    /\ (ProductDeleter.deleted r + ProductDeleter.errors r + ProductDeleter.skipped r
        = ProductDeleter.total r)%nat.
Proof.
  apply (deletion_takes_whole_catalog (Ok [remoteUntitled; remoteGoldRing])
           refusesToDelete2 5 [remoteUntitled; remoteGoldRing]
           (ProductDeleter.mkOptions false 5 2000 true));
    [reflexivity | discriminate | simpl; lia | reflexivity | simpl; lia].
Defined.

Example deletion_of_two_products :
  ProductDeleter.deleteProductsByDate (Ok [remoteUntitled; remoteGoldRing])
    refusesToDelete2 5 "2025-10-16" (ProductDeleter.mkOptions false 5 2000 true)
  = Some (Ok (ProductDeleter.mkDeletion 2 1 1 0
                [ProductDeleter.DeletionError (Some 2%Z) (Some "Gold Ring")
                   "API Error 500"],
              [EvDelay 3000; EvBatches [2%nat]])).
Proof. vm_compute. reflexivity. Qed.

(** X29. The [--date] option of the deletion script cannot work: the
    target date is a constant, so when the arguments hold [--date]
    followed by a non-empty value the assignment throws, and [main] exits
    with the code 1 before the catalog is fetched or anything is deleted,
    whatever the remote side would answer. *)
Theorem main_date_option_fails
    (getAllProducts : Exc (list product)) (deleteProduct : Z -> Exc unit)
    (fuel : nat) (before rest : list string) (date : string) :
  ~ In "--date" before ->
  date <> "" ->
  ProductDeleter.main getAllProducts deleteProduct fuel
    (before ++ "--date" :: date :: rest)%list
  = Some (1%nat, []).
Proof.
  intros Hb Hd. unfold ProductDeleter.main.
  assert (He : existsb (String.eqb "--date") (before ++ "--date" :: date :: rest) = true).
  { apply existsb_exists. exists "--date". split; [|apply String.eqb_refl].
    apply in_or_app. right. now left. }
  rewrite He. unfold ProductDeleter.indexOf. rewrite indexOfFrom_app by assumption.
  cbn [Nat.add].
  assert (Hn : nth_error (before ++ "--date" :: date :: rest) (length before + 1)
               = Some date).
  { rewrite nth_error_app2 by lia.
    replace (length before + 1 - length before)%nat with 1%nat by lia. reflexivity. }
  rewrite Hn. destruct date; [contradiction | reflexivity].
Qed.

Lemma main_date_option_fails_witness :
  ProductDeleter.main (Ok [remoteUntitled; remoteGoldRing]) refusesToDelete2 5
    (["--dry-run"] ++ "--date" :: "2025-10-14" :: [])%list
  = Some (1%nat, []).
Proof.
  apply (main_date_option_fails (Ok [remoteUntitled; remoteGoldRing]) refusesToDelete2 5
           ["--dry-run"] [] "2025-10-14").
  - intros [H|[]]. discriminate.
  - discriminate.
Defined.

(* ===================================================================== *)
(** ** The rows of the reader *)
(* ===================================================================== *)

Section Rows.

Import CSVProcessor.







End Rows.



Example processRow_of_raw_row :
  option_map csvItemOf (CSVProcessor.processRow rawRow)
  = Some (mkCsvItem (Some "R-1") None (Some "120.00") None None None None None None).
Proof. vm_compute. reflexivity. Qed.
